(** * PaymeCrypto: the balance-aggregation engine of [Backend-flask/app.py]

    A shallow embedding of [compute_balance_for_chain] and of the helpers it
    calls ([cached_markets], [cached_coin_detail], [find_contract_for_coin_id],
    [get_web3], the three balance adapters), of the loaders of the chain
    registry and of the two market-data endpoints, followed by the properties
    the specification states about them and by further properties of the
    code.

    - JSON documents and Python objects are values of [pyval]; a dict is an
      association list in insertion order, a [str] a string of 8-bit
      characters.
    - Python floats are the kernel's binary64 floats.
    - The module-level dictionaries ([RPC_URLS], the two caches, the provider
      map) form the program state; the HTTP provider, the chain RPC clients,
      the clock and the configuration sources are collaborators acting on an
      abstract outside world.
    - A Python function is a state-passing function that returns a value or
      raises. *)

From Stdlib Require Import ZArith Floats String Ascii List.
From stdpp Require Import gmap strings list sorting.

Local Open Scope string_scope.
Local Open Scope list_scope.

(** ** Python values *)

#[warnings="-register-all"]
Inductive pyval : Type :=
| VNone
| VBool (b : bool)
| VInt (z : Z)
| VFloat (f : float)
| VStr (s : string)
| VList (l : list pyval)
| VDict (d : list (string * pyval)).

Inductive exn : Type :=
| AttributeError
| TypeError
| ValueError
| KeyError
| IndexError
| OverflowError
| UpstreamError (msg : string).

(** The outcome of evaluating a Python expression. *)
Inductive outcome (A : Type) : Type :=
| Ok (a : A)
| Raise (e : exn).
Arguments Ok {A} a.
Arguments Raise {A} e.

#[global] Instance outcome_ret : MRet outcome := fun A a => Ok a.
#[global] Instance outcome_bind : MBind outcome := fun A B k o =>
  match o with
  | Ok a => k a
  | Raise e => Raise e
  end.

(** What the interpreter supplies and the claims never look into:
    [float(s)] on a [str] ([None] stands for [ValueError]), [str.upper],
    [str.strip] and [str(e)] on an exception. *)
Record Runtime : Type := {
  str_float : string -> option float;
  str_upper : string -> string;
  str_strip : string -> string;
  exn_str : exn -> string
}.

Definition f0 : float := PrimFloat.zero.
Definition f1 : float := PrimFloat.one.

(** [float(n)] on an [int]: the nearest binary64, [OverflowError] when that
    would be infinite. *)
Definition float_of_Z (z : Z) : option float :=
  match SpecFloat.binary_normalize prec emax z 0 false with
  | SpecFloat.S754_infinity _ => None
  | sf => Some (SF2Prim sf)
  end.

Definition float_truthy (f : float) : bool := negb (PrimFloat.eqb f f0).

(** [bool(v)] *)
Definition py_truthy (v : pyval) : bool :=
  match v with
  | VNone => false
  | VBool b => b
  | VInt z => negb (Z.eqb z 0)
  | VFloat f => float_truthy f
  | VStr s => negb (String.eqb s "")
  | VList l => match l with [] => false | _ => true end
  | VDict d => match d with [] => false | _ => true end
  end.

(** [a or b] *)
Definition py_or (a b : pyval) : pyval := if py_truthy a then a else b.

Fixpoint dict_get (d : list (string * pyval)) (k : string) : option pyval :=
  match d with
  | [] => None
  | (k', v) :: d' => if String.eqb k' k then Some v else dict_get d' k
  end.

(** [d.get(k)] on a dict *)
Definition dict_get_none (d : list (string * pyval)) (k : string) : pyval :=
  match dict_get d k with Some v => v | None => VNone end.

(** [v.get(k, dflt)]: only a dict has the method. *)
Definition py_get_default (v : pyval) (k : string) (dflt : pyval) : outcome pyval :=
  match v with
  | VDict d => Ok (match dict_get d k with Some x => x | None => dflt end)
  | _ => Raise AttributeError
  end.

Definition py_get (v : pyval) (k : string) : outcome pyval :=
  py_get_default v k VNone.

(** [float(v)] *)
Definition py_float (rt : Runtime) (v : pyval) : outcome float :=
  match v with
  | VBool b => Ok (if b then f1 else f0)
  | VInt z => match float_of_Z z with Some f => Ok f | None => Raise OverflowError end
  | VFloat f => Ok f
  | VStr s => match str_float rt s with Some f => Ok f | None => Raise ValueError end
  | VNone | VList _ | VDict _ => Raise TypeError
  end.

(** [v.upper()] *)
Definition py_upper (rt : Runtime) (v : pyval) : outcome pyval :=
  match v with
  | VStr s => Ok (VStr (str_upper rt s))
  | _ => Raise AttributeError
  end.

(** [v[0]] *)
Definition py_index0 (v : pyval) : outcome pyval :=
  match v with
  | VList (x :: _) => Ok x
  | VList [] => Raise IndexError
  | VStr (String c _) => Ok (VStr (String c ""))
  | VStr "" => Raise IndexError
  | VDict _ => Raise KeyError
  | VNone | VBool _ | VInt _ | VFloat _ => Raise TypeError
  end.

(** [v[:6]] *)
Definition py_slice6 (v : pyval) : outcome pyval :=
  match v with
  | VStr s => Ok (VStr (String.substring 0 6 s))
  | VList l => Ok (VList (firstn 6 l))
  | _ => Raise TypeError
  end.

Fixpoint chars (s : string) : list pyval :=
  match s with
  | "" => []
  | String c s' => VStr (String c "") :: chars s'
  end.

(** The items a [for] loop draws from [v]. *)
Definition py_iter (v : pyval) : outcome (list pyval) :=
  match v with
  | VList l => Ok l
  | VDict d => Ok (map (fun kv => VStr (fst kv)) d)
  | VStr s => Ok (chars s)
  | VNone | VBool _ | VInt _ | VFloat _ => Raise TypeError
  end.

(** [k in d] for a dict [d] with [str] keys: a list or a dict cannot be
    hashed, any other value that is not a [str] is no key of [d]. *)
Definition py_in {V} (k : pyval) (d : gmap string V) : outcome bool :=
  match k with
  | VStr s => Ok (bool_decide (is_Some (d !! s)))
  | VList _ | VDict _ => Raise TypeError
  | VNone | VBool _ | VInt _ | VFloat _ => Ok false
  end.

(** Numbers as [x or 0] leaves them: an [int] or a [float]. *)
Inductive pynum : Type :=
| NInt (z : Z)
| NFloat (f : float).

Definition num_val (n : pynum) : pyval :=
  match n with
  | NInt z => VInt z
  | NFloat f => VFloat f
  end.

(** [x or 0] for [x : Optional[float]] *)
Definition or_int0 (x : option float) : pynum :=
  match x with
  | Some f => if float_truthy f then NFloat f else NInt 0
  | None => NInt 0
  end.

(** [x or 0.0] for [x : Optional[float]] *)
Definition or_float0 (x : option float) : float :=
  match x with
  | Some f => if float_truthy f then f else f0
  | None => f0
  end.

(** [a * b] on numbers: an [int] operand of a [float] product is converted
    first. *)
Definition num_mul (a b : pynum) : outcome pynum :=
  match a, b with
  | NInt x, NInt y => Ok (NInt (x * y))
  | NInt x, NFloat g =>
      match float_of_Z x with
      | Some f => Ok (NFloat (PrimFloat.mul f g))
      | None => Raise OverflowError
      end
  | NFloat f, NInt y =>
      match float_of_Z y with
      | Some g => Ok (NFloat (PrimFloat.mul f g))
      | None => Raise OverflowError
      end
  | NFloat f, NFloat g => Ok (NFloat (PrimFloat.mul f g))
  end.

(** [v / 1e9] *)
Definition py_div_1e9 (v : pyval) : outcome float :=
  match v with
  | VBool b => Ok (PrimFloat.div (if b then f1 else f0) 1e9%float)
  | VInt z =>
      match float_of_Z z with
      | Some f => Ok (PrimFloat.div f 1e9%float)
      | None => Raise OverflowError
      end
  | VFloat f => Ok (PrimFloat.div f 1e9%float)
  | VNone | VStr _ | VList _ | VDict _ => Raise TypeError
  end.

Definition opt_float_val (x : option float) : pyval :=
  match x with
  | Some f => VFloat f
  | None => VNone
  end.

(** ** Program state and collaborators *)

(** An HTTP request to the market-data provider, by endpoint. *)
Inductive request : Type :=
| MarketsRequest (ids : string) (per_page : nat)
| CoinRequest (coin_id : string)
| ContractRequest (platform : string) (contract : pyval).

(** A response: [r.ok] and what [r.json()] gives. *)
Record response : Type := {
  resp_ok : bool;
  resp_json : outcome pyval
}.

(** A [Web3] object, identified by the endpoint it was built for. *)
Definition web3 : Type := string.

(** The module-level dictionaries, and the world outside the process. *)
Record State (W : Type) : Type := mkState {
  RPC_URLS : gmap string string;
  _WEB3_PROVIDERS : gmap string web3;
  _MARKETS_CACHE : gmap string (float * pyval);
  _COIN_DETAIL_CACHE : gmap string (float * pyval);
  world : W
}.
Arguments mkState {W}.
Arguments RPC_URLS {W}.
Arguments _WEB3_PROVIDERS {W}.
Arguments _MARKETS_CACHE {W}.
Arguments _COIN_DETAIL_CACHE {W}.
Arguments world {W}.

(** The external collaborators, each a transition of the outside world.
    - [time_time]: the clock;
    - [requests_get]: [requests.get], a response or an exception;
    - [load_chain_config]: the entries the environment variable and the
      chains file contribute on one reload;
    - [new_web3]: whether [Web3(HTTPProvider(url))] can be built;
    - [eth_get_balance], [erc20_balance_of]: the body of the [try] of the
      two EVM adapters, the balance or [None] for any exception;
    - [solana_get_balance]: the response of the Solana client. *)
Record Collaborators (W : Type) : Type := {
  SOLANA_AVAILABLE : bool;
  time_time : W -> float * W;
  requests_get : request -> W -> outcome response * W;
  load_chain_config : W -> list (string * string) * W;
  new_web3 : string -> W -> bool * W;
  eth_get_balance : web3 -> string -> W -> option float * W;
  erc20_balance_of : web3 -> pyval -> string -> W -> option float * W;
  solana_get_balance : string -> string -> W -> outcome pyval * W
}.
Arguments SOLANA_AVAILABLE {W}.
Arguments time_time {W}.
Arguments requests_get {W}.
Arguments load_chain_config {W}.
Arguments new_web3 {W}.
Arguments eth_get_balance {W}.
Arguments erc20_balance_of {W}.
Arguments solana_get_balance {W}.

(** A Python function body: from a state to a value or an exception, and the
    state it leaves. *)
Definition M (W A : Type) : Type := State W -> outcome A * State W.

#[global] Instance M_ret {W} : MRet (M W) := fun A a s => (Ok a, s).
#[global] Instance M_bind {W} : MBind (M W) := fun A B k m s =>
  match m s with
  | (Ok a, s') => k a s'
  | (Raise e, s') => (Raise e, s')
  end.

Definition get_state {W} : M W (State W) := fun s => (Ok s, s).

Definition eval {W A} (o : outcome A) : M W A := fun s => (o, s).

(** A call to a collaborator. *)
Definition call {W A} (f : W -> A * W) : M W A := fun s =>
  let '(a, w) := f (world s) in
  (Ok a, mkState (RPC_URLS s) (_WEB3_PROVIDERS s) (_MARKETS_CACHE s)
           (_COIN_DETAIL_CACHE s) w).

(** [try: m except Exception as e: h e] *)
Definition try_except {W A} (m : M W A) (h : exn -> M W A) : M W A := fun s =>
  match m s with
  | (Ok a, s') => (Ok a, s')
  | (Raise e, s') => h e s'
  end.

Definition set_rpc_urls {W} (u : gmap string string) : M W unit := fun s =>
  (Ok tt, mkState u (_WEB3_PROVIDERS s) (_MARKETS_CACHE s) (_COIN_DETAIL_CACHE s) (world s)).

Definition set_web3_providers {W} (p : gmap string web3) : M W unit := fun s =>
  (Ok tt, mkState (RPC_URLS s) p (_MARKETS_CACHE s) (_COIN_DETAIL_CACHE s) (world s)).

Definition set_markets_cache {W} (c : gmap string (float * pyval)) : M W unit := fun s =>
  (Ok tt, mkState (RPC_URLS s) (_WEB3_PROVIDERS s) c (_COIN_DETAIL_CACHE s) (world s)).

Definition set_coin_detail_cache {W} (c : gmap string (float * pyval)) : M W unit := fun s =>
  (Ok tt, mkState (RPC_URLS s) (_WEB3_PROVIDERS s) (_MARKETS_CACHE s) c (world s)).

(** ** Configuration tables *)

Definition PLATFORM_TO_CHAIN_KEY : list (string * string) :=
  [ ("ethereum", "ethereum");
    ("binance-smart-chain", "bsc");
    ("polygon-pos", "polygon");
    ("avalanche", "avax");
    ("arbitrum-one", "arbitrum");
    ("optimistic-ethereum", "optimism");
    ("fantom", "fantom");
    ("solana", "solana") ].

Definition NATIVE_COIN_TO_CHAIN : list (string * string) :=
  [ ("ethereum", "ethereum");
    ("binancecoin", "bsc");
    ("polygon", "polygon");
    ("avalanche-2", "avax");
    ("arbitrum", "arbitrum");
    ("optimism", "optimism");
    ("fantom", "fantom");
    ("solana", "solana") ].

Definition _CACHE_TTL : float := 12%float.

(** [table.get(k)] *)
Fixpoint table_get (table : list (string * string)) (k : string) : option string :=
  match table with
  | [] => None
  | (k', v) :: rest => if String.eqb k' k then Some v else table_get rest k
  end.

(** The key of the first item whose value is [v]:
    [for k, x in table.items(): if x == v: ...; break]. *)
Fixpoint table_key_of (table : list (string * string)) (v : pyval) : option string :=
  match table with
  | [] => None
  | (k, x) :: rest =>
      match v with
      | VStr s => if String.eqb x s then Some k else table_key_of rest v
      | _ => table_key_of rest v
      end
  end.

(** ** Chain registry *)

Section Engine.
Context {W : Type} (rt : Runtime) (ext : Collaborators W).

(** The net effect of [reload_rpc_config_if_changed]: the entries found are
    written over [RPC_URLS]; nothing is ever removed. *)
Definition reload_rpc_config_if_changed : M W unit :=
  entries ← call (load_chain_config ext);
  s ← get_state;
  set_rpc_urls (foldl (fun m kv => <[kv.1 := kv.2]> m) (RPC_URLS s) entries).

Definition get_web3 (chain_key : pyval) : M W (option web3) :=
  try_except reload_rpc_config_if_changed (fun _ => mret tt);;
  s ← get_state;
  known ← eval (py_in chain_key (RPC_URLS s));
  if negb known then mret None else
  match chain_key with
  | VStr k =>
      match _WEB3_PROVIDERS s !! k with
      | Some w3 => mret (Some w3)
      | None =>
          match RPC_URLS s !! k with
          | Some url =>
              built ← call (new_web3 ext url);
              if built : bool then
                set_web3_providers (<[k := url]> (_WEB3_PROVIDERS s));;
                mret (Some url)
              else mret None
          | None => mret None
          end
      end
  | _ => mret None
  end.

(** ** CoinGecko helpers *)

Definition str_le (a b : string) : Prop := String.leb a b = true.

#[global] Instance str_le_dec : RelDecision str_le.
Proof. intros a b. unfold str_le. apply _. Defined.

(** [sorted(ids)] *)
Definition sorted (ids : list string) : list string := merge_sort str_le ids.

(** [",".join(sorted(ids))] *)
Definition markets_key (ids : list string) : string :=
  String.concat "," (sorted ids).

(** The [try] of [cached_markets]: fetch, store under [key], return the
    data; the empty list on any exception. *)
Definition fetch_markets (key : string) (n : nat) (now : float) : M W pyval :=
  r ← call (requests_get ext (MarketsRequest key n));
  match r with
  | Raise _ => mret (VList [])
  | Ok resp =>
      if resp_ok resp then
        match resp_json resp with
        | Ok data =>
            s ← get_state;
            set_markets_cache (<[key := (now, data)]> (_MARKETS_CACHE s));;
            mret data
        | Raise _ => mret (VList [])
        end
      else mret (VList [])
  end.

Definition cached_markets (ids : list string) : M W pyval :=
  match ids with
  | [] => mret (VList [])
  | _ =>
      let key := markets_key ids in
      now ← call (time_time ext);
      s ← get_state;
      match _MARKETS_CACHE s !! key with
      | Some (ts, data) =>
          if PrimFloat.ltb (PrimFloat.sub now ts) _CACHE_TTL then mret data
          else fetch_markets key (length ids) now
      | None => fetch_markets key (length ids) now
      end
  end.

Definition fetch_coin_detail (coin_id : string) (now : float) : M W pyval :=
  r ← call (requests_get ext (CoinRequest coin_id));
  match r with
  | Raise _ => mret VNone
  | Ok resp =>
      if resp_ok resp then
        match resp_json resp with
        | Ok data =>
            s ← get_state;
            set_coin_detail_cache (<[coin_id := (now, data)]> (_COIN_DETAIL_CACHE s));;
            mret data
        | Raise _ => mret VNone
        end
      else mret VNone
  end.

Definition cached_coin_detail (coin_id : string) : M W pyval :=
  now ← call (time_time ext);
  s ← get_state;
  match _COIN_DETAIL_CACHE s !! coin_id with
  | Some (ts, data) =>
      if PrimFloat.ltb (PrimFloat.sub now ts) 60%float then mret data
      else fetch_coin_detail coin_id now
  | None => fetch_coin_detail coin_id now
  end.

(** What [find_contract_for_coin_id] returns: [{"contract": .., "platform": ..}]. *)
Record Found : Type := {
  contract : pyval;
  platform : string
}.

Definition prefer : list string :=
  [ "ethereum"; "binance-smart-chain"; "polygon-pos"; "avalanche";
    "arbitrum-one"; "optimistic-ethereum" ].

(** [for p in prefer: val = platforms.get(p); if val: return ...] *)
Fixpoint first_preferred (platforms : pyval) (ps : list string) : outcome (option Found) :=
  match ps with
  | [] => Ok None
  | p :: rest =>
      val ← py_get platforms p;
      if py_truthy val then Ok (Some {| contract := val; platform := p |})
      else first_preferred platforms rest
  end.

(** [for p, val in platforms.items(): if val: return ...] *)
Fixpoint first_present (items : list (string * pyval)) : option Found :=
  match items with
  | [] => None
  | (p, val) :: rest =>
      if py_truthy val then Some {| contract := val; platform := p |}
      else first_present rest
  end.

Definition py_items (v : pyval) : outcome (list (string * pyval)) :=
  match v with
  | VDict d => Ok d
  | _ => Raise AttributeError
  end.

Definition find_contract_for_coin_id (coin_id : string) : M W (option Found) :=
  detail ← cached_coin_detail coin_id;
  if negb (py_truthy detail) then mret None else
  eval (
    listed ← py_get detail "platforms";
    let platforms := py_or listed (VDict []) in
    preferred ← first_preferred platforms prefer;
    match preferred with
    | Some found => Ok (Some found)
    | None =>
        items ← py_items platforms;
        Ok (first_present items)
    end).

(** ** Balance helpers *)

Definition get_native_evm_balance (chain_key : string) (address : string)
  : M W (option float) :=
  w3 ← get_web3 (VStr chain_key);
  match w3 with
  | None => mret None
  | Some h => call (eth_get_balance ext h address)
  end.

Definition get_erc20_balance (chain_key : pyval) (contract_address : pyval)
    (address : string) : M W (option float) :=
  w3 ← get_web3 chain_key;
  match w3 with
  | None => mret None
  | Some h => call (erc20_balance_of ext h contract_address address)
  end.

(** The lamports of a Solana response, in SOL. *)
Definition solana_lamports (resp : pyval) : outcome (option float) :=
  result ← py_get resp "result";
  if py_truthy result then
    value ← py_get result "value";
    match value with
    | VNone => Ok None
    | lamports => sol ← py_div_1e9 lamports; Ok (Some sol)
    end
  else Ok None.

Definition get_solana_balance (address : string) : M W (option float) :=
  if negb (SOLANA_AVAILABLE ext) then mret None else
  s ← get_state;
  let url :=
    match RPC_URLS s !! "solana" with
    | Some u => if String.eqb u "" then "https://api.mainnet-beta.solana.com" else u
    | None => "https://api.mainnet-beta.solana.com"
    end in
  r ← call (solana_get_balance ext url address);
  match r ≫= solana_lamports with
  | Ok bal => mret bal
  | Raise _ => mret None
  end.

(** ** Core: [compute_balance_for_chain] *)

(** The [result] dict; [res_total_usd] is [None] until the key is assigned. *)
Record Result : Type := mkResult {
  res_chain : string;
  res_address : string;
  res_native : pyval;
  res_tokens : list pyval;
  res_errors : list string;
  res_total_usd : option float
}.

Definition set_native (r : Result) (line : pyval) : Result :=
  mkResult (res_chain r) (res_address r) line (res_tokens r) (res_errors r) (res_total_usd r).

(** [result["tokens"].append(line)] *)
Definition add_token (r : Result) (line : pyval) : Result :=
  mkResult (res_chain r) (res_address r) (res_native r) (res_tokens r ++ [line])
    (res_errors r) (res_total_usd r).

(** [result["errors"].append(msg)] *)
Definition add_error (r : Result) (msg : string) : Result :=
  mkResult (res_chain r) (res_address r) (res_native r) (res_tokens r)
    (res_errors r ++ [msg]) (res_total_usd r).

Definition set_total (r : Result) (total : float) : Result :=
  mkResult (res_chain r) (res_address r) (res_native r) (res_tokens r) (res_errors r)
    (Some total).

Definition str_truthy (s : string) : bool := negb (String.eqb s "").

(** [float(m.get("current_price", 0) or 0)] *)
Definition quote_price (m : pyval) : outcome float :=
  current ← py_get_default m "current_price" (VInt 0);
  py_float rt (py_or current (VInt 0)).

Definition balance_or_zero (bal : option float) : float :=
  match bal with
  | Some b => b
  | None => f0
  end.

(** The branch [chain in RPC_URLS and chain != "solana"]. *)
Definition native_evm (chain address : string) : M W pyval :=
  native_bal ← get_native_evm_balance chain address;
  let native_coin_id := table_key_of NATIVE_COIN_TO_CHAIN (VStr chain) in
  quote ←
    match native_coin_id with
    | Some cid =>
        if str_truthy cid then
          markets ← cached_markets [cid];
          if py_truthy markets then
            eval (m ← py_index0 markets;
                  price ← quote_price m;
                  change ← py_get m "price_change_percentage_24h";
                  Ok (Some price, change))
          else mret (None, VNone)
        else mret (None, VNone)
    | None => mret (None, VNone)
    end;
  let '(price, price_change) := quote in
  let symbol :=
    match native_coin_id with
    | Some cid => if str_truthy cid then str_upper rt cid else str_upper rt chain
    | None => str_upper rt chain
    end in
  usd_value ← eval (num_mul (or_int0 native_bal) (or_int0 price));
  mret (VDict [ ("symbol", VStr symbol);
                ("balance", VFloat (balance_or_zero native_bal));
                ("usd_price", opt_float_val price);
                ("usd_value", num_val usd_value);
                ("price_change_24h", price_change) ]).

(** The branch [chain == "solana"]. *)
Definition native_solana (address : string) : M W pyval :=
  sol_bal ← get_solana_balance address;
  m ← cached_markets ["solana"];
  price ←
    (if py_truthy m then
       eval (m0 ← py_index0 m; p ← quote_price m0; Ok (Some p))
     else mret None);
  usd_value ← eval (num_mul (or_int0 sol_bal) (or_int0 price));
  change ←
    (if py_truthy m then
       eval (m0 ← py_index0 m; py_get m0 "price_change_percentage_24h")
     else mret VNone);
  mret (VDict [ ("symbol", VStr "SOL");
                ("balance", VFloat (balance_or_zero sol_bal));
                ("usd_price", opt_float_val price);
                ("usd_value", num_val usd_value);
                ("price_change_24h", change) ]).

(** The placeholder of an unknown chain. *)
Definition native_unknown (chain : string) : pyval :=
  VDict [ ("symbol", VStr (str_upper rt chain));
          ("balance", VFloat f0);
          ("usd_price", VNone);
          ("usd_value", VFloat f0) ].

(** Lines 361-401: the native balance, under its [try]. *)
Definition native_stage (chain address : string) (result : Result) : M W Result :=
  try_except
    (s ← get_state;
     line ←
       (if bool_decide (is_Some (RPC_URLS s !! chain)) && negb (String.eqb chain "solana")
        then native_evm chain address
        else if String.eqb chain "solana" then native_solana address
        else mret (native_unknown chain));
     mret (set_native result line))
    (fun e => mret (add_error result ("native_balance_error: " +:+ exn_str rt e))).

(** [list(dict.fromkeys(l))]: the first occurrence of each string, in order. *)
Fixpoint fromkeys_from (seen l : list string) : list string :=
  match l with
  | [] => []
  | x :: rest =>
      if bool_decide (x ∈ seen) then fromkeys_from seen rest
      else x :: fromkeys_from (x :: seen) rest
  end.

Definition dict_fromkeys (l : list string) : list string := fromkeys_from [] l.

(** Line 404: [[str(cid).strip() for cid in (coin_ids or []) if cid]], without
    repeats. *)
Definition clean_coin_ids (coin_ids : list string) : list string :=
  dict_fromkeys (map (str_strip rt) (filter (fun cid => str_truthy cid = true) coin_ids)).

(** Lines 408-410: [markets[m["id"]] = m] for each quote with an id. An id
    that is hashable but not a [str] is a key no coin id ever equals, and is
    not recorded. *)
Fixpoint index_markets (market_data : list pyval) (markets : gmap string pyval)
  : outcome (gmap string pyval) :=
  match market_data with
  | [] => Ok markets
  | m :: rest =>
      id ← py_get m "id";
      if py_truthy id then
        match id with
        | VStr k => index_markets rest (<[k := m]> markets)
        | VList _ | VDict _ => Raise TypeError
        | _ => index_markets rest markets
        end
      else index_markets rest markets
  end.

(** [markets.get(coin_id)] *)
Definition markets_get (markets : gmap string pyval) (coin_id : string) : pyval :=
  match markets !! coin_id with
  | Some m => m
  | None => VNone
  end.

Definition opt_str_val (x : option string) : pyval :=
  match x with
  | Some s => VStr s
  | None => VNone
  end.

(** Lines 417-438: the line of a coin whose contract was found. *)
Definition coin_line_found (address coin_id : string) (found : Found)
    (markets : gmap string pyval) : M W pyval :=
  let chain_key := table_get PLATFORM_TO_CHAIN_KEY (platform found) in
  let contract_addr := contract found in
  s ← get_state;
  balance ←
    match chain_key with
    | Some k =>
        if str_truthy k && bool_decide (is_Some (RPC_URLS s !! k))
        then get_erc20_balance (VStr k) contract_addr address
        else mret None
    | None => mret None
    end;
  eval (
    let m := py_or (markets_get markets coin_id) (VDict []) in
    usd_price ← quote_price m;
    price_chg ← py_get m "price_change_percentage_24h";
    sym ← py_get m "symbol";
    upper ← py_upper rt (py_or sym (VStr ""));
    name ← py_get m "name";
    logo ← py_get m "image";
    Ok (VDict [ ("coin_id", VStr coin_id);
                ("symbol", py_or upper (VStr (str_upper rt coin_id)));
                ("name", py_or name (VStr coin_id));
                ("contract", contract_addr);
                ("platform", VStr (platform found));
                ("chain", opt_str_val chain_key);
                ("balance", VFloat (balance_or_zero balance));
                ("usd_price", VFloat usd_price);
                ("price_change_24h", price_chg);
                ("usd_value",
                   VFloat (PrimFloat.mul (or_float0 balance) (or_float0 (Some usd_price))));
                ("logo", logo) ])).

(** Lines 440-454: the line of a coin without a contract. Only [symbol],
    [usd_price], [price_change_24h] and [logo] test [m] before using it. *)
Definition coin_line_missing (coin_id : string) (markets : gmap string pyval)
  : outcome pyval :=
  let m := markets_get markets coin_id in
  price ← (if py_truthy m then p ← quote_price m; Ok (Some p) else Ok None);
  symbol ←
    (if py_truthy m then
       sym ← py_get m "symbol"; py_upper rt (py_or sym (VStr coin_id))
     else Ok (VStr (str_upper rt coin_id)));
  name ← py_get m "name";
  price_chg ←
    (if py_truthy m then py_get m "price_change_percentage_24h" else Ok VNone);
  logo ← (if py_truthy m then py_get m "image" else Ok VNone);
  Ok (VDict [ ("coin_id", VStr coin_id);
              ("symbol", symbol);
              ("name", py_or name (VStr coin_id));
              ("contract", VNone);
              ("platform", VNone);
              ("chain", VNone);
              ("balance", VFloat f0);
              ("usd_price", opt_float_val price);
              ("price_change_24h", price_chg);
              ("usd_value", VFloat f0);
              ("logo", logo) ]).

(** [coin_id in NATIVE_COIN_TO_CHAIN and NATIVE_COIN_TO_CHAIN[coin_id] == chain] *)
Definition native_of (chain coin_id : string) : bool :=
  match table_get NATIVE_COIN_TO_CHAIN coin_id with
  | Some ch => String.eqb ch chain
  | None => false
  end.

(** Lines 412-454: one line per coin id that is not the chain's native coin. *)
Fixpoint coin_tokens (chain address : string) (markets : gmap string pyval)
    (coin_ids : list string) (result : Result) : M W Result :=
  match coin_ids with
  | [] => mret result
  | coin_id :: rest =>
      if native_of chain coin_id then coin_tokens chain address markets rest result
      else
        found ← find_contract_for_coin_id coin_id;
        line ←
          match found with
          | Some f =>
              if py_truthy (contract f) then coin_line_found address coin_id f markets
              else eval (coin_line_missing coin_id markets)
          | None => eval (coin_line_missing coin_id markets)
          end;
        coin_tokens chain address markets rest (add_token result line)
  end.

(** The five variables the enrichment of an explicit token may assign. *)
Record Enrichment : Type := mkEnrichment {
  usd_price : pyval;
  price_chg : pyval;
  logo : pyval;
  coin_name : pyval;
  coin_symbol : pyval
}.

Definition no_enrichment : Enrichment := mkEnrichment VNone VNone VNone VNone VNone.

(** One statement inside the inner [try]: continue with its value, or leave
    with what was assigned so far. *)
Definition assigned {A} (o : outcome A) (so_far : Enrichment) (k : A -> Enrichment)
  : Enrichment :=
  match o with
  | Ok a => k a
  | Raise _ => so_far
  end.

(** Lines 479-484, on the decoded response. *)
Definition enrich_from (info : pyval) : Enrichment :=
  let e0 := no_enrichment in
  assigned (py_get info "market_data") e0 (fun md =>
  let market := py_or md (VDict []) in
  assigned (current ← py_get market "current_price";
            py_get (py_or current (VDict [])) "usd") e0 (fun usd =>
  let e1 := mkEnrichment usd VNone VNone VNone VNone in
  assigned (py_get market "price_change_percentage_24h") e1 (fun chg =>
  let e2 := mkEnrichment usd chg VNone VNone VNone in
  assigned (py_get info "name") e2 (fun name =>
  let e3 := mkEnrichment usd chg VNone name VNone in
  assigned (py_get info "symbol") e3 (fun sym =>
  let e4 := mkEnrichment usd chg VNone name sym in
  assigned (image ← py_get info "image";
            py_get (py_or image (VDict [])) "small") e4 (fun small =>
  mkEnrichment usd chg small name sym)))))).

(** Lines 469-486: the best-effort lookup by platform and contract. *)
Definition enrich (tchain tcontract : pyval) : M W Enrichment :=
  match table_key_of PLATFORM_TO_CHAIN_KEY tchain with
  | Some platform_for_cg =>
      if str_truthy platform_for_cg then
        r ← call (requests_get ext (ContractRequest platform_for_cg tcontract));
        match r with
        | Raise _ => mret no_enrichment
        | Ok resp =>
            if resp_ok resp then
              match resp_json resp with
              | Ok info => mret (enrich_from info)
              | Raise _ => mret no_enrichment
              end
            else mret no_enrichment
        end
      else mret no_enrichment
  | None => mret no_enrichment
  end.

(** Lines 488-500: the line of an explicit token. *)
Definition token_line (t : list (string * pyval)) (tchain tcontract : pyval)
    (balance : option float) (e : Enrichment) : outcome pyval :=
  upper ← py_upper rt (py_or (coin_symbol e) (py_or (dict_get_none t "symbol") (VStr "")));
  symbol ← (if py_truthy upper then Ok upper else py_slice6 tcontract);
  shown ←
    (if py_truthy (usd_price e) then p ← py_float rt (usd_price e); Ok (Some p)
     else Ok None);
  price ← (if py_truthy (usd_price e) then py_float rt (usd_price e) else Ok f0);
  Ok (VDict [ ("coin_id", VNone);
              ("symbol", symbol);
              ("name", py_or (coin_name e) (py_or (dict_get_none t "name") tcontract));
              ("contract", tcontract);
              ("platform", VNone);
              ("chain", tchain);
              ("balance", VFloat (balance_or_zero balance));
              ("usd_price", opt_float_val shown);
              ("price_change_24h", price_chg e);
              ("usd_value", VFloat (PrimFloat.mul (or_float0 balance) price));
              ("logo", logo e) ]).

(** Lines 458-503: the body of [for t in tokens or []]. *)
Definition explicit_token (chain address : string) (t : list (string * pyval))
    (result : Result) : M W Result :=
  try_except
    (let tchain := py_or (dict_get_none t "chain") (VStr chain) in
     let tcontract := dict_get_none t "contract" in
     if negb (py_truthy tcontract) then mret result
     else
       balance ← get_erc20_balance tchain tcontract address;
       e ← enrich tchain tcontract;
       line ← eval (token_line t tchain tcontract balance e);
       mret (add_token result line))
    (fun e => mret (add_error result ("token_error:" +:+ exn_str rt e))).

Fixpoint explicit_tokens (chain address : string) (tokens : list (list (string * pyval)))
    (result : Result) : M W Result :=
  match tokens with
  | [] => mret result
  | t :: rest =>
      result' ← explicit_token chain address t result;
      explicit_tokens chain address rest result'
  end.

(** Lines 506-508: the native line's share of the total. *)
Definition native_total (native : pyval) : outcome float :=
  if py_truthy native then
    value ← py_get native "usd_value";
    if py_truthy value then
      x ← py_float rt (py_or value (VFloat f0));
      Ok (PrimFloat.add f0 x)
    else Ok f0
  else Ok f0.

(** [float(tk.get("usd_value") or 0.0)] *)
Definition token_usd (tk : pyval) : outcome float :=
  value ← py_get tk "usd_value";
  py_float rt (py_or value (VFloat f0)).

(** Lines 509-513: each token line's share, skipped when it raises. *)
Fixpoint tokens_total (tks : list pyval) (total_usd : float) : float :=
  match tks with
  | [] => total_usd
  | tk :: rest =>
      match token_usd tk with
      | Ok x => tokens_total rest (PrimFloat.add total_usd x)
      | Raise _ => tokens_total rest total_usd
      end
  end.

(** Lines 404-454: the coin ids cleaned, their quotes indexed by id, and the
    loop over them. Nothing here is under a [try]. *)
Definition coin_stage (chain address : string) (coin_ids : list string)
    (result : Result) : M W Result :=
  let coin_ids := clean_coin_ids coin_ids in
  markets ←
    match coin_ids with
    | [] => mret ∅
    | _ =>
        market_data ← cached_markets coin_ids;
        eval (quotes ← py_iter market_data; index_markets quotes ∅)
    end;
  coin_tokens chain address markets coin_ids result.

(** Lines 506-514: [total_usd]. *)
Definition totals (result : Result) : M W Result :=
  total_usd ← eval (native_total (res_native result));
  mret (set_total result (tokens_total (res_tokens result) total_usd)).

Definition compute_balance_for_chain (chain address : string) (coin_ids : list string)
    (tokens : list (list (string * pyval))) : M W Result :=
  let result := mkResult chain address VNone [] [] None in
  result ← native_stage chain address result;
  result ← coin_stage chain address coin_ids result;
  result ← explicit_tokens chain address tokens result;
  totals result.

End Engine.

(** ** Words of the specification *)

(** The value of a key of a line. *)
Definition field (line : pyval) (k : string) : option pyval :=
  match line with
  | VDict d => dict_get d k
  | _ => None
  end.

(** The [usd_value] of a line, a missing or unparsable one taken as [0.0]:
    [0.0] when the line is null or has no such key, when the value is null,
    zero or empty, and when it cannot be converted to a float. *)
Definition usd_or_zero (rt : Runtime) (line : pyval) : float :=
  match field line "usd_value" with
  | Some v =>
      if py_truthy v then
        match py_float rt v with
        | Ok x => x
        | Raise _ => f0
        end
      else f0
  | None => f0
  end.

(** The sum of the lines' values from left to right, the native line first. *)
Definition usd_sum (rt : Runtime) (native : pyval) (tokens : list pyval) : float :=
  fold_left (fun acc line => PrimFloat.add acc (usd_or_zero rt line)) tokens
    (PrimFloat.add f0 (usd_or_zero rt native)).

(** [d[k] = v] *)
Fixpoint dict_set (d : list (string * pyval)) (k : string) (v : pyval)
  : list (string * pyval) :=
  match d with
  | [] => [(k, v)]
  | (k', x) :: rest =>
      if String.eqb k' k then (k, v) :: rest else (k', x) :: dict_set rest k v
  end.

(** The state with the outside world replaced. *)
Definition with_world {W} (s : State W) (w : W) : State W :=
  mkState (RPC_URLS s) (_WEB3_PROVIDERS s) (_MARKETS_CACHE s) (_COIN_DETAIL_CACHE s) w.

(** The chain keys every registry starts with. *)
Definition default_chains : list string :=
  [ "ethereum"; "bsc"; "polygon"; "avax"; "arbitrum"; "optimism"; "fantom";
    "cronos"; "solana" ].

Definition has_default_chains {W} (s : State W) : Prop :=
  Forall (fun k => is_Some (RPC_URLS s !! k)) default_chains.

(** ** A runtime and collaborators for the examples *)

Definition is_space (c : ascii) : bool :=
  let n := nat_of_ascii c in
  (Nat.leb 9 n && Nat.leb n 13) || (Nat.leb 28 n && Nat.leb n 32).

Fixpoint lstrip (s : string) : string :=
  match s with
  | "" => ""
  | String c s' => if is_space c then lstrip s' else s
  end.

Fixpoint rstrip (s : string) : string :=
  match s with
  | "" => ""
  | String c s' =>
      match rstrip s' with
      | "" => if is_space c then "" else String c ""
      | kept => String c kept
      end
  end.

Definition upper_char (c : ascii) : ascii :=
  let n := nat_of_ascii c in
  if Nat.leb 97 n && Nat.leb n 122 then ascii_of_nat (n - 32) else c.

Fixpoint ascii_upper (s : string) : string :=
  match s with
  | "" => ""
  | String c s' => String (upper_char c) (ascii_upper s')
  end.

Definition exn_name (e : exn) : string :=
  match e with
  | AttributeError => "AttributeError"
  | TypeError => "TypeError"
  | ValueError => "ValueError"
  | KeyError => "KeyError"
  | IndexError => "IndexError"
  | OverflowError => "OverflowError"
  | UpstreamError msg => msg
  end.

(** A runtime for ASCII text. No example converts a [str] to a [float]; this
    runtime answers [ValueError] there. *)
Definition ascii_runtime : Runtime :=
  {| str_float := fun _ => None;
     str_upper := ascii_upper;
     str_strip := fun s => rstrip (lstrip s);
     exn_str := exn_name |}.

(** Collaborators whose outside world is the list of the requests sent to
    the market-data provider so far: the provider answers by [http], the
    clock reads [now], the EVM adapters answer [native] and [erc20], nothing
    is contributed to the chain configuration, and there is no Solana client. *)
Definition stub (now : float) (http : request -> outcome response)
    (native erc20 : option float) : Collaborators (list request) :=
  {| SOLANA_AVAILABLE := false;
     time_time := fun w => (now, w);
     requests_get := fun r w => (http r, w ++ [r]);
     load_chain_config := fun w => ([], w);
     new_web3 := fun _ w => (true, w);
     eth_get_balance := fun _ _ w => (native, w);
     erc20_balance_of := fun _ _ _ w => (erc20, w);
     solana_get_balance := fun _ _ w => (Raise (UpstreamError "unavailable"), w) |}.

(** A provider that times out on every request. *)
Definition provider_down : request -> outcome response :=
  fun _ => Raise (UpstreamError "timeout").

(** The registry as the module creates it. *)
Definition default_rpc_urls : gmap string string :=
  list_to_map
    [ ("ethereum", "https://cloudflare-eth.com");
      ("bsc", "https://bsc-dataseed.binance.org/");
      ("polygon", "https://rpc.ankr.com/polygon");
      ("avax", "https://rpc.ankr.com/avalanche");
      ("arbitrum", "https://rpc.ankr.com/arbitrum");
      ("optimism", "https://rpc.ankr.com/optimism");
      ("fantom", "https://rpc.ankr.com/fantom");
      ("cronos", "https://evm.cronos.org");
      ("solana", "https://api.mainnet-beta.solana.com") ].

(** The state of a fresh process: default endpoints, empty caches, no request
    sent yet. *)
Definition fresh : State (list request) := mkState default_rpc_urls ∅ ∅ ∅ [].

(** ** Partial and total correctness of a body *)

(** Every value [m] returns satisfies [Q]. *)
Definition partial {W A} (m : M W A) (Q : A -> Prop) : Prop :=
  forall s a s', m s = (Ok a, s') -> Q a.

(** [m] returns from every state, with a value that satisfies [Q]. *)
Definition returns {W A} (m : M W A) (Q : A -> Prop) : Prop :=
  forall s, exists a s', m s = (Ok a, s') /\ Q a.

(** ** Shapes of the lines *)

(** A native line with the given balance: its price is null or a float, its
    value the integer [0] or a float; the placeholder of an unknown chain
    has no [price_change_24h]. *)
Definition native_line (balance : float) (line : pyval) : Prop :=
  exists symbol price usd rest,
    line = VDict (("symbol", VStr symbol) :: ("balance", VFloat balance) ::
                  ("usd_price", price) :: ("usd_value", usd) :: rest) /\
    (price = VNone \/ exists p, price = VFloat p) /\
    (usd = VInt 0 \/ exists v, usd = VFloat v) /\
    (rest = [] \/ exists change, rest = [("price_change_24h", change)]).

(** What the native step leaves: a native line whose balance satisfies [P],
    or one more error and no native line. *)
Definition native_outcome (P : float -> Prop) (before after : Result) : Prop :=
  (exists balance line,
     P balance /\ native_line balance line /\ after = set_native before line) \/
  (exists msg, after = add_error before ("native_balance_error: " +:+ msg)).

(** A token line, with the fields the claims speak of. *)
Definition token_line_of (coin_id contract chain : pyval) (balance usd : float)
    (line : pyval) : Prop :=
  exists symbol name platform price change logo,
    line = VDict [ ("coin_id", coin_id); ("symbol", symbol); ("name", name);
                   ("contract", contract); ("platform", platform); ("chain", chain);
                   ("balance", VFloat balance); ("usd_price", price);
                   ("price_change_24h", change); ("usd_value", VFloat usd);
                   ("logo", logo) ].

(** The line of a coin id. *)
Definition coin_line (coin_id : string) (line : pyval) : Prop :=
  exists contract chain balance usd,
    token_line_of (VStr coin_id) contract chain balance usd line.

(** The line of an explicit token of a request for [chain]: no coin id, the
    entry's contract, and the entry's chain or else the request's. *)
Definition explicit_line (chain : string) (t : list (string * pyval)) (line : pyval)
  : Prop :=
  exists balance usd,
    token_line_of VNone (dict_get_none t "contract")
      (py_or (dict_get_none t "chain") (VStr chain)) balance usd line.

(** [result] with more lines and more errors appended. *)
Definition extend (result : Result) (lines : list pyval) (errs : list string) : Result :=
  mkResult (res_chain result) (res_address result) (res_native result)
    (res_tokens result ++ lines) (res_errors result ++ errs) (res_total_usd result).

(** What processing one explicit token leaves: nothing, one more line, or
    one more [token_error]. *)
Definition explicit_outcome (chain : string) (t : list (string * pyval))
    (before after : Result) : Prop :=
  after = before \/
  (exists line, explicit_line chain t line /\ after = add_token before line) \/
  (exists msg, after = add_error before ("token_error:" +:+ msg)).

(** The coin ids that get a line: the cleaned ids that are not the native
    coin of the chain. *)
Definition listed_coin_ids (rt : Runtime) (chain : string) (coin_ids : list string)
  : list string :=
  filter (fun id => native_of chain id = false) (clean_coin_ids rt coin_ids).

(** The native line and the native error of a result: a line whose balance
    satisfies [P] and no error, or no line and one [native_balance_error]. *)
Definition native_part (P : float -> Prop) (native : pyval) (errs : list string) : Prop :=
  ((exists balance, P balance /\ native_line balance native) /\ errs = []) \/
  (native = VNone /\ exists msg, errs = ["native_balance_error: " +:+ msg]).

Definition token_error (e : string) : Prop := exists msg, e = "token_error:" +:+ msg.

(** Deduplication that keeps the first occurrence of each string, in order:
    the head stays and is removed from what follows. *)
Fixpoint first_seen (l : list string) : list string :=
  match l with
  | [] => []
  | x :: rest => x :: filter (fun y => y <> x) (first_seen rest)
  end.

(** Whether a line is the line of coin [id]. *)
Definition has_coin_id (id : string) (line : pyval) : bool :=
  match field line "coin_id" with
  | Some (VStr s) => String.eqb s id
  | _ => false
  end.

(** ** The two guarded steps, attempt by attempt *)

Section Attempts.
Context {W : Type} (rt : Runtime) (ext : Collaborators W).

(** Lines 362-398: the body of the [try] of the native step; it gives the
    native line. *)
Definition native_attempt (chain address : string) : M W pyval :=
  s ← get_state;
  if bool_decide (is_Some (RPC_URLS s !! chain)) && negb (String.eqb chain "solana")
  then native_evm rt ext chain address
  else if String.eqb chain "solana" then native_solana rt ext address
  else mret (native_unknown rt chain).

(** Lines 372-376: the price and the change the native step reads from the
    markets of the chain's native coin. *)
Definition native_quote (markets : pyval) : outcome (option float * pyval) :=
  if py_truthy markets then
    m ← py_index0 markets;
    price ← quote_price rt m;
    change ← py_get m "price_change_percentage_24h";
    Ok (Some price, change)
  else Ok (None, VNone).

(** Lines 459-500: the body of the [try] of one explicit token; it gives the
    line to append, or [None] when the entry is skipped by [continue]. *)
Definition token_attempt (chain address : string) (t : list (string * pyval))
  : M W (option pyval) :=
  let tchain := py_or (dict_get_none t "chain") (VStr chain) in
  let tcontract := dict_get_none t "contract" in
  if negb (py_truthy tcontract) then mret None
  else
    balance ← get_erc20_balance ext tchain tcontract address;
    e ← enrich ext tchain tcontract;
    line ← eval (token_line rt t tchain tcontract balance e);
    mret (Some line).

(** The attempts on the explicit tokens of a request, in order, each from
    the state the one before it left, whether it returned or raised. *)
Fixpoint token_attempts (chain address : string) (tokens : list (list (string * pyval)))
    (s : State W) : list (outcome (option pyval)) * State W :=
  match tokens with
  | [] => ([], s)
  | t :: rest =>
      let '(o, s1) := token_attempt chain address t s in
      let '(os, s2) := token_attempts chain address rest s1 in
      (o :: os, s2)
  end.



End Attempts.





(** What the attempts on the explicit tokens leave in [tokens] and in
    [errors]: the line of each attempt that gave one, and one [token_error]
    for each attempt that raised. *)
Definition attempt_lines (os : list (outcome (option pyval))) : list pyval :=
  flat_map (fun o => match o with Ok (Some line) => [line] | _ => [] end) os.

Definition attempt_errors (rt : Runtime) (os : list (outcome (option pyval)))
  : list string :=
  flat_map (fun o => match o with
                     | Raise e => ["token_error:" +:+ exn_str rt e]
                     | Ok _ => []
                     end) os.




(** ** Scenarios *)

(** Every collaborator fails: the provider times out, the RPC endpoints give
    no balance. *)
Definition all_down : Collaborators (list request) := stub 100 provider_down None None.

Definition quote (id sym name : string) (price : float) : pyval :=
  VDict [ ("id", VStr id); ("symbol", VStr sym); ("name", VStr name);
          ("current_price", VFloat price) ].

Definition answer (data : pyval) : outcome response :=
  Ok {| resp_ok := true; resp_json := Ok data |}.

Definition not_found : outcome response :=
  Ok {| resp_ok := false; resp_json := Ok (VDict [("error", VStr "coin not found")]) |}.

Definition usdc_address : string := "0xa0b86991c6218b36c1d19d4a2e9eb0ce3606eb48".
Definition usdc_polygon_address : string := "0x2791bca1f2de4661ed88a30c99a7a9449aa84174".
Definition usdt_bsc_address : string := "0x55d398326f99059ff775485246999027b3197955".

(** A provider that knows four coins. It answers a markets request by the
    quotes of the ids asked for, the detail of [usd-coin] by its platform
    map (Polygon listed before Ethereum), and nothing else. *)
Definition provider : request -> outcome response := fun r =>
  match r with
  | MarketsRequest ids _ =>
      if String.eqb ids "ethereum" then
        answer (VList [quote "ethereum" "eth" "Ethereum" 3000])
      else if String.eqb ids "binancecoin" then
        answer (VList [quote "binancecoin" "bnb" "BNB" 600])
      else if String.eqb ids "bitcoin,ethereum" then
        answer (VList [quote "bitcoin" "btc" "Bitcoin" 60000;
                       quote "ethereum" "eth" "Ethereum" 3000])
      else if String.eqb ids "ethereum,usd-coin" then
        answer (VList [quote "ethereum" "eth" "Ethereum" 3000;
                       quote "usd-coin" "usdc" "USDC" 1])
      else if String.eqb ids "ethereum,solana" then
        answer (VList [quote "ethereum" "eth" "Ethereum" 3000;
                       quote "solana" "sol" "Solana" 150])
      else if String.eqb ids "ethereum,solana,usd-coin" then
        answer (VList [quote "ethereum" "eth" "Ethereum" 3000;
                       quote "solana" "sol" "Solana" 150;
                       quote "usd-coin" "usdc" "USDC" 1])
      else answer (VList [])
  | CoinRequest coin_id =>
      if String.eqb coin_id "usd-coin" then
        answer (VDict [ ("id", VStr "usd-coin");
                        ("platforms",
                           VDict [ ("polygon-pos", VStr usdc_polygon_address);
                                   ("ethereum", VStr usdc_address) ]) ])
      else not_found
  | ContractRequest _ _ => Raise (UpstreamError "timeout")
  end.

(** A provider that quotes the tickers [eth] and [sol] as if they were coin
    ids, and has no detail of any coin. *)
Definition ticker_provider : request -> outcome response := fun r =>
  match r with
  | MarketsRequest _ _ =>
      answer (VList [quote "eth" "eth" "Ethereum" 3000; quote "sol" "sol" "Solana" 150])
  | _ => not_found
  end.

(** The provider answers; the wallet holds 1.5 of the native coin and 100 of
    every token. *)
Definition funded : Collaborators (list request) :=
  stub 100 provider (Some 1.5%float) (Some 100%float).

(** The provider answers; every balance call fails. *)
Definition rpc_down : Collaborators (list request) := stub 100 provider None None.

(** Collaborators with a clock that advances: the outside world is the
    number of clock readings so far and the requests sent so far; the
    [n]-th reading is the [n]-th time of [times]. *)
Definition ticking (times : list float) (http : request -> outcome response)
  : Collaborators (nat * list request) :=
  {| SOLANA_AVAILABLE := false;
     time_time := fun w => (nth (fst w) times f0, (S (fst w), snd w));
     requests_get := fun r w => (http r, (fst w, snd w ++ [r]));
     load_chain_config := fun w => ([], w);
     new_web3 := fun _ w => (true, w);
     eth_get_balance := fun _ _ w => (None, w);
     erc20_balance_of := fun _ _ _ w => (None, w);
     solana_get_balance := fun _ _ w => (Raise (UpstreamError "unavailable"), w) |}.

(** A fresh process before its first clock reading. *)
Definition fresh_at_start : State (nat * list request) :=
  mkState default_rpc_urls ∅ ∅ ∅ (0, []).

(** The provider answers, and each endpoint answers for its own chain: the
    wallet holds 250 of every token on BSC and 7 of every token on Ethereum;
    the other endpoints fail, and so does every native-balance call. *)
Definition per_chain : Collaborators (list request) :=
  {| SOLANA_AVAILABLE := false;
     time_time := fun w => (100%float, w);
     requests_get := fun r w => (provider r, w ++ [r]);
     load_chain_config := fun w => ([], w);
     new_web3 := fun _ w => (true, w);
     eth_get_balance := fun _ _ w => (None, w);
     erc20_balance_of := fun client _ _ w =>
       (if String.eqb client "https://bsc-dataseed.binance.org/" then Some 250%float
        else if String.eqb client "https://cloudflare-eth.com" then Some 7%float
        else None, w);
     solana_get_balance := fun _ _ w => (Raise (UpstreamError "unavailable"), w) |}.

(** ** The chain registry in full *)

(** [load_chains_from_env_json], [load_chains_file] and
    [reload_rpc_config_if_changed] with their sources (lines 140-210): the
    environment, the chains file and the two parsers. A configuration
    document is a JSON value. An endpoint taken from the environment can be
    any value, so this registry maps a chain key to a [pyval]. None of the
    three raises: every statement that can fail sits in a [try]. *)
Module Registry.

(** What the loaders read.
    - [_CHAIN_CONFIG_PATH]: the module constant chosen at import;
    - [environ_get]: [os.environ.get];
    - [json_loads], [yaml_safe_load]: the parsers, on the text;
    - [path_exists], [getmtime]: [os.path.exists], [os.path.getmtime];
    - [read_file]: [open(path).read()]. *)
Record Sources (W : Type) : Type := {
  YAML_AVAILABLE : bool;
  _CHAIN_CONFIG_PATH : option string;
  environ_get : string -> W -> option string * W;
  json_loads : string -> outcome pyval;
  yaml_safe_load : string -> outcome pyval;
  path_exists : string -> W -> bool * W;
  read_file : string -> W -> outcome string * W;
  getmtime : string -> W -> outcome float * W
}.
Arguments YAML_AVAILABLE {W}.
Arguments _CHAIN_CONFIG_PATH {W}.
Arguments environ_get {W}.
Arguments json_loads {W}.
Arguments yaml_safe_load {W}.
Arguments path_exists {W}.
Arguments read_file {W}.
Arguments getmtime {W}.

(** [RPC_URLS], [_CHAIN_CONFIG_MTIME] and the world outside. *)
Record Config (W : Type) : Type := mkConfig {
  RPC_URLS : gmap string pyval;
  _CHAIN_CONFIG_MTIME : option float;
  world : W
}.
Arguments mkConfig {W}.
Arguments RPC_URLS {W}.
Arguments _CHAIN_CONFIG_MTIME {W}.
Arguments world {W}.

(** Lines 148-152, [for k, v in parsed.items()]: a string is taken as it is,
    an object gives its ["rpc"] when that is truthy. *)
Fixpoint env_entries (items result : list (string * pyval)) : list (string * pyval) :=
  match items with
  | [] => result
  | (k, v) :: rest =>
      match v with
      | VStr _ => env_entries rest (dict_set result k v)
      | VDict d =>
          if py_truthy (dict_get_none d "rpc")
          then env_entries rest (dict_set result k (dict_get_none d "rpc"))
          else env_entries rest result
      | _ => env_entries rest result
      end
  end.

(** Lines 179-184, [for k, v in parsed.items()]: a string is taken as it is,
    an object gives its ["rpc"] when that is a string. *)
Fixpoint file_entries (items out : list (string * pyval)) : list (string * pyval) :=
  match items with
  | [] => out
  | (k, v) :: rest =>
      match v with
      | VStr _ => file_entries rest (dict_set out k v)
      | VDict d =>
          match dict_get d "rpc" with
          | Some (VStr u) => file_entries rest (dict_set out k (VStr u))
          | _ => file_entries rest out
          end
      | _ => file_entries rest out
      end
  end.

(** [for k, v in entries.items(): RPC_URLS[k] = v] *)
Definition register (urls : gmap string pyval) (entries : list (string * pyval))
  : gmap string pyval :=
  foldl (fun m kv => <[kv.1 := kv.2]> m) urls entries.

Section Loaders.
Context {W : Type} (src : Sources W).

Definition load_chains_from_env_json (w : W) : list (string * pyval) * W :=
  let '(cfg, w1) := environ_get src "CHAIN_CONFIG_JSON" w in
  match cfg with
  | Some text =>
      if str_truthy text then
        match json_loads src text with
        | Ok (VDict items) => (env_entries items [], w1)
        | Ok _ => ([], w1)
        | Raise _ => ([], w1)
        end
      else ([], w1)
  | None => ([], w1)
  end.

(** Lines 164-175: the document read by YAML when it is available and else
    by JSON, [None] when neither reads it. *)
Definition parse_chains (raw : string) : pyval :=
  let parsed :=
    if YAML_AVAILABLE src then
      match yaml_safe_load src raw with
      | Ok v => v
      | Raise _ => VNone
      end
    else VNone in
  match parsed with
  | VNone =>
      match json_loads src raw with
      | Ok v => v
      | Raise _ => VNone
      end
  | _ => parsed
  end.

Definition load_chains_file (path : string) (w : W) : list (string * pyval) * W :=
  if negb (str_truthy path) then ([], w) else
  let '(found, w1) := path_exists src path w in
  if negb found then ([], w1) else
  let '(raw, w2) := read_file src path w1 in
  match raw with
  | Ok text =>
      match parse_chains text with
      | VDict items => (file_entries items [], w2)
      | _ => ([], w2)
      end
  | Raise _ => ([], w2)
  end.

(** [mtime != _CHAIN_CONFIG_MTIME], on a modification time that is set. *)
Definition mtime_changed (mtime : float) (seen : option float) : bool :=
  match seen with
  | None => true
  | Some old => negb (PrimFloat.eqb mtime old)
  end.

Definition reload_rpc_config_if_changed (c : Config W) : Config W :=
  let '(envcfg, w1) := load_chains_from_env_json (world c) in
  let urls := register (RPC_URLS c) envcfg in
  match _CHAIN_CONFIG_PATH src with
  | None => mkConfig urls (_CHAIN_CONFIG_MTIME c) w1
  | Some path =>
      if negb (str_truthy path) then mkConfig urls (_CHAIN_CONFIG_MTIME c) w1 else
      match getmtime src path w1 with
      | (Raise _, w2) => mkConfig urls (_CHAIN_CONFIG_MTIME c) w2
      | (Ok mtime, w2) =>
          if mtime_changed mtime (_CHAIN_CONFIG_MTIME c) then
            let '(new_map, w3) := load_chains_file path w2 in
            mkConfig (register urls new_map) (Some mtime) w3
          else mkConfig urls (_CHAIN_CONFIG_MTIME c) w2
      end
  end.

End Loaders.

(** A value on which the two loaders do the same: not an object, or an
    object whose ["rpc"] is absent, a string that is not empty, or a falsy
    value that is no string. *)
Definition plain_endpoint (v : pyval) : Prop :=
  match v with
  | VDict d =>
      match dict_get d "rpc" with
      | Some (VStr u) => u <> ""
      | Some x => py_truthy x = false
      | None => True
      end
  | _ => True
  end.

End Registry.

(** ** API endpoints *)

(** What a view returns: the status and the JSON body. *)
Record Reply : Type := mkReply {
  status : nat;
  body : pyval
}.

(** [s.split(",")] *)
Fixpoint split_comma (s : string) : list string :=
  match s with
  | "" => [""]
  | String c rest =>
      if Ascii.eqb c ","%char then "" :: split_comma rest
      else
        match split_comma rest with
        | piece :: pieces => String c piece :: pieces
        | [] => [String c ""]
        end
  end.

Section Endpoints.
Context {W : Type} (rt : Runtime) (ext : Collaborators W).

(** The [try] of [api_coins_search]: the decoded answer of the provider's
    search, or the exception of the request, of the status check or of the
    decoding. *)
Context (coingecko_search : string -> W -> outcome pyval * W).

(** [[i.strip() for i in ids.split(",") if i.strip()]] *)
Definition ids_list (ids : string) : list string :=
  map (str_strip rt)
    (filter (fun i => str_truthy (str_strip rt i) = true) (split_comma ids)).

(** [GET /api/coins/markets]; the argument is [request.args.get("ids")]. *)
Definition api_coins_markets (ids : option string) : M W Reply :=
  let ids := match ids with Some v => v | None => "" end in
  if negb (str_truthy ids) then
    mret (mkReply 400 (VDict [("error", VStr "ids query param required")]))
  else
    data ← cached_markets ext (ids_list ids);
    mret (mkReply 200 data).

(** [request.args.get("q") or request.args.get("query")] *)
Definition search_term (q query : option string) : option string :=
  match q with
  | Some v => if str_truthy v then Some v else query
  | None => query
  end.

(** [GET /api/coins/search] *)
Definition api_coins_search (q query : option string) : M W Reply :=
  match search_term q query with
  | Some term =>
      if str_truthy term then
        r ← call (coingecko_search term);
        match r with
        | Ok found => mret (mkReply 200 found)
        | Raise e =>
            mret (mkReply 500 (VDict [ ("error", VStr "search failed");
                                       ("detail", VStr (exn_str rt e)) ]))
        end
      else mret (mkReply 400 (VDict [("error", VStr "q parameter required")]))
  | None => mret (mkReply 400 (VDict [("error", VStr "q parameter required")]))
  end.

End Endpoints.

(** ** What a body does to the state *)

(** [m] takes every state to one that [R n] relates to it, whether it
    returns or raises; [n] is a budget that adds up along a body. *)
Definition keeps {W A} (R : nat -> State W -> State W -> Prop) (n : nat) (m : M W A)
  : Prop :=
  forall s, R n s (m s).2.

(** Nothing is taken away: every chain keeps an endpoint, every provider
    stays the one it was, every cache keeps its keys. *)
Definition grows {W} (s s' : State W) : Prop :=
  (forall k, is_Some (RPC_URLS s !! k) -> is_Some (RPC_URLS s' !! k)) /\
  _WEB3_PROVIDERS s ⊆ _WEB3_PROVIDERS s' /\
  (forall k, is_Some (_MARKETS_CACHE s !! k) -> is_Some (_MARKETS_CACHE s' !! k)) /\
  (forall k, is_Some (_COIN_DETAIL_CACHE s !! k) -> is_Some (_COIN_DETAIL_CACHE s' !! k)).

(** The two caches are what they were. *)
Definition same_caches {W} (s s' : State W) : Prop :=
  _MARKETS_CACHE s' = _MARKETS_CACHE s /\ _COIN_DETAIL_CACHE s' = _COIN_DETAIL_CACHE s.

(** A request that brings no data: it raises, the status is an error, or
    the body cannot be decoded. *)
Definition request_fails (got : outcome response) : Prop :=
  match got with
  | Raise _ => True
  | Ok resp => resp_ok resp = false \/ exists e, resp_json resp = Raise e
  end.

(** The market-data provider brings no data, whatever it is asked. *)
Definition provider_unreachable {W} (ext : Collaborators W) : Prop :=
  forall r w, request_fails (requests_get ext r w).1.

(** A string without a comma. *)
Fixpoint comma_free (s : string) : Prop :=
  match s with
  | "" => True
  | String c rest => c <> ","%char /\ comma_free rest
  end.

(** [sent] counts the requests to the market-data provider: a request adds
    at most one, and no other collaborator adds any. *)
Definition counts_requests {W} (ext : Collaborators W) (sent : W -> nat) : Prop :=
  (forall r w, sent (requests_get ext r w).2 <= sent w + 1) /\
  (forall w, sent (time_time ext w).2 <= sent w) /\
  (forall w, sent (load_chain_config ext w).2 <= sent w) /\
  (forall url w, sent (new_web3 ext url w).2 <= sent w) /\
  (forall h a w, sent (eth_get_balance ext h a w).2 <= sent w) /\
  (forall h c a w, sent (erc20_balance_of ext h c a w).2 <= sent w) /\
  (forall u a w, sent (solana_get_balance ext u a w).2 <= sent w).

(** At most [n] more requests are counted in [s'] than in [s]. *)
Definition sent_within {W} (sent : W -> nat) (n : nat) (s s' : State W) : Prop :=
  sent (world s') <= sent (world s) + n.

(** A token line whose value is its balance times its price, a balance or a
    price that is null or zero counting as [0.0]; or the placeholder of a
    coin without contract, with balance and value [0.0]. *)
Definition priced_line (line : pyval) : Prop :=
  exists b value,
    field line "balance" = Some (VFloat b) /\
    field line "usd_value" = Some (VFloat value) /\
    ((field line "contract" = Some VNone /\ b = f0 /\ value = f0) \/
     (field line "usd_price" = Some VNone /\
      value = PrimFloat.mul (or_float0 (Some b)) f0) \/
     (exists p,
        field line "usd_price" = Some (VFloat p) /\
        (value = PrimFloat.mul (or_float0 (Some b)) p \/
         value = PrimFloat.mul (or_float0 (Some b)) (or_float0 (Some p))))).

(** The endpoint [get_solana_balance] talks to:
    [RPC_URLS.get("solana") or "https://api.mainnet-beta.solana.com"]. *)
Definition solana_endpoint {W} (s : State W) : string :=
  match RPC_URLS s !! "solana" with
  | Some u => if String.eqb u "" then "https://api.mainnet-beta.solana.com" else u
  | None => "https://api.mainnet-beta.solana.com"
  end.

(** ** Scenarios for the registry, the providers and the adapters *)

(** A parser that reads the documents it is given, by their text. *)
Definition reads (docs : list (string * pyval)) (text : string) : outcome pyval :=
  match dict_get docs text with
  | Some v => Ok v
  | None => Raise ValueError
  end.

(** The environment gives [ethereum] one endpoint. *)
Definition env_document : pyval :=
  VDict [("ethereum", VStr "https://env.example")].

(** The chains file gives [ethereum] another endpoint, and adds [base]. *)
Definition file_document : pyval :=
  VDict [ ("ethereum", VDict [("rpc", VStr "https://file.example")]);
          ("base", VStr "https://base.example") ].

(** Sources that hold the two documents; the chains file was last modified
    at time [1000]; the outside world is the number of reads of the file. *)
Definition two_sources : Registry.Sources nat :=
  {| Registry.YAML_AVAILABLE := false;
     Registry._CHAIN_CONFIG_PATH := Some "chains.json";
     Registry.environ_get := fun name w =>
       (if String.eqb name "CHAIN_CONFIG_JSON" then Some "env-text" else None, w);
     Registry.json_loads := reads [("env-text", env_document); ("file-text", file_document)];
     Registry.yaml_safe_load := fun _ => Raise ValueError;
     Registry.path_exists := fun _ w => (true, w);
     Registry.read_file := fun _ w => (Ok "file-text", S w);
     Registry.getmtime := fun _ w => (Ok 1000%float, w) |}.

(** The registry of a fresh process: the default endpoints, no modification
    time seen, the file never read. *)
Definition default_config : Registry.Config nat :=
  Registry.mkConfig (VStr <$> default_rpc_urls) None 0.

(** A document in which every object names its endpoint by a string that is
    not empty, or names none. *)
Definition plain_document : list (string * pyval) :=
  [ ("ethereum", VStr "https://a.example");
    ("base", VDict [("rpc", VStr "https://b.example"); ("chain_id", VInt 8453)]);
    ("testnet", VDict [("chain_id", VInt 5)]);
    ("disabled", VDict [("rpc", VNone)]);
    ("comment", VInt 1) ].

(** Sources whose environment and chains file hold the plain document. *)
Definition same_sources : Registry.Sources nat :=
  {| Registry.YAML_AVAILABLE := false;
     Registry._CHAIN_CONFIG_PATH := Some "chains.json";
     Registry.environ_get := fun name w =>
       (if String.eqb name "CHAIN_CONFIG_JSON" then Some "plain-text" else None, w);
     Registry.json_loads := reads [("plain-text", VDict plain_document)];
     Registry.yaml_safe_load := fun _ => Raise ValueError;
     Registry.path_exists := fun _ w => (true, w);
     Registry.read_file := fun _ w => (Ok "plain-text", S w);
     Registry.getmtime := fun _ w => (Ok 1000%float, w) |}.

(** Collaborators whose configuration moves [ethereum] to another endpoint
    on every reload; the provider and the RPC endpoints are down. *)
Definition reconfigured : Collaborators (list request) :=
  {| SOLANA_AVAILABLE := false;
     time_time := fun w => (100%float, w);
     requests_get := fun r w => (provider_down r, w ++ [r]);
     load_chain_config := fun w => ([("ethereum", "https://eth.example")], w);
     new_web3 := fun _ w => (true, w);
     eth_get_balance := fun _ _ w => (None, w);
     erc20_balance_of := fun _ _ _ w => (None, w);
     solana_get_balance := fun _ _ w => (Raise (UpstreamError "unavailable"), w) |}.

(** A process that has already talked to [ethereum] at its default
    endpoint. *)
Definition connected : State (list request) :=
  mkState default_rpc_urls {[ "ethereum" := "https://cloudflare-eth.com" ]} ∅ ∅ [].

(** The provider is down; the wallet holds 1.5 of the native coin and 100
    of every token. *)
Definition provider_lost : Collaborators (list request) :=
  stub 100 provider_down (Some 1.5%float) (Some 100%float).

(** A Solana client that answers with the given lamports. *)
Definition solana_up (lamports : Z) : Collaborators (list request) :=
  {| SOLANA_AVAILABLE := true;
     time_time := fun w => (100%float, w);
     requests_get := fun r w => (provider_down r, w ++ [r]);
     load_chain_config := fun w => ([], w);
     new_web3 := fun _ w => (true, w);
     eth_get_balance := fun _ _ w => (None, w);
     erc20_balance_of := fun _ _ _ w => (None, w);
     solana_get_balance := fun _ _ w =>
       (Ok (VDict [ ("jsonrpc", VStr "2.0");
                    ("result", VDict [ ("context", VDict [("slot", VInt 1)]);
                                       ("value", VInt lamports) ]);
                    ("id", VInt 1) ]), w) |}.

(** A search that finds nothing under the provider's rate limit. *)
Definition search_limited : string -> list request -> outcome pyval * list request :=
  fun _ w => (Raise (UpstreamError "429 Too Many Requests"), w).

(** [ext] with the two EVM balance calls answered by [native] and [erc20]
    without a change of the outside world. *)
Definition with_balances {W} (ext : Collaborators W) (native erc20 : option float)
  : Collaborators W :=
  {| SOLANA_AVAILABLE := SOLANA_AVAILABLE ext;
     time_time := time_time ext;
     requests_get := requests_get ext;
     load_chain_config := load_chain_config ext;
     new_web3 := new_web3 ext;
     eth_get_balance := fun _ _ w => (native, w);
     erc20_balance_of := fun _ _ _ w => (erc20, w);
     solana_get_balance := solana_get_balance ext |}.

(** Sources without a chains file: the environment alone. *)
Definition env_only : Registry.Sources nat :=
  {| Registry.YAML_AVAILABLE := false;
     Registry._CHAIN_CONFIG_PATH := None;
     Registry.environ_get := fun name w =>
       (if String.eqb name "CHAIN_CONFIG_JSON" then Some "env-text" else None, w);
     Registry.json_loads := reads [("env-text", env_document)];
     Registry.yaml_safe_load := fun _ => Raise ValueError;
     Registry.path_exists := fun _ w => (false, w);
     Registry.read_file := fun _ w => (Raise (UpstreamError "no such file"), w);
     Registry.getmtime := fun _ w => (Raise (UpstreamError "no such file"), w) |}.

(** * Properties *)

(** ** Running a body *)

Section Running.
Context {W : Type}.

Lemma run_bind {A B} (m : M W A) (k : A -> M W B) (s : State W) :
  (m ≫= k) s =
  match m s with
  | (Ok a, s') => k a s'
  | (Raise e, s') => (Raise e, s')
  end.
Proof. reflexivity. Qed.

Lemma run_bind_ok {A B} (m : M W A) (k : A -> M W B) s a s1 :
  m s = (Ok a, s1) -> (m ≫= k) s = k a s1.
Proof. intros H. rewrite run_bind, H. reflexivity. Qed.

Lemma run_bind_inv {A B} (m : M W A) (k : A -> M W B) s b s' :
  (m ≫= k) s = (Ok b, s') ->
  exists a s1, m s = (Ok a, s1) /\ k a s1 = (Ok b, s').
Proof.
  rewrite run_bind. destruct (m s) as [[a|e] s1]; [eauto | discriminate].
Qed.

Lemma run_eval_inv {A} (o : outcome A) (s : State W) a s' :
  eval o s = (Ok a, s') -> o = Ok a /\ s' = s.
Proof. unfold eval. intros H. injection H as -> ->. auto. Qed.

End Running.

(** ** The order of [sorted] *)

Lemma ascii_compare_refl c : Ascii.compare c c = Eq.
Proof. unfold Ascii.compare. apply N.compare_refl. Qed.

Lemma ascii_compare_lt_trans a b c :
  Ascii.compare a b = Lt -> Ascii.compare b c = Lt -> Ascii.compare a c = Lt.
Proof. unfold Ascii.compare. rewrite !N.compare_lt_iff. lia. Qed.

Lemma string_compare_lt_trans s1 : forall s2 s3,
  String.compare s1 s2 = Lt -> String.compare s2 s3 = Lt -> String.compare s1 s3 = Lt.
Proof.
  induction s1 as [|a s1 IH]; intros [|b s2] [|c s3]; simpl; try congruence.
  destruct (Ascii.compare a b) eqn:Hab; try congruence;
  destruct (Ascii.compare b c) eqn:Hbc; try congruence; intros H1 H2.
  - apply Ascii.compare_eq_iff in Hab, Hbc. subst.
    rewrite ascii_compare_refl. eauto.
  - apply Ascii.compare_eq_iff in Hab. subst. now rewrite Hbc.
  - apply Ascii.compare_eq_iff in Hbc. subst. now rewrite Hab.
  - now rewrite (ascii_compare_lt_trans _ _ _ Hab Hbc).
Qed.

Lemma str_le_cases a b : str_le a b <-> String.compare a b = Lt \/ a = b.
Proof.
  unfold str_le, String.leb. split.
  - destruct (String.compare a b) eqn:E; try discriminate; auto.
    right. now apply String.compare_eq_iff.
  - intros [-> | ->]; [done|].
    assert (String.compare b b = Eq) as ->; [|done].
    induction b as [|c b IH]; simpl; [done|]. now rewrite ascii_compare_refl.
Qed.

Lemma str_le_trans : Transitive str_le.
Proof.
  intros a b c. rewrite !str_le_cases.
  intros [H1 | ->] [H2 | ->]; eauto using string_compare_lt_trans.
Qed.

Lemma str_le_total : Total str_le.
Proof. intros a b. apply String.leb_total. Qed.

Lemma str_le_antisym : AntiSymm eq str_le.
Proof. intros a b. apply String.leb_antisym. Qed.

Lemma sorted_sorted ids : StronglySorted str_le (sorted ids).
Proof.
  apply StronglySorted_merge_sort; [apply str_le_trans | apply str_le_total].
Qed.

Lemma sorted_Permutation ids1 ids2 : ids1 ≡ₚ ids2 -> sorted ids1 = sorted ids2.
Proof.
  intros Hp. pose proof str_le_antisym as Hanti.
  apply (StronglySorted_unique str_le); auto using sorted_sorted.
  unfold sorted. now rewrite !merge_sort_Permutation.
Qed.

Lemma markets_key_Permutation ids1 ids2 :
  ids1 ≡ₚ ids2 -> markets_key ids1 = markets_key ids2.
Proof. intros Hp. unfold markets_key. now rewrite (sorted_Permutation _ _ Hp). Qed.

(** ** The markets cache *)

Section Cache.
Context {W : Type} (ext : Collaborators W).

Lemma run_call {A} (f : W -> A * W) (s : State W) a w :
  f (world s) = (a, w) -> call f s = (Ok a, with_world s w).
Proof. unfold call, with_world. intros ->. reflexivity. Qed.

(** A call that finds a fresh entry returns its data and touches nothing
    but the clock. *)
Lemma cached_markets_hit ids (s : State W) now w ts data :
  ids <> [] ->
  time_time ext (world s) = (now, w) ->
  _MARKETS_CACHE s !! markets_key ids = Some (ts, data) ->
  PrimFloat.ltb (PrimFloat.sub now ts) _CACHE_TTL = true ->
  cached_markets ext ids s = (Ok data, with_world s w).
Proof.
  intros Hne Hclock Hentry Hfresh.
  destruct ids as [|id ids]; [done|].
  unfold cached_markets.
  rewrite (run_bind_ok _ _ _ _ _ (run_call _ _ _ _ Hclock)).
  rewrite run_bind. unfold get_state. simpl.
  rewrite Hentry, Hfresh. reflexivity.
Qed.

(** A call that finds no fresh entry and gets an answer stores it under the
    key, stamped with its own clock reading. *)
Lemma cached_markets_fetch ids (s : State W) now w resp w' d :
  ids <> [] ->
  time_time ext (world s) = (now, w) ->
  match _MARKETS_CACHE s !! markets_key ids with
  | Some (ts, _) => PrimFloat.ltb (PrimFloat.sub now ts) _CACHE_TTL = false
  | None => True
  end ->
  requests_get ext (MarketsRequest (markets_key ids) (length ids)) w = (Ok resp, w') ->
  resp_ok resp = true ->
  resp_json resp = Ok d ->
  exists s1, cached_markets ext ids s = (Ok d, s1) /\
             _MARKETS_CACHE s1 !! markets_key ids = Some (now, d).
Proof.
  intros Hne Hclock Hstale Hget Hok Hjson.
  destruct ids as [|id ids]; [done|].
  set (key := markets_key (id :: ids)) in *.
  assert (fetch_markets ext key (length (id :: ids)) now (with_world s w) =
          (Ok d, mkState (RPC_URLS s) (_WEB3_PROVIDERS s)
                   (<[key := (now, d)]> (_MARKETS_CACHE s)) (_COIN_DETAIL_CACHE s) w'))
    as Hfetch.
  { unfold fetch_markets.
    rewrite (run_bind_ok _ _ (with_world s w) (Ok resp) (with_world s w')).
    - rewrite Hok, Hjson. reflexivity.
    - change (with_world s w') with (with_world (with_world s w) w').
      apply run_call. exact Hget. }
  eexists. split.
  - unfold cached_markets. fold key.
    rewrite (run_bind_ok _ _ _ _ _ (run_call _ _ _ _ Hclock)).
    rewrite run_bind. unfold get_state. simpl.
    destruct (_MARKETS_CACHE s !! key) as [[ts old]|]; [rewrite Hstale|]; exact Hfetch.
  - simpl. apply lookup_insert_eq.
Qed.

End Cache.

(** C7. Two calls to [cached_markets] whose id lists are orderings of one
    another use the same key. When the first call leaves under that key an
    entry holding the data it returned, a second call that reads the clock
    within the TTL of that entry returns the same data, and the only thing
    it does to the outside world is read the clock: no request is sent.
    The entry is there, stamped with the first call's clock reading,
    whenever the first call had no fresh entry and the provider answered. *)
Theorem markets_cache_order_independent {W} (ext : Collaborators W)
    (ids1 ids2 : list string) (s s1 : State W) (data1 : pyval) :
  ids1 ≡ₚ ids2 ->
  ids1 <> [] ->
  cached_markets ext ids1 s = (Ok data1, s1) ->
  markets_key ids1 = markets_key ids2 /\
  (forall ts s2 now w,
      _MARKETS_CACHE s1 !! markets_key ids1 = Some (ts, data1) ->
      _MARKETS_CACHE s2 = _MARKETS_CACHE s1 ->
      time_time ext (world s2) = (now, w) ->
      PrimFloat.ltb (PrimFloat.sub now ts) _CACHE_TTL = true ->
      cached_markets ext ids2 s2 = (Ok data1, with_world s2 w)) /\
  (forall now1 w1 resp w2 d,
      time_time ext (world s) = (now1, w1) ->
      match _MARKETS_CACHE s !! markets_key ids1 with
      | Some (ts, _) => PrimFloat.ltb (PrimFloat.sub now1 ts) _CACHE_TTL = false
      | None => True
      end ->
      requests_get ext (MarketsRequest (markets_key ids1) (length ids1)) w1 = (Ok resp, w2) ->
      resp_ok resp = true ->
      resp_json resp = Ok d ->
      data1 = d /\ _MARKETS_CACHE s1 !! markets_key ids1 = Some (now1, d)).
Proof.
  intros Hperm Hne Hfirst.
  pose proof (markets_key_Permutation _ _ Hperm) as Hkey.
  split; [exact Hkey|]. split.
  - intros ts s2 now w Hentry Hsame Hclock Hfresh.
    apply (cached_markets_hit ext ids2 s2 now w ts data1); auto.
    + intros ->. apply Permutation_nil_r in Hperm. done.
    + rewrite <- Hkey, Hsame. exact Hentry.
  - intros now1 w1 resp w2 d Hclock Hstale Hget Hok Hjson.
    destruct (cached_markets_fetch ext ids1 s now1 w1 resp w2 d) as (s1' & Hrun & Hentry); auto.
    rewrite Hrun in Hfirst. injection Hfirst as -> ->. auto.
Qed.

(** ** Contract resolution *)

(** The first loop stops at the first preferred platform with an entry. *)
Lemma first_preferred_stops pf before p after val :
  Forall (fun q => py_truthy (dict_get_none pf q) = false) before ->
  dict_get pf p = Some val ->
  py_truthy val = true ->
  first_preferred (VDict pf) (before ++ p :: after) =
  Ok (Some {| contract := val; platform := p |}).
Proof.
  intros Hbefore Hp Hval. induction Hbefore as [|q before Hq _ IH]; simpl.
  - rewrite Hp. simpl. now rewrite Hval.
  - unfold dict_get_none in Hq.
    destruct (dict_get pf q); simpl in *; rewrite ?Hq; exact IH.
Qed.

Lemma first_preferred_none pf ps :
  Forall (fun q => py_truthy (dict_get_none pf q) = false) ps ->
  first_preferred (VDict pf) ps = Ok None.
Proof.
  induction 1 as [|q ps Hq _ IH]; simpl; [done|].
  unfold dict_get_none in Hq.
  destruct (dict_get pf q); simpl in *; rewrite ?Hq; exact IH.
Qed.

(** The second loop stops at the first entry of the map that is not empty. *)
Lemma first_present_stops (before : list (string * pyval)) p val after :
  Forall (fun kv => py_truthy kv.2 = false) before ->
  py_truthy val = true ->
  first_present (before ++ (p, val) :: after) = Some {| contract := val; platform := p |}.
Proof.
  intros Hbefore Hval. induction Hbefore as [|[q x] before Hq _ IH]; simpl.
  - now rewrite Hval.
  - simpl in Hq. now rewrite Hq.
Qed.

Lemma first_present_none (pf : list (string * pyval)) :
  Forall (fun kv => py_truthy kv.2 = false) pf -> first_present pf = None.
Proof.
  induction 1 as [|[q x] pf Hq _ IH]; simpl; [done|]. simpl in Hq. now rewrite Hq.
Qed.

Lemma dict_get_all_empty (pf : list (string * pyval)) q :
  Forall (fun kv => py_truthy kv.2 = false) pf -> py_truthy (dict_get_none pf q) = false.
Proof.
  unfold dict_get_none. induction 1 as [|[k x] pf Hx _ IH]; simpl; [done|].
  destruct (String.eqb k q); auto.
Qed.

(** C6. [find_contract_for_coin_id] on the coin detail the cache returns:
    without a detail it finds nothing; with a detail whose platform map is
    [pf] (an absent or empty map counting as the empty one) it returns the
    ["ethereum"] entry whenever that entry and the ["polygon-pos"] entry both
    hold an address; in general the first platform of [prefer]
    (Ethereum, BNB chain, Polygon, Avalanche, Arbitrum, Optimism) whose
    entry is not empty; when no preferred platform has one, the first entry
    of the map that is not empty; and nothing when every entry is empty. *)
Theorem find_contract_preference {W} (ext : Collaborators W) (coin_id : string)
    (s s1 : State W) (detail : pyval) :
  cached_coin_detail ext coin_id s = (Ok detail, s1) ->
  (py_truthy detail = false ->
   find_contract_for_coin_id ext coin_id s = (Ok None, s1)) /\
  (forall d pf,
     detail = VDict d ->
     py_or (dict_get_none d "platforms") (VDict []) = VDict pf ->
     exists found,
       find_contract_for_coin_id ext coin_id s = (Ok found, s1) /\
       (forall eth poly,
          dict_get pf "ethereum" = Some eth -> py_truthy eth = true ->
          dict_get pf "polygon-pos" = Some poly -> py_truthy poly = true ->
          found = Some {| contract := eth; platform := "ethereum" |}) /\
       (forall before p after val,
          prefer = before ++ p :: after ->
          Forall (fun q => py_truthy (dict_get_none pf q) = false) before ->
          dict_get pf p = Some val -> py_truthy val = true ->
          found = Some {| contract := val; platform := p |}) /\
       (forall before p val after,
          Forall (fun q => py_truthy (dict_get_none pf q) = false) prefer ->
          pf = before ++ (p, val) :: after ->
          Forall (fun kv => py_truthy kv.2 = false) before ->
          py_truthy val = true ->
          found = Some {| contract := val; platform := p |}) /\
       (Forall (fun kv => py_truthy kv.2 = false) pf -> found = None)).
Proof.
  intros Hdetail.
  assert (py_truthy detail = false ->
          find_contract_for_coin_id ext coin_id s = (Ok None, s1)) as Hmissing.
  { intros Hfalsy. unfold find_contract_for_coin_id.
    rewrite (run_bind_ok _ _ _ _ _ Hdetail), Hfalsy. reflexivity. }
  split; [exact Hmissing|].
  intros d pf -> Hpf.
  destruct (py_truthy (VDict d)) eqn:Htruthy.
  - assert (forall r,
              first_preferred (VDict pf) prefer = Ok r ->
              find_contract_for_coin_id ext coin_id s =
              (Ok (match r with Some found => Some found | None => first_present pf end), s1))
      as Hloops.
    { intros r Hr. unfold find_contract_for_coin_id.
      rewrite (run_bind_ok _ _ _ _ _ Hdetail), Htruthy. unfold eval, py_get, py_get_default.
      fold (dict_get_none d "platforms"). cbn [mbind outcome_bind negb].
      rewrite Hpf, Hr. now destruct r. }
    destruct (first_preferred (VDict pf) prefer) as [[found|]|e] eqn:Hloop.
    + exists (Some found). split; [exact (Hloops _ eq_refl)|]. split_and!.
      * intros eth poly Heth Htr _ _.
        pose proof (first_preferred_stops pf [] "ethereum" (tail prefer) eth
                      (List.Forall_nil _) Heth Htr) as Hstop.
        change ([] ++ "ethereum" :: tail prefer) with prefer in Hstop. congruence.
      * intros before p after val Hsplit Hbefore Hp Hval.
        rewrite Hsplit, (first_preferred_stops pf before p after val) in Hloop by auto.
        congruence.
      * intros before p val after Hnone. rewrite first_preferred_none in Hloop by auto.
        discriminate.
      * intros Hempty. rewrite first_preferred_none in Hloop; [discriminate|].
        apply Forall_forall. intros q _. now apply dict_get_all_empty.
    + exists (first_present pf). split; [exact (Hloops _ eq_refl)|]. split_and!.
      * intros eth poly Heth Htr _ _.
        pose proof (first_preferred_stops pf [] "ethereum" (tail prefer) eth
                      (List.Forall_nil _) Heth Htr) as Hstop.
        change ([] ++ "ethereum" :: tail prefer) with prefer in Hstop. congruence.
      * intros before p after val Hsplit Hbefore Hp Hval.
        rewrite Hsplit, (first_preferred_stops pf before p after val) in Hloop by auto.
        discriminate.
      * intros before p val after _ -> Hbefore Hval. now apply first_present_stops.
      * apply first_present_none.
    + exfalso. clear -Hloop. revert Hloop. generalize prefer.
      induction l as [|q l IH]; simpl; [discriminate|].
      destruct (dict_get pf q) as [v|]; simpl; [destruct (py_truthy v)|]; auto; discriminate.
  - destruct d; [|discriminate]. injection Hpf as <-.
    exists None. split; [now apply Hmissing|]. split_and!; try discriminate; auto.
    intros before p val after _ Hsplit. now destruct before.
Qed.

(** ** Rules for running bodies *)

Section Hoare.
Context {W : Type}.

Lemma returns_partial {A} (m : M W A) Q : returns m Q -> partial m Q.
Proof.
  intros H s a s' Hrun. destruct (H s) as (a' & s1 & Hrun' & HQ). congruence.
Qed.

Lemma partial_ret {A} (a : A) (Q : A -> Prop) : Q a -> partial (mret a : M W A) Q.
Proof. intros HQ s a' s' [= <- _]. exact HQ. Qed.

Lemma partial_bind {A B} (m : M W A) (k : A -> M W B) (P : A -> Prop) Q :
  partial m P -> (forall a, P a -> partial (k a) Q) -> partial (m ≫= k) Q.
Proof.
  intros Hm Hk s b s' Hrun. apply run_bind_inv in Hrun as (a & s1 & Ha & Hb).
  eapply Hk; eauto.
Qed.

Lemma partial_bind_any {A B} (m : M W A) (k : A -> M W B) Q :
  (forall a, partial (k a) Q) -> partial (m ≫= k) Q.
Proof.
  intros Hk. apply (partial_bind m k (fun _ => True)); [done | auto].
Qed.

Lemma partial_eval {A} (o : outcome A) (Q : A -> Prop) :
  (forall a, o = Ok a -> Q a) -> partial (eval o : M W A) Q.
Proof. intros H s a s' Hrun. apply run_eval_inv in Hrun as [-> _]. auto. Qed.

Lemma partial_weaken {A} (m : M W A) (P Q : A -> Prop) :
  partial m P -> (forall a, P a -> Q a) -> partial m Q.
Proof. intros Hm HPQ s a s' Hrun. eauto. Qed.

Lemma returns_ret {A} (a : A) (Q : A -> Prop) : Q a -> returns (mret a : M W A) Q.
Proof. intros HQ s. exists a, s. auto. Qed.

Lemma returns_bind {A B} (m : M W A) (k : A -> M W B) (P : A -> Prop) Q :
  returns m P -> (forall a, P a -> returns (k a) Q) -> returns (m ≫= k) Q.
Proof.
  intros Hm Hk s. destruct (Hm s) as (a & s1 & Ha & HP).
  destruct (Hk a HP s1) as (b & s2 & Hb & HQ).
  exists b, s2. split; [|exact HQ]. rewrite run_bind, Ha. exact Hb.
Qed.

Lemma returns_weaken {A} (m : M W A) (P Q : A -> Prop) :
  returns m P -> (forall a, P a -> Q a) -> returns m Q.
Proof.
  intros Hm HPQ s. destruct (Hm s) as (a & s' & Ha & HP). eauto.
Qed.

Lemma returns_call {A} (f : W -> A * W) (Q : A -> Prop) :
  (forall w, Q (f w).1) -> returns (call f) Q.
Proof.
  intros HQ s. unfold call. specialize (HQ (world s)).
  destruct (f (world s)) as [a w]. eauto.
Qed.

Lemma returns_get_state : returns (get_state : M W (State W)) (fun _ => True).
Proof. intros s. exists s, s. auto. Qed.

Lemma returns_eval {A} (a : A) (Q : A -> Prop) : Q a -> returns (eval (Ok a) : M W A) Q.
Proof. intros HQ s. exists a, s. auto. Qed.

Lemma returns_try {A} (m : M W A) (h : exn -> M W A) Q :
  partial m Q -> (forall e, returns (h e) Q) -> returns (try_except m h) Q.
Proof.
  intros Hm Hh s. unfold try_except. destruct (m s) as [[a|e] s1] eqn:Hms.
  - exists a, s1. eauto.
  - apply Hh.
Qed.

Lemma returns_set_rpc_urls u : returns (set_rpc_urls u : M W unit) (fun _ => True).
Proof. intros s. eexists _, _. split; [reflexivity|done]. Qed.

Lemma returns_set_web3_providers p :
  returns (set_web3_providers p : M W unit) (fun _ => True).
Proof. intros s. eexists _, _. split; [reflexivity|done]. Qed.

Lemma returns_set_markets_cache c :
  returns (set_markets_cache c : M W unit) (fun _ => True).
Proof. intros s. eexists _, _. split; [reflexivity|done]. Qed.


End Hoare.

(** ** The helpers never raise *)

Section Helpers.
Context {W : Type} (rt : Runtime) (ext : Collaborators W).

Lemma reload_returns :
  returns (reload_rpc_config_if_changed ext) (fun _ => True).
Proof.
  unfold reload_rpc_config_if_changed.
  eapply returns_bind; [apply (returns_call _ (fun _ => True)); done | intros entries _].
  eapply returns_bind; [apply returns_get_state | intros s _].
  apply returns_set_rpc_urls.
Qed.

(** A [str] key never makes [get_web3] raise. *)
Lemma get_web3_returns k : returns (get_web3 ext (VStr k)) (fun _ => True).
Proof.
  unfold get_web3.
  eapply returns_bind.
  { apply (returns_try _ _ (fun _ => True)); [done | intros e; now apply returns_ret]. }
  intros _ _.
  eapply returns_bind; [apply returns_get_state | intros s _].
  simpl. eapply returns_bind; [apply (returns_eval _ (fun _ => True)); done | intros known _].
  destruct known; simpl; [|now apply returns_ret].
  destruct (_WEB3_PROVIDERS s !! k); [now apply returns_ret|].
  destruct (RPC_URLS s !! k); [|now apply returns_ret].
  eapply returns_bind; [apply (returns_call _ (fun _ => True)); done | intros built _].
  destruct built; [|now apply returns_ret].
  eapply returns_bind; [apply returns_set_web3_providers | intros _ _].
  now apply returns_ret.
Qed.

Lemma get_native_evm_balance_returns chain address :
  returns (get_native_evm_balance ext chain address) (fun _ => True).
Proof.
  unfold get_native_evm_balance.
  eapply returns_bind; [apply get_web3_returns | intros [h|] _].
  - apply (returns_call _ (fun _ => True)); done.
  - now apply returns_ret.
Qed.

(** When every native-balance call fails, the adapter returns [None]. *)
Lemma get_native_evm_balance_unavailable chain address :
  (forall h a w, (eth_get_balance ext h a w).1 = None) ->
  returns (get_native_evm_balance ext chain address) (fun bal => bal = None).
Proof.
  intros Hdown. unfold get_native_evm_balance.
  eapply returns_bind; [apply get_web3_returns | intros [h|] _].
  - apply returns_call. intros w. apply Hdown.
  - now apply returns_ret.
Qed.

Lemma get_erc20_balance_returns k contract_address address :
  returns (get_erc20_balance ext (VStr k) contract_address address) (fun _ => True).
Proof.
  unfold get_erc20_balance.
  eapply returns_bind; [apply get_web3_returns | intros [h|] _].
  - apply (returns_call _ (fun _ => True)); done.
  - now apply returns_ret.
Qed.

Lemma fetch_markets_returns key n now :
  returns (fetch_markets ext key n now) (fun _ => True).
Proof.
  unfold fetch_markets.
  eapply returns_bind; [apply (returns_call _ (fun _ => True)); done | intros [resp|e] _].
  - destruct (resp_ok resp); [|now apply returns_ret].
    destruct (resp_json resp); [|now apply returns_ret].
    eapply returns_bind; [apply returns_get_state | intros s _].
    eapply returns_bind; [apply returns_set_markets_cache | intros _ _].
    now apply returns_ret.
  - now apply returns_ret.
Qed.

Lemma cached_markets_returns ids :
  returns (cached_markets ext ids) (fun _ => True).
Proof.
  unfold cached_markets. destruct ids as [|id ids]; [now apply returns_ret|].
  eapply returns_bind; [apply (returns_call _ (fun _ => True)); done | intros now _].
  eapply returns_bind; [apply returns_get_state | intros s _].
  destruct (_MARKETS_CACHE s !! _) as [[ts data]|]; [|apply fetch_markets_returns].
  destruct (PrimFloat.ltb _ _); [now apply returns_ret | apply fetch_markets_returns].
Qed.



Lemma get_solana_balance_returns address :
  returns (get_solana_balance ext address) (fun _ => True).
Proof.
  unfold get_solana_balance. destruct (SOLANA_AVAILABLE ext); simpl; [|now apply returns_ret].
  eapply returns_bind; [apply returns_get_state | intros s _].
  eapply returns_bind; [apply (returns_call _ (fun _ => True)); done | intros r _].
  destruct (r ≫= solana_lamports); now apply returns_ret.
Qed.

End Helpers.

(** ** The native step *)

Section Native.
Context {W : Type} (rt : Runtime) (ext : Collaborators W).

Lemma float_of_Z_0 : float_of_Z 0 = Some f0.
Proof. reflexivity. Qed.

Lemma num_mul_or_int0 a b usd :
  num_mul (or_int0 a) (or_int0 b) = Ok usd ->
  num_val usd = VInt 0 \/ exists v, num_val usd = VFloat v.
Proof.
  unfold or_int0.
  destruct a as [x|]; [destruct (float_truthy x)|];
    (destruct b as [y|]; [destruct (float_truthy y)|]);
    cbn [num_mul]; rewrite ?float_of_Z_0; intros [= <-]; simpl; eauto.
Qed.

Lemma opt_float_val_cases price :
  opt_float_val price = VNone \/ exists p, opt_float_val price = VFloat p.
Proof. destruct price; simpl; eauto. Qed.

Lemma native_evm_line chain address (P : option float -> Prop) :
  partial (get_native_evm_balance ext chain address) P ->
  partial (native_evm rt ext chain address)
    (fun line => exists bal, P bal /\ native_line (balance_or_zero bal) line).
Proof.
  intros Hbal. unfold native_evm.
  eapply partial_bind; [exact Hbal | intros native_bal HP].
  apply partial_bind_any. intros [price change].
  eapply partial_bind; [apply partial_eval; intros usd Husd; exact (num_mul_or_int0 _ _ _ Husd)|].
  intros usd Husd. apply partial_ret. exists native_bal. split; [exact HP|].
  eexists _, _, _, _. split; [reflexivity|].
  split_and!; [apply opt_float_val_cases | exact Husd | eauto].
Qed.

Lemma native_solana_line address :
  partial (native_solana rt ext address) (fun line => exists b, native_line b line).
Proof.
  unfold native_solana.
  apply partial_bind_any. intros sol_bal.
  apply partial_bind_any. intros m.
  apply partial_bind_any. intros price.
  eapply partial_bind; [apply partial_eval; intros usd Husd; exact (num_mul_or_int0 _ _ _ Husd)|].
  intros usd Husd. apply partial_bind_any. intros change.
  apply partial_ret. eexists. eexists _, _, _, _.
  split; [reflexivity|]. split_and!; [apply opt_float_val_cases | exact Husd | eauto].
Qed.

Lemma native_unknown_line chain : native_line f0 (native_unknown rt chain).
Proof.
  eexists _, _, _, _. split; [reflexivity|]. split_and!; [left | right | left]; eauto.
Qed.

(** The native step never raises: it sets a native line, or records one
    [native_balance_error]. *)
Lemma native_stage_returns chain address result :
  returns (native_stage rt ext chain address result) (native_outcome (fun _ => True) result).
Proof.
  unfold native_stage. apply returns_try.
  - apply partial_bind_any. intros s.
    eapply partial_bind with (P := fun line => exists b, native_line b line).
    + destruct (_ && _).
      * eapply partial_weaken; [apply (native_evm_line _ _ (fun _ => True)); done|].
        intros line (bal & _ & Hline). eauto.
      * destruct (String.eqb chain "solana"); [apply native_solana_line|].
        apply partial_ret. eexists. apply native_unknown_line.
    + intros line (b & Hline). apply partial_ret. left. eauto.
  - intros e. apply returns_ret. right. eauto.
Qed.

End Native.

(** ** The coin-id step and the explicit-token step *)

Section Tokens.
Context {W : Type} (rt : Runtime) (ext : Collaborators W).

Lemma outcome_bind_inv {A B} (o : outcome A) (k : A -> outcome B) b :
  o ≫= k = Ok b -> exists a, o = Ok a /\ k a = Ok b.
Proof. destruct o as [a|e]; [eauto | discriminate]. Qed.

Lemma extend_nil result : extend result [] [] = result.
Proof. destruct result. unfold extend. simpl. now rewrite !app_nil_r. Qed.

Lemma extend_extend result l1 e1 l2 e2 :
  extend (extend result l1 e1) l2 e2 = extend result (l1 ++ l2) (e1 ++ e2).
Proof. unfold extend. simpl. now rewrite !app_assoc. Qed.

Lemma add_token_extend result line : add_token result line = extend result [line] [].
Proof. unfold add_token, extend. now rewrite app_nil_r. Qed.

Lemma add_error_extend result msg : add_error result msg = extend result [] [msg].
Proof. unfold add_error, extend. now rewrite app_nil_r. Qed.

Lemma coin_line_missing_line coin_id markets line :
  coin_line_missing rt coin_id markets = Ok line -> coin_line coin_id line.
Proof.
  unfold coin_line_missing. intros H.
  repeat (apply outcome_bind_inv in H as (? & _ & H)).
  injection H as <-. eexists _, _, _, _. eexists _, _, _, _, _, _. reflexivity.
Qed.

Lemma coin_line_found_line address coin_id found markets :
  partial (coin_line_found rt ext address coin_id found markets) (coin_line coin_id).
Proof.
  unfold coin_line_found.
  apply partial_bind_any. intros s.
  apply partial_bind_any. intros balance.
  apply partial_eval. intros line H.
  repeat (apply outcome_bind_inv in H as (? & _ & H)).
  injection H as <-. eexists _, _, _, _. eexists _, _, _, _, _, _. reflexivity.
Qed.

(** The coin-id loop appends one line per listed id, in order, and leaves
    everything else as it was. *)
Lemma coin_tokens_lines chain address markets ids : forall result,
  partial (coin_tokens rt ext chain address markets ids result)
    (fun after => exists lines,
       after = extend result lines [] /\
       Forall2 coin_line (filter (fun id => native_of chain id = false) ids) lines).
Proof.
  induction ids as [|id ids IH]; intros result; simpl.
  - apply partial_ret. exists []. rewrite extend_nil. split; [done | constructor].
  - destruct (native_of chain id) eqn:Hnative.
    + rewrite filter_cons_False by (rewrite Hnative; discriminate). apply IH.
    + rewrite filter_cons_True by exact Hnative.
      apply partial_bind_any. intros found.
      eapply partial_bind with (P := coin_line id).
      * destruct found as [f|]; [destruct (py_truthy (contract f))|].
        -- apply coin_line_found_line.
        -- apply partial_eval, coin_line_missing_line.
        -- apply partial_eval, coin_line_missing_line.
      * intros line Hline. eapply partial_weaken; [apply IH|].
        intros after (lines & -> & Hlines). exists (line :: lines). split.
        -- now rewrite add_token_extend, extend_extend.
        -- now constructor.
Qed.

Lemma token_line_line chain t balance e line :
  token_line rt t (py_or (dict_get_none t "chain") (VStr chain))
    (dict_get_none t "contract") balance e = Ok line ->
  explicit_line chain t line.
Proof.
  unfold token_line. intros H.
  repeat (apply outcome_bind_inv in H as (? & _ & H)).
  injection H as <-. eexists _, _. eexists _, _, _, _, _, _. reflexivity.
Qed.

(** Processing one explicit token never raises. *)
Lemma explicit_token_returns chain address t result :
  returns (explicit_token rt ext chain address t result) (explicit_outcome chain t result).
Proof.
  unfold explicit_token. apply returns_try.
  - cbv zeta. destruct (py_truthy (dict_get_none t "contract")); simpl.
    + apply partial_bind_any. intros balance.
      apply partial_bind_any. intros e.
      eapply partial_bind with (P := explicit_line chain t).
      * apply partial_eval. intros line. apply token_line_line.
      * intros line Hline. apply partial_ret. right. left. eauto.
    + apply partial_ret. now left.
  - intros e. apply returns_ret. right. right. eauto.
Qed.

(** The explicit-token loop never raises; it appends the lines of some of
    the entries, in the order of the entries, and one [token_error] for each
    entry that raised. *)
Lemma explicit_tokens_returns chain address tokens : forall result,
  returns (explicit_tokens rt ext chain address tokens result)
    (fun after => exists kept lines errs,
       after = extend result lines errs /\
       sublist kept tokens /\
       Forall2 (explicit_line chain) kept lines /\
       Forall (fun e => exists msg, e = "token_error:" +:+ msg) errs /\
       length lines + length errs <= length tokens).
Proof.
  induction tokens as [|t tokens IH]; intros result; simpl.
  - apply returns_ret. exists [], [], []. rewrite extend_nil.
    split_and!; auto; constructor.
  - eapply returns_bind; [apply explicit_token_returns|].
    intros mid Hmid. eapply returns_weaken; [apply IH|].
    intros after (kept & lines & errs & -> & Hsub & Hlines & Herrs & Hlen).
    destruct Hmid as [-> | [(line & Hline & ->) | (msg & ->)]].
    + exists kept, lines, errs. split_and!; auto.
      now apply sublist_cons.
    + exists (t :: kept), (line :: lines), errs. split_and!; auto.
      * now rewrite add_token_extend, extend_extend.
      * now apply sublist_skip.
      * simpl. lia.
    + exists kept, lines, (("token_error:" +:+ msg) :: errs). split_and!; auto.
      * now rewrite add_error_extend, extend_extend.
      * now apply sublist_cons.
      * constructor; eauto.
      * simpl. lia.
Qed.

End Tokens.

(** ** The whole function *)

Section Whole.
Context {W : Type} (rt : Runtime) (ext : Collaborators W).

(** A run that returns went through the four steps. *)
Lemma compute_stages chain address coin_ids tokens (s s' : State W) r :
  compute_balance_for_chain rt ext chain address coin_ids tokens s = (Ok r, s') ->
  exists r1 s1 r2 s2 r3 tot,
    native_stage rt ext chain address (mkResult chain address VNone [] [] None) s
      = (Ok r1, s1) /\
    coin_stage rt ext chain address coin_ids r1 s1 = (Ok r2, s2) /\
    explicit_tokens rt ext chain address tokens r2 s2 = (Ok r3, s') /\
    native_total rt (res_native r3) = Ok tot /\
    r = set_total r3 (tokens_total rt (res_tokens r3) tot).
Proof.
  unfold compute_balance_for_chain, totals. intros H.
  apply run_bind_inv in H as (r1 & s1 & H1 & H).
  apply run_bind_inv in H as (r2 & s2 & H2 & H).
  apply run_bind_inv in H as (r3 & s3 & H3 & H).
  apply run_bind_inv in H as (tot & s4 & Htot & H).
  apply run_eval_inv in Htot as [Htot ->].
  injection H as <- <-.
  exists r1, s1, r2, s2, r3, tot. auto.
Qed.

Lemma coin_stage_lines chain address coin_ids result :
  partial (coin_stage rt ext chain address coin_ids result)
    (fun after => exists lines,
       after = extend result lines [] /\
       Forall2 coin_line (listed_coin_ids rt chain coin_ids) lines).
Proof.
  unfold coin_stage. apply partial_bind_any. intros markets. apply coin_tokens_lines.
Qed.

(** The result of a run that returns, given what the native step ensures. *)
Lemma compute_shape_with (P : float -> Prop) chain address coin_ids tokens
    (s s' : State W) r :
  (forall result,
     partial (native_stage rt ext chain address result) (native_outcome P result)) ->
  compute_balance_for_chain rt ext chain address coin_ids tokens s = (Ok r, s') ->
  exists native_errs coin_lines kept tok_lines tok_errs tot,
    res_chain r = chain /\ res_address r = address /\
    native_part P (res_native r) native_errs /\
    res_tokens r = coin_lines ++ tok_lines /\
    res_errors r = native_errs ++ tok_errs /\
    Forall2 coin_line (listed_coin_ids rt chain coin_ids) coin_lines /\
    sublist kept tokens /\
    Forall2 (explicit_line chain) kept tok_lines /\
    Forall token_error tok_errs /\
    length tok_lines + length tok_errs <= length tokens /\
    native_total rt (res_native r) = Ok tot /\
    res_total_usd r = Some (tokens_total rt (res_tokens r) tot).
Proof.
  intros Hnative Hrun.
  apply compute_stages in Hrun
    as (r1 & s1 & r2 & s2 & r3 & tot & H1 & H2 & H3 & Htot & ->).
  apply Hnative in H1.
  apply coin_stage_lines in H2 as (coin_lines & -> & Hcoins).
  apply (returns_partial _ _ (explicit_tokens_returns rt ext chain address tokens _)) in H3
    as (kept & tok_lines & tok_errs & -> & Hsub & Hlines & Herrs & Hlen).
  destruct H1 as [(b & line & HP & Hline & ->) | (msg & ->)].
  - exists [], coin_lines, kept, tok_lines, tok_errs, tot. simpl.
    split_and!; auto. left. eauto.
  - exists ["native_balance_error: " +:+ msg], coin_lines, kept, tok_lines, tok_errs, tot.
    simpl. split_and!; auto. right. eauto.
Qed.

Lemma compute_shape chain address coin_ids tokens (s s' : State W) r :
  compute_balance_for_chain rt ext chain address coin_ids tokens s = (Ok r, s') ->
  exists native_errs coin_lines kept tok_lines tok_errs tot,
    res_chain r = chain /\ res_address r = address /\
    native_part (fun _ => True) (res_native r) native_errs /\
    res_tokens r = coin_lines ++ tok_lines /\
    res_errors r = native_errs ++ tok_errs /\
    Forall2 coin_line (listed_coin_ids rt chain coin_ids) coin_lines /\
    sublist kept tokens /\
    Forall2 (explicit_line chain) kept tok_lines /\
    Forall token_error tok_errs /\
    length tok_lines + length tok_errs <= length tokens /\
    native_total rt (res_native r) = Ok tot /\
    res_total_usd r = Some (tokens_total rt (res_tokens r) tot).
Proof.
  apply compute_shape_with. intros result.
  apply returns_partial, native_stage_returns.
Qed.

(** *** Totals *)

Lemma token_usd_line coin_id contract chain balance usd line :
  token_line_of coin_id contract chain balance usd line ->
  exists x, token_usd rt line = Ok x.
Proof.
  intros (symbol & name & platform & price & change & logo & ->).
  unfold token_usd. cbn. unfold py_or. cbn.
  destruct (float_truthy usd); cbn; eauto.
Qed.

Lemma usd_or_zero_token_usd line :
  usd_or_zero rt line =
  match token_usd rt line with
  | Ok x => x
  | Raise _ => f0
  end.
Proof.
  unfold usd_or_zero, token_usd, field, py_get, py_get_default.
  destruct line as [| | | | | |d]; try reflexivity.
  cbn [mbind outcome_bind]. unfold py_or.
  destruct (dict_get d "usd_value") as [v|]; [|reflexivity].
  destruct (py_truthy v); reflexivity.
Qed.

Lemma tokens_total_sum tks :
  Forall (fun tk => exists x, token_usd rt tk = Ok x) tks ->
  forall total,
    tokens_total rt tks total =
    fold_left (fun acc line => PrimFloat.add acc (usd_or_zero rt line)) tks total.
Proof.
  induction 1 as [|tk tks [x Hx] _ IH]; intros total; simpl; [done|].
  rewrite usd_or_zero_token_usd, Hx. apply IH.
Qed.

Lemma native_total_sum native tot :
  native_total rt native = Ok tot -> tot = PrimFloat.add f0 (usd_or_zero rt native).
Proof.
  rewrite usd_or_zero_token_usd. unfold native_total, token_usd.
  destruct (py_truthy native) eqn:Htruthy.
  - intros H. apply outcome_bind_inv in H as (value & -> & H). cbn [mbind outcome_bind].
    unfold py_or in *. destruct (py_truthy value).
    + apply outcome_bind_inv in H as (x & -> & [= <-]). reflexivity.
    + injection H as <-. reflexivity.
  - intros [= <-].
    destruct native as [| | | | |l|d]; try reflexivity.
    destruct d; [reflexivity | discriminate].
Qed.

(** The total of a result that is returned. *)
Lemma compute_total chain address coin_ids tokens (s s' : State W) r :
  compute_balance_for_chain rt ext chain address coin_ids tokens s = (Ok r, s') ->
  res_total_usd r = Some (usd_sum rt (res_native r) (res_tokens r)).
Proof.
  intros Hrun.
  apply compute_shape in Hrun
    as (native_errs & coin_lines & kept & tok_lines & tok_errs & tot & _ & _ & _ &
        Htokens & _ & Hcoins & _ & Hlines & _ & _ & Htot & ->).
  unfold usd_sum. rewrite <- (native_total_sum _ _ Htot).
  f_equal. apply tokens_total_sum. rewrite Htokens. apply Forall_app. split.
  - clear -Hcoins. induction Hcoins as [|id line ids lines Hline _ IH]; constructor; auto.
    destruct Hline as (contract & ch & balance & usd & Hline).
    eapply token_usd_line, Hline.
  - clear -Hlines. induction Hlines as [|t line ts lines Hline _ IH]; constructor; auto.
    destruct Hline as (balance & usd & Hline).
    eapply token_usd_line, Hline.
Qed.

End Whole.


(** ** Order and deduplication of the token lines *)

Lemma fromkeys_from_filter l : forall seen,
  fromkeys_from seen l = filter (fun y => y ∉ seen) (fromkeys_from [] l).
Proof.
  induction l as [|x l IH]; intros seen; simpl; [done|].
  rewrite (IH [x]). destruct (bool_decide_reflect (x ∈ seen)) as [Hin|Hout].
  - rewrite (IH seen), filter_cons_False by auto.
    rewrite list_filter_filter. apply list_filter_iff. intros y. split; [|tauto].
    intros Hy. split; [exact Hy|]. intros ->%list_elem_of_singleton. contradiction.
  - rewrite (IH (x :: seen)), filter_cons_True by auto. f_equal.
    rewrite list_filter_filter. apply list_filter_iff. intros y.
    rewrite not_elem_of_cons, list_elem_of_singleton. tauto.
Qed.

(** [list(dict.fromkeys(l))] keeps the first occurrence of each string. *)
Lemma dict_fromkeys_first_seen l : dict_fromkeys l = first_seen l.
Proof.
  unfold dict_fromkeys. induction l as [|x l IH]; simpl; [done|].
  rewrite fromkeys_from_filter, IH. f_equal.
  apply list_filter_iff. intros y. now rewrite list_elem_of_singleton.
Qed.

Lemma first_seen_NoDup l : NoDup (first_seen l).
Proof.
  induction l as [|x l IH]; simpl; constructor.
  - rewrite list_elem_of_filter. tauto.
  - now apply NoDup_filter.
Qed.

Lemma listed_coin_ids_NoDup rt chain coin_ids : NoDup (listed_coin_ids rt chain coin_ids).
Proof.
  unfold listed_coin_ids, clean_coin_ids. apply NoDup_filter.
  rewrite dict_fromkeys_first_seen. apply first_seen_NoDup.
Qed.

Lemma coin_line_coin_id id line :
  coin_line id line -> field line "coin_id" = Some (VStr id).
Proof.
  intros (contract & chain & balance & usd & symbol & name & pl & price & change & logo & ->).
  reflexivity.
Qed.

Lemma explicit_line_fields chain t line :
  explicit_line chain t line ->
  field line "coin_id" = Some VNone /\
  field line "contract" = Some (dict_get_none t "contract") /\
  field line "chain" = Some (py_or (dict_get_none t "chain") (VStr chain)).
Proof.
  intros (balance & usd & symbol & name & pl & price & change & logo & ->).
  split_and!; reflexivity.
Qed.

Lemma native_part_no_coin_id P native errs :
  native_part P native errs -> field native "coin_id" = None.
Proof.
  intros [[(b & _ & symbol & price & usd & rest & -> & _ & _ & Hrest) _] | [-> _]];
    [|reflexivity].
  destruct Hrest as [-> | [change ->]]; reflexivity.
Qed.

(** C5. In every result [compute_balance_for_chain] returns, [tokens] is the
    lines of the coin ids followed by the lines of the explicit tokens. The
    coin-id lines are, one each and in this order, those of the input ids
    that are not empty, stripped, deduplicated keeping first occurrences,
    without the native coin of the chain. The explicit lines are those of a
    subsequence of the input tokens, in input order, each with a null
    [coin_id] and its entry's contract. The native line is a field of its
    own: it has no [coin_id] key, every token line has one, so no token line
    is the native line. *)
Theorem tokens_coin_lines_then_explicit_lines {W} (rt : Runtime) (ext : Collaborators W)
    (chain address : string) (coin_ids : list string)
    (tokens : list (list (string * pyval))) (s s' : State W) (r : Result) :
  compute_balance_for_chain rt ext chain address coin_ids tokens s = (Ok r, s') ->
  exists coin_lines kept tok_lines,
    res_tokens r = coin_lines ++ tok_lines /\
    Forall2 (fun id line => field line "coin_id" = Some (VStr id))
      (filter (fun id => native_of chain id = false)
         (first_seen (map (str_strip rt)
                        (filter (fun cid => str_truthy cid = true) coin_ids))))
      coin_lines /\
    sublist kept tokens /\
    Forall2 (fun t line =>
               field line "coin_id" = Some VNone /\
               field line "contract" = Some (dict_get_none t "contract"))
      kept tok_lines /\
    field (res_native r) "coin_id" = None /\
    Forall (fun line => is_Some (field line "coin_id") /\ line <> res_native r)
      (res_tokens r).
Proof.
  intros Hrun.
  apply compute_shape in Hrun
    as (native_errs & coin_lines & kept & tok_lines & tok_errs & tot & _ & _ & Hnative &
        Htokens & _ & Hcoins & Hsub & Hlines & _).
  unfold listed_coin_ids, clean_coin_ids in Hcoins.
  rewrite dict_fromkeys_first_seen in Hcoins.
  pose proof (native_part_no_coin_id _ _ _ Hnative) as Hno.
  exists coin_lines, kept, tok_lines. split_and!; auto.
  - eapply Forall2_impl; [exact Hcoins|]. intros id line. apply coin_line_coin_id.
  - eapply Forall2_impl; [exact Hlines|]. intros t line Hline.
    apply explicit_line_fields in Hline. tauto.
  - rewrite Htokens. apply Forall_app. split.
    + clear -Hcoins Hno. induction Hcoins as [|id line ids lines Hline _ IH]; constructor; auto.
      apply coin_line_coin_id in Hline. split; [rewrite Hline; eauto|]. congruence.
    + clear -Hlines Hno. induction Hlines as [|t line ts lines Hline _ IH]; constructor; auto.
      apply explicit_line_fields in Hline as (Hline & _). split; [rewrite Hline; eauto|].
      congruence.
Qed.

Lemma has_coin_id_coin_line id id' line :
  coin_line id' line -> has_coin_id id line = String.eqb id' id.
Proof. intros H%coin_line_coin_id. unfold has_coin_id. now rewrite H. Qed.

Lemma has_coin_id_explicit_line id chain t line :
  explicit_line chain t line -> has_coin_id id line = false.
Proof. intros (H & _)%explicit_line_fields. unfold has_coin_id. now rewrite H. Qed.

Lemma filter_coin_lines id ids lines :
  Forall2 coin_line ids lines ->
  length (List.filter (has_coin_id id) lines) =
  length (List.filter (fun x => String.eqb x id) ids).
Proof.
  induction 1 as [|x line ids lines Hline _ IH]; simpl; [done|].
  rewrite (has_coin_id_coin_line _ _ _ Hline). destruct (String.eqb x id); simpl; auto.
Qed.

Lemma filter_explicit_lines id chain kept lines :
  Forall2 (explicit_line chain) kept lines -> List.filter (has_coin_id id) lines = [].
Proof.
  induction 1 as [|t line ts lines Hline _ IH]; simpl; [done|].
  now rewrite (has_coin_id_explicit_line _ _ _ _ Hline).
Qed.

Lemma filter_eqb_absent id ids :
  id ∉ ids -> List.filter (fun x => String.eqb x id) ids = [].
Proof.
  induction ids as [|x ids IH]; simpl; [done|].
  rewrite not_elem_of_cons. intros [Hne Hout].
  destruct (String.eqb_spec x id); [congruence | auto].
Qed.

Lemma filter_eqb_NoDup id ids :
  NoDup ids -> length (List.filter (fun x => String.eqb x id) ids) <= 1.
Proof.
  induction 1 as [|x ids Hout _ IH]; simpl; [lia|].
  destruct (String.eqb_spec x id) as [->|]; [|exact IH].
  rewrite filter_eqb_absent by exact Hout. simpl. lia.
Qed.

(** C4, as the code has it. In every result [compute_balance_for_chain]
    returns, a coin id has at most one token line, and a coin id that
    [NATIVE_COIN_TO_CHAIN] maps to the chain of the request has none. So the
    list ["ethereum"; "ethereum"; "solana"] on chain ["ethereum"] gives no
    line for ["ethereum"] and at most one for ["solana"]. *)
Theorem native_coin_id_has_no_token_line {W} (rt : Runtime) (ext : Collaborators W)
    (chain address : string) (coin_ids : list string)
    (tokens : list (list (string * pyval))) (s s' : State W) (r : Result) :
  compute_balance_for_chain rt ext chain address coin_ids tokens s = (Ok r, s') ->
  (forall id, length (List.filter (has_coin_id id) (res_tokens r)) <= 1) /\
  (forall id, table_get NATIVE_COIN_TO_CHAIN id = Some chain ->
              List.filter (has_coin_id id) (res_tokens r) = []) /\
  (chain = "ethereum" ->
   coin_ids = ["ethereum"; "ethereum"; "solana"] ->
   List.filter (has_coin_id "ethereum") (res_tokens r) = [] /\
   length (List.filter (has_coin_id "solana") (res_tokens r)) <= 1).
Proof.
  intros Hrun.
  apply compute_shape in Hrun
    as (native_errs & coin_lines & kept & tok_lines & tok_errs & tot & _ & _ & _ &
        Htokens & _ & Hcoins & _ & Hlines & _).
  assert (forall id, length (List.filter (has_coin_id id) (res_tokens r)) <= 1) as Hone.
  { intros id. rewrite Htokens, List.filter_app, length_app.
    rewrite (filter_explicit_lines id _ _ _ Hlines), (filter_coin_lines id _ _ Hcoins).
    simpl. rewrite Nat.add_0_r. apply filter_eqb_NoDup, listed_coin_ids_NoDup. }
  assert (forall id, table_get NATIVE_COIN_TO_CHAIN id = Some chain ->
                     List.filter (has_coin_id id) (res_tokens r) = []) as Hnone.
  { intros id Hnative. apply length_zero_iff_nil.
    rewrite Htokens, List.filter_app, length_app.
    rewrite (filter_explicit_lines id _ _ _ Hlines), (filter_coin_lines id _ _ Hcoins).
    rewrite filter_eqb_absent; [done|].
    unfold listed_coin_ids. rewrite list_elem_of_filter. intros [Hn _].
    unfold native_of in Hn. rewrite Hnative, String.eqb_refl in Hn. discriminate. }
  split_and!; auto. intros -> _. split; [apply Hnone; reflexivity | apply Hone].
Qed.

(** ** The guarded steps, attempt by attempt *)

Section Attempting.
Context {W : Type} (rt : Runtime) (ext : Collaborators W).

(** The native step is its attempt under the handler: the line is set, or
    the exception recorded. *)
Lemma native_stage_run chain address result (s : State W) :
  native_stage rt ext chain address result s =
  match native_attempt rt ext chain address s with
  | (Ok line, s1) => (Ok (set_native result line), s1)
  | (Raise e, s1) =>
      (Ok (add_error result ("native_balance_error: " +:+ exn_str rt e)), s1)
  end.
Proof.
  unfold native_stage, native_attempt, try_except. rewrite !run_bind.
  unfold get_state. rewrite !run_bind.
  set (body := if _ && _ then _ else _).
  destruct (body s) as [[line|e] s1]; reflexivity.
Qed.

(** Processing an explicit token is its attempt under the handler. *)
Lemma explicit_token_run chain address t result (s : State W) :
  explicit_token rt ext chain address t result s =
  match token_attempt rt ext chain address t s with
  | (Ok None, s1) => (Ok result, s1)
  | (Ok (Some line), s1) => (Ok (add_token result line), s1)
  | (Raise e, s1) => (Ok (add_error result ("token_error:" +:+ exn_str rt e)), s1)
  end.
Proof.
  unfold explicit_token, token_attempt, try_except. cbv zeta.
  destruct (py_truthy (dict_get_none t "contract")); simpl; [|reflexivity].
  rewrite !run_bind. destruct (get_erc20_balance _ _ _ _ s) as [[balance|e1] s1]; [|done].
  rewrite !run_bind. destruct (enrich _ _ _ s1) as [[e|e2] s2]; [|done].
  rewrite !run_bind. unfold eval. destruct (token_line _ _ _ _ _ _) as [line|e3]; reflexivity.
Qed.

Lemma attempt_lines_cons o os :
  attempt_lines (o :: os) =
  match o with Ok (Some line) => [line] | _ => [] end ++ attempt_lines os.
Proof. reflexivity. Qed.

Lemma attempt_errors_cons o os :
  attempt_errors rt (o :: os) =
  match o with Raise e => ["token_error:" +:+ exn_str rt e] | Ok _ => [] end
    ++ attempt_errors rt os.
Proof. reflexivity. Qed.

(** The explicit-token loop appends what its attempts leave. *)
Lemma explicit_tokens_run chain address tokens : forall result (s : State W),
  explicit_tokens rt ext chain address tokens result s =
  (Ok (extend result (attempt_lines (token_attempts rt ext chain address tokens s).1)
         (attempt_errors rt (token_attempts rt ext chain address tokens s).1)),
   (token_attempts rt ext chain address tokens s).2).
Proof.
  induction tokens as [|t tokens IH]; intros result s; simpl.
  - now rewrite extend_nil.
  - rewrite run_bind, explicit_token_run.
    destruct (token_attempt rt ext chain address t s) as [[[line|]|e] s1];
      rewrite IH; destruct (token_attempts rt ext chain address tokens s1) as [os s2];
      simpl; f_equal.
    + now rewrite add_token_extend, extend_extend.
    + now rewrite add_error_extend, extend_extend.
Qed.



End Attempting.

(** ** Failures and the [errors] list *)

Lemma token_error_prefix e :
  token_error e -> String.prefix "native_balance_error" e = false.
Proof. intros [msg ->]. reflexivity. Qed.

Lemma num_mul_zero n :
  num_mul (or_int0 None) n =
  Ok (match n with
      | NInt _ => NInt 0
      | NFloat g => NFloat (PrimFloat.mul f0 g)
      end).
Proof. destruct n; reflexivity. Qed.

Section Unavailable.
Context {W : Type} (rt : Runtime) (ext : Collaborators W).

(** The native attempt on ["bsc"] when every native-balance call fails: no
    balance, then the quote of [binancecoin]. *)
Lemma native_attempt_bsc address (s : State W) :
  (forall h a w, (eth_get_balance ext h a w).1 = None) ->
  is_Some (RPC_URLS s !! "bsc") ->
  exists markets s1 s2,
    get_native_evm_balance ext "bsc" address s = (Ok None, s1) /\
    cached_markets ext ["binancecoin"] s1 = (Ok markets, s2) /\
    native_attempt rt ext "bsc" address s =
    (match native_quote rt markets with
     | Ok (price, change) =>
         Ok (VDict [ ("symbol", VStr (str_upper rt "binancecoin"));
                     ("balance", VFloat f0);
                     ("usd_price", opt_float_val price);
                     ("usd_value",
                        num_val match or_int0 price with
                                | NInt _ => NInt 0
                                | NFloat g => NFloat (PrimFloat.mul f0 g)
                                end);
                     ("price_change_24h", change) ])
     | Raise e => Raise e
     end, s2).
Proof.
  intros Hdown Hbsc.
  destruct (get_native_evm_balance_unavailable ext "bsc" address Hdown s)
    as (bal & s1 & Hbal & ->).
  destruct (cached_markets_returns ext ["binancecoin"] s1) as (markets & s2 & Hmarkets & _).
  exists markets, s1, s2. split; [exact Hbal|]. split; [exact Hmarkets|].
  unfold native_attempt. rewrite run_bind. unfold get_state.
  rewrite bool_decide_eq_true_2 by exact Hbsc.
  change (String.eqb "bsc" "solana") with false. cbn [andb negb].
  unfold native_evm. rewrite (run_bind_ok _ _ _ _ _ Hbal). cbv zeta.
  change (table_key_of NATIVE_COIN_TO_CHAIN (VStr "bsc")) with (Some "binancecoin").
  cbv beta iota. change (str_truthy "binancecoin") with true. cbv iota.
  rewrite !run_bind, Hmarkets. unfold native_quote.
  destruct (py_truthy markets).
  - unfold eval.
    destruct (py_index0 markets) as [m|e]; [|reflexivity]. cbn [mbind outcome_bind].
    destruct (quote_price rt m) as [price|e]; [|reflexivity]. cbn [mbind outcome_bind].
    destruct (py_get m "price_change_percentage_24h") as [change|e]; [|reflexivity].
    cbn [mbind outcome_bind]. rewrite run_bind. now rewrite num_mul_zero.
  - unfold mret at 1, M_ret at 1. cbv iota beta. rewrite run_bind. unfold eval.
    now rewrite num_mul_zero.
Qed.

End Unavailable.

Lemma attempt_errors_token_error rt os : Forall token_error (attempt_errors rt os).
Proof.
  induction os as [|[[line|]|e] os IH]; simpl; auto.
  constructor; [|exact IH]. now exists (exn_str rt e).
Qed.

(** C3, as the code has it. On chain ["bsc"], which has an endpoint, let
    every native-balance RPC call fail. The adapter catches the failure and
    returns [None], and the native step goes on to the markets of
    [binancecoin]. When it reads a price and a change from them (the first
    quote's, or none when the markets are empty), a result
    [compute_balance_for_chain] returns has [native.balance == 0.0],
    [native.usd_price] that price (null when there is none),
    [native.price_change_24h] that change, and an [errors] list of
    [token_error] entries only: no entry starts with
    [native_balance_error]. Only when reading the quote raises, on malformed
    market data, is [native] null and [errors] headed by the
    [native_balance_error] entry of that exception. *)
Theorem bsc_rpc_unavailable_zero_balance {W} (rt : Runtime) (ext : Collaborators W)
    (address : string) (coin_ids : list string)
    (tokens : list (list (string * pyval))) (s s' : State W) (r : Result) :
  (forall h a w, (eth_get_balance ext h a w).1 = None) ->
  is_Some (RPC_URLS s !! "bsc") ->
  compute_balance_for_chain rt ext "bsc" address coin_ids tokens s = (Ok r, s') ->
  (get_native_evm_balance ext "bsc" address s).1 = Ok None /\
  exists markets,
    (cached_markets ext ["binancecoin"]
       (get_native_evm_balance ext "bsc" address s).2).1 = Ok markets /\
    match native_quote rt markets with
    | Ok (price, change) =>
        field (res_native r) "balance" = Some (VFloat f0) /\
        field (res_native r) "usd_price" = Some (opt_float_val price) /\
        field (res_native r) "price_change_24h" = Some change /\
        Forall token_error (res_errors r) /\
        Forall (fun e => String.prefix "native_balance_error" e = false) (res_errors r)
    | Raise e =>
        res_native r = VNone /\
        exists rest,
          res_errors r = ("native_balance_error: " +:+ exn_str rt e) :: rest /\
          Forall token_error rest
    end.
Proof.
  intros Hdown Hbsc Hrun.
  destruct (native_attempt_bsc rt ext address s Hdown Hbsc)
    as (markets & s1 & s2 & Hbal & Hmarkets & Hattempt).
  rewrite Hbal. cbn [fst snd]. split; [reflexivity|].
  exists markets. rewrite Hmarkets. split; [reflexivity|].
  apply compute_stages in Hrun
    as (r1 & s1' & r2 & s2' & r3 & tot & H1 & H2 & H3 & _ & ->).
  rewrite native_stage_run, Hattempt in H1.
  apply coin_stage_lines in H2 as (coin_lines & -> & _).
  rewrite explicit_tokens_run in H3. injection H3 as <- _.
  pose proof (attempt_errors_token_error rt
                (token_attempts rt ext "bsc" address tokens s2').1) as Herrs.
  destruct (native_quote rt markets) as [[price change]|e]; injection H1 as <- _; simpl.
  - split_and!; try reflexivity; [exact Herrs|].
    eapply Forall_impl; [exact Herrs|]. intros e. apply token_error_prefix.
  - split; [reflexivity|]. eauto.
Qed.

(** ** After the coin-id step *)

Section Raising.
Context {W : Type} (rt : Runtime) (ext : Collaborators W).

Lemma native_total_returns P native errs :
  native_part P native errs -> exists tot, native_total rt native = Ok tot.
Proof.
  intros [[(b & _ & symbol & price & usd & rest & -> & _ & Husd & _) _] | [-> _]].
  - unfold native_total. cbn. destruct Husd as [-> | [v ->]]; cbn; [eauto|].
    unfold py_or. cbn. destruct (float_truthy v); cbn; eauto.
  - eexists. reflexivity.
Qed.

(** Once the coin-id step has returned, the rest returns. *)
Lemma compute_after_coin_stage chain address coin_ids tokens (s s1 s2 : State W) r1 r2 :
  native_stage rt ext chain address (mkResult chain address VNone [] [] None) s
    = (Ok r1, s1) ->
  coin_stage rt ext chain address coin_ids r1 s1 = (Ok r2, s2) ->
  exists r s', compute_balance_for_chain rt ext chain address coin_ids tokens s = (Ok r, s').
Proof.
  intros H1 H2.
  destruct (explicit_tokens_returns rt ext chain address tokens r2 s2)
    as (r3 & s3 & H3 & (kept & lines & errs & Hr3 & _)).
  assert (exists tot, native_total rt (res_native r3) = Ok tot) as [tot Htot].
  { pose proof (returns_partial _ _ (native_stage_returns rt ext chain address _) _ _ _ H1)
      as Hout.
    apply coin_stage_lines in H2 as (coin_lines & -> & _). subst r3. simpl.
    destruct Hout as [(b & line & _ & Hline & ->) | (msg & ->)]; simpl.
    - apply (native_total_returns (fun _ => True) _ []). left. eauto.
    - apply (native_total_returns (fun _ => True) _ ["native_balance_error: " +:+ msg]).
      right. eauto. }
  eexists _, _. unfold compute_balance_for_chain.
  rewrite (run_bind_ok _ _ _ _ _ H1), (run_bind_ok _ _ _ _ _ H2), (run_bind_ok _ _ _ _ _ H3).
  unfold totals. rewrite (run_bind_ok _ _ s3 tot s3); [reflexivity|].
  unfold eval. now rewrite Htot.
Qed.

End Raising.

(** C1. Whenever [compute_balance_for_chain] returns a result, for whatever
    chain, address, coin ids and explicit tokens and however the collaborators
    behave (failing calls and malformed data included), its [total_usd] is the
    value of the native line plus the values of the token lines, summed from
    left to right, where the value of a line is [0.0] when the line is null
    or its [usd_value] is missing, empty or cannot be converted. For a
    request without coin ids a result is always returned, so the equality
    is reached however many upstream calls fail. *)
Theorem total_usd_is_sum_of_lines {W} (rt : Runtime) (ext : Collaborators W)
    (chain address : string) (coin_ids : list string)
    (tokens : list (list (string * pyval))) (s : State W) :
  (forall r s',
     compute_balance_for_chain rt ext chain address coin_ids tokens s = (Ok r, s') ->
     res_total_usd r = Some (usd_sum rt (res_native r) (res_tokens r))) /\
  (exists r s',
     compute_balance_for_chain rt ext chain address [] tokens s = (Ok r, s') /\
     res_total_usd r = Some (usd_sum rt (res_native r) (res_tokens r))).
Proof.
  split.
  - intros r s'. apply compute_total.
  - destruct (native_stage_returns rt ext chain address
                (mkResult chain address VNone [] [] None) s) as (r1 & s1 & H1 & _).
    assert (coin_stage rt ext chain address [] r1 s1 = (Ok r1, s1)) as H2 by reflexivity.
    destruct (compute_after_coin_stage rt ext chain address [] tokens _ _ _ _ _ H1 H2)
      as (r & s' & Hrun).
    exists r, s'. split; [exact Hrun | eapply compute_total, Hrun].
Qed.


(** ** What a failure leaves *)

Section Swallowed.
Context {W : Type} (rt : Runtime) (ext : Collaborators W).

(** A fetch that brings no data returns the empty list and stores nothing. *)
Lemma fetch_markets_fails key n now (s : State W) :
  request_fails (requests_get ext (MarketsRequest key n) (world s)).1 ->
  fetch_markets ext key n now s =
  (Ok (VList []), with_world s (requests_get ext (MarketsRequest key n) (world s)).2).
Proof.
  intros Hfails. unfold fetch_markets. rewrite run_bind. unfold call.
  destruct (requests_get ext (MarketsRequest key n) (world s)) as [[resp|e] w];
    simpl in *; [|reflexivity].
  destruct Hfails as [-> | [e ->]]; [reflexivity|].
  destruct (resp_ok resp); reflexivity.
Qed.

Lemma fetch_coin_detail_fails coin_id now (s : State W) :
  request_fails (requests_get ext (CoinRequest coin_id) (world s)).1 ->
  fetch_coin_detail ext coin_id now s =
  (Ok VNone, with_world s (requests_get ext (CoinRequest coin_id) (world s)).2).
Proof.
  intros Hfails. unfold fetch_coin_detail. rewrite run_bind. unfold call.
  destruct (requests_get ext (CoinRequest coin_id) (world s)) as [[resp|e] w];
    simpl in *; [|reflexivity].
  destruct Hfails as [-> | [e ->]]; [reflexivity|].
  destruct (resp_ok resp); reflexivity.
Qed.





(** *** The adapters under failing calls *)





(** *** Balances that could not be fetched *)









End Swallowed.

Section Caches.
Context {W : Type} (ext : Collaborators W).
Hypothesis Hdown : provider_unreachable ext.



End Caches.


(** ** Explicit tokens, entry by entry *)

Section Explicit.
Context {W : Type} (rt : Runtime) (ext : Collaborators W).

(** The loop over a list that is split in three. *)
Lemma explicit_tokens_app chain address before after : forall result (s : State W),
  explicit_tokens rt ext chain address (before ++ after) result s =
  match explicit_tokens rt ext chain address before result s with
  | (Ok mid, s1) => explicit_tokens rt ext chain address after mid s1
  | (Raise e, s1) => (Raise e, s1)
  end.
Proof.
  induction before as [|t before IH]; intros result s; simpl; [done|].
  rewrite !run_bind.
  destruct (explicit_token rt ext chain address t result s) as [[mid|e] s1]; [apply IH | done].
Qed.


Lemma explicit_token_skip chain address t result (s : State W) :
  py_truthy (dict_get_none t "contract") = false ->
  explicit_token rt ext chain address t result s = (Ok result, s).
Proof.
  intros Hfalsy. unfold explicit_token, try_except. cbv zeta. rewrite Hfalsy. reflexivity.
Qed.

End Explicit.

(** C8. An explicit token whose contract is missing or empty is skipped:
    processing it returns the result and the state as they were (no line, no
    error, no call to a collaborator), and [compute_balance_for_chain] runs
    as it does on the request without the entry. *)
Theorem explicit_token_without_contract_is_skipped {W} (rt : Runtime)
    (ext : Collaborators W) (chain address : string) (coin_ids : list string)
    (before after : list (list (string * pyval))) (t : list (string * pyval)) :
  py_truthy (dict_get_none t "contract") = false ->
  (forall result (s : State W),
     explicit_token rt ext chain address t result s = (Ok result, s)) /\
  (forall s : State W,
     compute_balance_for_chain rt ext chain address coin_ids (before ++ t :: after) s =
     compute_balance_for_chain rt ext chain address coin_ids (before ++ after) s).
Proof.
  intros Hfalsy. split.
  - intros result s. now apply explicit_token_skip.
  - intros s. unfold compute_balance_for_chain. rewrite !run_bind.
    destruct (native_stage _ _ _ _ _ s) as [[r1|e1] s1]; [|done]. rewrite !run_bind.
    destruct (coin_stage _ _ _ _ _ r1 s1) as [[r2|e2] s2]; [|done]. rewrite !run_bind.
    rewrite !explicit_tokens_app.
    destruct (explicit_tokens _ _ _ _ before r2 s2) as [[r3|e3] s3]; [|done].
    simpl. rewrite run_bind, explicit_token_skip by exact Hfalsy. reflexivity.
Qed.






(** ** The endpoint a balance is asked from *)

Section Providing.
Context {W : Type} (ext : Collaborators W).

Lemma reload_run (s : State W) :
  reload_rpc_config_if_changed ext s = (Ok tt, (reload_rpc_config_if_changed ext s).2).
Proof.
  destruct (reload_returns ext s) as ([] & s1 & Hrun & _). now rewrite Hrun.
Qed.

(** [get_web3] step by step: the reload, the test of the key, the cached
    provider or a new one. *)
Lemma get_web3_run k (s : State W) :
  get_web3 ext (VStr k) s =
  let s1 := (reload_rpc_config_if_changed ext s).2 in
  match RPC_URLS s1 !! k with
  | None => (Ok None, s1)
  | Some url =>
      match _WEB3_PROVIDERS s1 !! k with
      | Some w3 => (Ok (Some w3), s1)
      | None =>
          let '(built, w) := new_web3 ext url (world s1) in
          if built : bool then
            (Ok (Some url),
             mkState (RPC_URLS s1) (<[k := url]> (_WEB3_PROVIDERS s1)) (_MARKETS_CACHE s1)
               (_COIN_DETAIL_CACHE s1) w)
          else (Ok None, with_world s1 w)
      end
  end.
Proof.
  pose proof (reload_run s) as Hreload.
  set (s1 := (reload_rpc_config_if_changed ext s).2) in *.
  unfold get_web3. rewrite run_bind. unfold try_except.
  rewrite Hreload. rewrite run_bind. unfold get_state. rewrite run_bind.
  unfold eval, py_in.
  destruct (RPC_URLS s1 !! k) as [url|] eqn:Hurl.
  - rewrite bool_decide_eq_true_2 by eauto. cbn [negb].
    destruct (_WEB3_PROVIDERS s1 !! k) as [w3|]; [reflexivity|].
    rewrite run_bind. unfold call.
    destruct (new_web3 ext url (world s1)) as [[|] w]; reflexivity.
  - rewrite bool_decide_eq_false_2 by (intros [? ?]; discriminate). reflexivity.
Qed.



End Providing.

Section OnChain.
Context {W : Type} (rt : Runtime) (ext : Collaborators W).




End OnChain.


(** ** A chain without an endpoint *)

Section Unconfigured.
Context {W : Type} (rt : Runtime) (ext : Collaborators W).

Lemma reload_rpc_urls (s : State W) :
  RPC_URLS (reload_rpc_config_if_changed ext s).2 =
  foldl (fun m kv => <[kv.1 := kv.2]> m) (RPC_URLS s) (load_chain_config ext (world s)).1.
Proof.
  unfold reload_rpc_config_if_changed. rewrite run_bind. unfold call.
  destruct (load_chain_config ext (world s)) as [entries w]. reflexivity.
Qed.

Lemma foldl_insert_is_Some (entries : list (string * string)) : forall (m : gmap string string) k,
  is_Some (m !! k) -> is_Some (foldl (fun m kv => <[kv.1 := kv.2]> m) m entries !! k).
Proof.
  induction entries as [|[k' v] entries IH]; intros m k Hk; simpl; [exact Hk|].
  apply IH. rewrite lookup_insert_is_Some. destruct (decide (k' = k)); auto.
Qed.

(** Reloading the configuration removes no chain. *)
Lemma reload_keeps_default_chains (s : State W) :
  has_default_chains s -> has_default_chains (reload_rpc_config_if_changed ext s).2.
Proof.
  unfold has_default_chains. rewrite reload_rpc_urls. intros Hdefault.
  eapply Forall_impl; [exact Hdefault|]. intros k. apply foldl_insert_is_Some.
Qed.

(** Without an endpoint for the key once the configuration is reloaded,
    there is no client, and nothing else happens. *)
Lemma get_web3_unconfigured k (s : State W) :
  RPC_URLS (reload_rpc_config_if_changed ext s).2 !! k = None ->
  get_web3 ext (VStr k) s = (Ok None, (reload_rpc_config_if_changed ext s).2).
Proof.
  intros Hnone. unfold get_web3. rewrite run_bind. unfold try_except.
  rewrite reload_run. rewrite run_bind. unfold get_state. rewrite run_bind.
  unfold eval, py_in. rewrite Hnone.
  rewrite bool_decide_eq_false_2 by (intros [? ?]; discriminate). reflexivity.
Qed.

Lemma get_erc20_balance_unconfigured k contract_address address (s : State W) :
  RPC_URLS (reload_rpc_config_if_changed ext s).2 !! k = None ->
  get_erc20_balance ext (VStr k) contract_address address s =
  (Ok None, (reload_rpc_config_if_changed ext s).2).
Proof.
  intros Hnone. unfold get_erc20_balance.
  now rewrite (run_bind_ok _ _ _ _ _ (get_web3_unconfigured k s Hnone)).
Qed.

(** A key without an endpoint in a registry that holds the default chains is
    the chain key of no CoinGecko platform. *)
Lemma unconfigured_has_no_platform k (s : State W) :
  has_default_chains s -> RPC_URLS s !! k = None ->
  table_key_of PLATFORM_TO_CHAIN_KEY (VStr k) = None.
Proof.
  intros Hdefault Hnone.
  assert (forall ck, ck ∈ default_chains -> String.eqb ck k = false) as Hne.
  { intros ck Hin. destruct (String.eqb_spec ck k) as [->|]; [|done].
    unfold has_default_chains in Hdefault. rewrite Forall_forall in Hdefault.
    destruct (Hdefault k Hin) as [url Hurl]. congruence. }
  unfold PLATFORM_TO_CHAIN_KEY, table_key_of.
  rewrite !Hne by (unfold default_chains; set_solver). reflexivity.
Qed.

Lemma token_line_unenriched t k c :
  py_truthy (dict_get_none t "symbol") = false \/
  (exists sym, dict_get_none t "symbol" = VStr sym) ->
  exists symbol name,
    token_line rt t (VStr k) (VStr c) None no_enrichment =
    Ok (VDict [ ("coin_id", VNone); ("symbol", symbol); ("name", name);
                ("contract", VStr c); ("platform", VNone); ("chain", VStr k);
                ("balance", VFloat f0); ("usd_price", VNone);
                ("price_change_24h", VNone);
                ("usd_value", VFloat (PrimFloat.mul f0 f0)); ("logo", VNone) ]).
Proof.
  intros Hsym. unfold token_line. cbn [no_enrichment coin_symbol usd_price coin_name price_chg logo].
  assert (exists hint, py_or VNone (py_or (dict_get_none t "symbol") (VStr "")) = VStr hint)
    as [hint ->].
  { unfold py_or at 1. cbn [py_truthy]. unfold py_or.
    destruct Hsym as [-> | [sym ->]]; [eauto|]. destruct (py_truthy (VStr sym)); eauto. }
  cbn [py_upper mbind outcome_bind].
  destruct (py_truthy (VStr (str_upper rt hint))); cbn; eauto.
Qed.

End Unconfigured.

(** C10, as the code has it. An explicit token that carries a contract, a
    string that is not empty, whose symbol hint is absent, empty or a
    string, and whose chain, its own or else the request's, is a string
    without an endpoint once the configuration is reloaded (the registry
    holding the default chains), gets a token line: its contract and chain,
    [balance == 0.0], a null [usd_price] and [usd_value == 0.0 * 0.0].
    Nothing is appended to [errors], nothing happens to the state but the
    reload, and the loop goes on to the next entry with that line appended. *)
Theorem unconfigured_chain_gives_zero_balance_line {W} (rt : Runtime)
    (ext : Collaborators W) (chain address : string) (t : list (string * pyval))
    (k c : string) (result : Result) (s : State W) :
  py_or (dict_get_none t "chain") (VStr chain) = VStr k ->
  dict_get_none t "contract" = VStr c ->
  c <> "" ->
  py_truthy (dict_get_none t "symbol") = false \/
  (exists sym, dict_get_none t "symbol" = VStr sym) ->
  has_default_chains s ->
  RPC_URLS (reload_rpc_config_if_changed ext s).2 !! k = None ->
  exists line,
    explicit_token rt ext chain address t result s =
    (Ok (add_token result line), (reload_rpc_config_if_changed ext s).2) /\
    field line "contract" = Some (VStr c) /\
    field line "chain" = Some (VStr k) /\
    field line "balance" = Some (VFloat f0) /\
    field line "usd_price" = Some VNone /\
    field line "usd_value" = Some (VFloat (PrimFloat.mul f0 f0)) /\
    res_errors (add_token result line) = res_errors result /\
    (forall rest,
       explicit_tokens rt ext chain address (t :: rest) result s =
       explicit_tokens rt ext chain address rest (add_token result line)
         (reload_rpc_config_if_changed ext s).2).
Proof.
  intros Hchain Hcontract Hc Hsym Hdefault Hnone.
  destruct (token_line_unenriched rt t k c Hsym) as (symbol & name & Hline).
  assert (explicit_token rt ext chain address t result s =
          (Ok (add_token result
                 (VDict [ ("coin_id", VNone); ("symbol", symbol); ("name", name);
                          ("contract", VStr c); ("platform", VNone); ("chain", VStr k);
                          ("balance", VFloat f0); ("usd_price", VNone);
                          ("price_change_24h", VNone);
                          ("usd_value", VFloat (PrimFloat.mul f0 f0)); ("logo", VNone) ])),
           (reload_rpc_config_if_changed ext s).2)) as Hrun.
  { unfold explicit_token, try_except. cbv zeta. rewrite Hchain, Hcontract.
    assert (py_truthy (VStr c) = true) as ->.
    { simpl. destruct (String.eqb_spec c ""); [contradiction | reflexivity]. }
    cbn [negb].
    rewrite (run_bind_ok _ _ _ _ _ (get_erc20_balance_unconfigured ext k _ address s Hnone)).
    unfold enrich.
    rewrite (unconfigured_has_no_platform k _ (reload_keeps_default_chains ext s Hdefault) Hnone).
    rewrite run_bind. cbn [mret M_ret]. rewrite run_bind. unfold eval.
    rewrite Hline. reflexivity. }
  eexists. split; [exact Hrun|]. split_and!; try reflexivity.
  intros rest. simpl. now rewrite (run_bind_ok _ _ _ _ _ Hrun).
Qed.

(** ** The claims on concrete requests *)

(** The end-to-end example of the specification: 1.5 ETH at $3000 and 100
    USDC at $1 are worth $4600. *)
Example end_to_end_total :
  exists r s',
    compute_balance_for_chain ascii_runtime funded "ethereum" "0xabc"
      ["ethereum"; "usd-coin"] [] fresh = (Ok r, s') /\
    field (res_native r) "usd_value" = Some (VFloat 4500) /\
    map (fun line => field line "usd_value") (res_tokens r) = [Some (VFloat 100)] /\
    map (fun line => field line "platform") (res_tokens r) = [Some (VStr "ethereum")] /\
    res_total_usd r = Some 4600%float.
Proof. eexists _, _. split_and!; vm_compute; reflexivity. Qed.

(** With every collaborator down, a coin id that is not the native coin has
    no quote and no contract, and the line without a contract asks the
    missing quote for its name. *)
Example unquoted_coin_without_contract_raises :
  (compute_balance_for_chain ascii_runtime all_down "ethereum" "0xabc"
     ["bitcoin"] [] fresh).1 = Raise AttributeError.
Proof. vm_compute. reflexivity. Qed.

Lemma total_usd_is_sum_of_lines_witness :
  exists r s',
    compute_balance_for_chain ascii_runtime all_down "ethereum" "0xabc" []
      [[("contract", VStr usdc_address)]] fresh = (Ok r, s') /\
    res_total_usd r = Some (usd_sum ascii_runtime (res_native r) (res_tokens r)) /\
    res_total_usd r = Some f0.
Proof.
  eexists _, _. split; [vm_compute; reflexivity|]. split; [|vm_compute; reflexivity].
  apply (proj1 (total_usd_is_sum_of_lines ascii_runtime all_down "ethereum" "0xabc" []
                  [[("contract", VStr usdc_address)]] fresh) _
           (compute_balance_for_chain ascii_runtime all_down "ethereum" "0xabc" []
              [[("contract", VStr usdc_address)]] fresh).2).
  vm_compute. reflexivity.
Defined.



(** On ["bsc"] with the RPC endpoint down and the provider up: balance
    [0.0], the quote's price, and no error. *)
Lemma bsc_rpc_unavailable_appends_no_error :
  exists r s',
    compute_balance_for_chain ascii_runtime rpc_down "bsc" "0xabc" [] [] fresh
      = (Ok r, s') /\
    field (res_native r) "balance" = Some (VFloat f0) /\
    field (res_native r) "usd_price" = Some (VFloat 600) /\
    res_errors r = [].
Proof. eexists _, _. split_and!; vm_compute; reflexivity. Qed.

Lemma bsc_rpc_unavailable_zero_balance_witness :
  (forall h a w, (eth_get_balance rpc_down h a w).1 = None) /\
  is_Some (RPC_URLS fresh !! "bsc") /\
  exists r s',
    compute_balance_for_chain ascii_runtime rpc_down "bsc" "0xabc" ["usd-coin"]
      [[("contract", VStr usdt_bsc_address)]] fresh = (Ok r, s') /\
    field (res_native r) "balance" = Some (VFloat f0) /\
    field (res_native r) "usd_price" = Some (VFloat 600) /\
    Forall (fun e => String.prefix "native_balance_error" e = false) (res_errors r).
Proof.
  split; [intros h a w; reflexivity|]. split; [vm_compute; eauto|].
  destruct (compute_balance_for_chain ascii_runtime rpc_down "bsc" "0xabc" ["usd-coin"]
              [[("contract", VStr usdt_bsc_address)]] fresh) as [[r|e] s'] eqn:Hrun;
    [|vm_compute in Hrun; discriminate].
  exists r, s'. split; [reflexivity|].
  destruct (bsc_rpc_unavailable_zero_balance ascii_runtime rpc_down "0xabc" ["usd-coin"]
              [[("contract", VStr usdt_bsc_address)]] fresh s' r
              (fun h a w => eq_refl)
              (ex_intro _ "https://bsc-dataseed.binance.org/" eq_refl) Hrun)
    as (_ & markets & Hmarkets & Hquote).
  vm_compute in Hmarkets. injection Hmarkets as <-.
  change (native_quote _ _) with (@Ok (option float * pyval) (Some 600%float, VNone))
    in Hquote.
  cbv iota beta in Hquote. destruct Hquote as (Hbalance & Hprice & _ & _ & Herrors).
  auto.
Defined.

(** The tickers [eth] and [sol] are no keys of [NATIVE_COIN_TO_CHAIN]: on
    chain ["ethereum"] the id [eth] gets a token line like any other. *)
Lemma ticker_eth_gets_a_token_line :
  exists r s',
    compute_balance_for_chain ascii_runtime (stub 100 ticker_provider None None)
      "ethereum" "0xabc" ["eth"; "eth"; "sol"] [] fresh = (Ok r, s') /\
    map (fun line => field line "coin_id") (res_tokens r)
      = [Some (VStr "eth"); Some (VStr "sol")] /\
    length (List.filter (has_coin_id "eth") (res_tokens r)) = 1.
Proof. eexists _, _. split_and!; vm_compute; reflexivity. Qed.

Lemma native_coin_id_has_no_token_line_witness :
  exists r s',
    compute_balance_for_chain ascii_runtime funded "ethereum" "0xabc"
      ["ethereum"; "ethereum"; "solana"] [] fresh = (Ok r, s') /\
    map (fun line => field line "coin_id") (res_tokens r) = [Some (VStr "solana")] /\
    List.filter (has_coin_id "ethereum") (res_tokens r) = [] /\
    length (List.filter (has_coin_id "solana") (res_tokens r)) <= 1.
Proof.
  eexists _, _. split; [vm_compute; reflexivity|]. split; [vm_compute; reflexivity|].
  apply (native_coin_id_has_no_token_line ascii_runtime funded "ethereum" "0xabc"
           ["ethereum"; "ethereum"; "solana"] [] fresh
           (compute_balance_for_chain ascii_runtime funded "ethereum" "0xabc"
              ["ethereum"; "ethereum"; "solana"] [] fresh).2);
    [vm_compute; reflexivity | reflexivity | reflexivity].
Defined.

Lemma tokens_coin_lines_then_explicit_lines_witness :
  exists r s',
    compute_balance_for_chain ascii_runtime funded "ethereum" "0xabc"
      ["usd-coin"; "ethereum"; " usd-coin "; ""; "solana"]
      [ [("contract", VStr usdc_address)];
        [("chain", VStr "bsc")];
        [("chain", VStr "bsc"); ("contract", VStr usdt_bsc_address)] ] fresh
      = (Ok r, s') /\
    map (fun line => field line "coin_id") (res_tokens r)
      = [Some (VStr "usd-coin"); Some (VStr "solana"); Some VNone; Some VNone] /\
    map (fun line => field line "contract") (res_tokens r)
      = [Some (VStr usdc_address); Some VNone; Some (VStr usdc_address);
         Some (VStr usdt_bsc_address)] /\
    exists coin_lines kept tok_lines,
      res_tokens r = coin_lines ++ tok_lines /\
      Forall2 (fun id line => field line "coin_id" = Some (VStr id))
        ["usd-coin"; "solana"] coin_lines /\
      sublist kept
        [ [("contract", VStr usdc_address)];
          [("chain", VStr "bsc")];
          [("chain", VStr "bsc"); ("contract", VStr usdt_bsc_address)] ] /\
      Forall2 (fun t line =>
                 field line "coin_id" = Some VNone /\
                 field line "contract" = Some (dict_get_none t "contract"))
        kept tok_lines /\
      field (res_native r) "coin_id" = None /\
      Forall (fun line => is_Some (field line "coin_id") /\ line <> res_native r)
        (res_tokens r).
Proof.
  eexists _, _. split; [vm_compute; reflexivity|].
  split; [vm_compute; reflexivity|]. split; [vm_compute; reflexivity|].
  apply (tokens_coin_lines_then_explicit_lines ascii_runtime funded "ethereum" "0xabc"
           ["usd-coin"; "ethereum"; " usd-coin "; ""; "solana"]
           [ [("contract", VStr usdc_address)];
             [("chain", VStr "bsc")];
             [("chain", VStr "bsc"); ("contract", VStr usdt_bsc_address)] ] fresh
           (compute_balance_for_chain ascii_runtime funded "ethereum" "0xabc"
              ["usd-coin"; "ethereum"; " usd-coin "; ""; "solana"]
              [ [("contract", VStr usdc_address)];
                [("chain", VStr "bsc")];
                [("chain", VStr "bsc"); ("contract", VStr usdt_bsc_address)] ] fresh).2).
  vm_compute. reflexivity.
Defined.

Lemma find_contract_preference_witness :
  cached_coin_detail funded "usd-coin" fresh =
    (Ok (VDict [ ("id", VStr "usd-coin");
                 ("platforms",
                    VDict [ ("polygon-pos", VStr usdc_polygon_address);
                            ("ethereum", VStr usdc_address) ]) ]),
     (cached_coin_detail funded "usd-coin" fresh).2) /\
  (find_contract_for_coin_id funded "usd-coin" fresh).1 =
    Ok (Some {| contract := VStr usdc_address; platform := "ethereum" |}).
Proof.
  assert (cached_coin_detail funded "usd-coin" fresh =
            (Ok (VDict [ ("id", VStr "usd-coin");
                         ("platforms",
                            VDict [ ("polygon-pos", VStr usdc_polygon_address);
                                    ("ethereum", VStr usdc_address) ]) ]),
             (cached_coin_detail funded "usd-coin" fresh).2)) as Hdetail
    by (vm_compute; reflexivity).
  split; [exact Hdetail|].
  destruct (find_contract_preference funded "usd-coin" fresh _ _ Hdetail) as [_ Hmap].
  destruct (Hmap _ [ ("polygon-pos", VStr usdc_polygon_address);
                     ("ethereum", VStr usdc_address) ] eq_refl eq_refl)
    as (found & Hrun & Heth & _).
  rewrite Hrun. simpl.
  rewrite (Heth (VStr usdc_address) (VStr usdc_polygon_address)
             eq_refl eq_refl eq_refl eq_refl).
  reflexivity.
Defined.

(** Two ways a second call fetches again although it comes within the TTL
    of the first. With the provider down, the first call stores nothing, and
    the second call, at the same clock reading and for the same ids in
    another order, sends the request again. With the provider up and an
    entry stored at time 0, a first call at time 10 is served from the
    cache, and a second call at time 15, five seconds later, finds the entry
    fifteen seconds old and sends the request again. *)
Lemma second_call_may_fetch_again :
  (exists s1 s2,
     cached_markets all_down ["bitcoin"; "ethereum"] fresh = (Ok (VList []), s1) /\
     _MARKETS_CACHE s1 !! markets_key ["bitcoin"; "ethereum"] = None /\
     cached_markets all_down ["ethereum"; "bitcoin"] s1 = (Ok (VList []), s2) /\
     world s1 = [MarketsRequest "bitcoin,ethereum" 2] /\
     world s2 = [MarketsRequest "bitcoin,ethereum" 2; MarketsRequest "bitcoin,ethereum" 2]) /\
  (exists data s1 s2 s3,
     cached_markets (ticking [0; 10; 15]%float provider) ["bitcoin"; "ethereum"]
       fresh_at_start = (Ok data, s1) /\
     world s1 = (1, [MarketsRequest "bitcoin,ethereum" 2]) /\
     cached_markets (ticking [0; 10; 15]%float provider) ["bitcoin"; "ethereum"] s1
       = (Ok data, s2) /\
     world s2 = (2, [MarketsRequest "bitcoin,ethereum" 2]) /\
     cached_markets (ticking [0; 10; 15]%float provider) ["ethereum"; "bitcoin"] s2
       = (Ok data, s3) /\
     world s3 = (3, [MarketsRequest "bitcoin,ethereum" 2;
                     MarketsRequest "bitcoin,ethereum" 2])).
Proof.
  split.
  - eexists _, _. split_and!; vm_compute; reflexivity.
  - eexists _, _, _, _. split_and!; vm_compute; reflexivity.
Qed.

Lemma markets_cache_order_independent_witness :
  markets_key ["bitcoin"; "ethereum"] = markets_key ["ethereum"; "bitcoin"] /\
  exists data s1,
    cached_markets funded ["bitcoin"; "ethereum"] fresh = (Ok data, s1) /\
    _MARKETS_CACHE s1 !! "bitcoin,ethereum" = Some (100%float, data) /\
    cached_markets funded ["ethereum"; "bitcoin"] s1 = (Ok data, s1) /\
    world s1 = [MarketsRequest "bitcoin,ethereum" 2].
Proof.
  pose (data := VList [quote "bitcoin" "btc" "Bitcoin" 60000;
                       quote "ethereum" "eth" "Ethereum" 3000]).
  pose (s1 := (cached_markets funded ["bitcoin"; "ethereum"] fresh).2).
  assert (cached_markets funded ["bitcoin"; "ethereum"] fresh = (Ok data, s1)) as Hfirst
    by (vm_compute; reflexivity).
  destruct (markets_cache_order_independent funded
              ["bitcoin"; "ethereum"] ["ethereum"; "bitcoin"] fresh s1 data
              (perm_swap _ _ _) ltac:(discriminate) Hfirst)
    as (Hkey & Hsecond & Hstored).
  split; [exact Hkey|]. exists data, s1.
  assert (_MARKETS_CACHE s1 !! "bitcoin,ethereum" = Some (100%float, data)) as Hentry.
  { apply (Hstored 100%float [] {| resp_ok := true; resp_json := Ok data |}
             [MarketsRequest "bitcoin,ethereum" 2] data);
      vm_compute; solve [reflexivity | exact I]. }
  split_and!; [exact Hfirst | exact Hentry | | vm_compute; reflexivity].
  change (cached_markets funded ["ethereum"; "bitcoin"] s1
          = (Ok data, with_world s1 (world s1))).
  apply (Hsecond 100%float s1 100%float (world s1));
    [exact Hentry | reflexivity | reflexivity | vm_compute; reflexivity].
Defined.

Lemma explicit_token_without_contract_is_skipped_witness :
  py_truthy (dict_get_none [("chain", VStr "bsc"); ("contract", VStr "")] "contract") = false /\
  compute_balance_for_chain ascii_runtime funded "ethereum" "0xabc" ["usd-coin"]
    [ [("contract", VStr usdc_address)];
      [("chain", VStr "bsc"); ("contract", VStr "")];
      [("chain", VStr "bsc"); ("contract", VStr usdt_bsc_address)] ] fresh =
  compute_balance_for_chain ascii_runtime funded "ethereum" "0xabc" ["usd-coin"]
    [ [("contract", VStr usdc_address)];
      [("chain", VStr "bsc"); ("contract", VStr usdt_bsc_address)] ] fresh.
Proof.
  split; [reflexivity|].
  apply (explicit_token_without_contract_is_skipped ascii_runtime funded "ethereum" "0xabc"
           ["usd-coin"] [ [("contract", VStr usdc_address)] ]
           [ [("chain", VStr "bsc"); ("contract", VStr usdt_bsc_address)] ]
           [("chain", VStr "bsc"); ("contract", VStr "")] eq_refl).
Defined.


(** The same entry in a request for ["ethereum"] is asked from the endpoint
    of Ethereum, in a request for ["polygon"] from an endpoint that fails. *)
Example balance_follows_the_chain_of_the_request :
  let t := [("contract", VStr usdt_bsc_address)] in
  map (fun chain =>
         map (fun line => (field line "chain", field line "balance"))
           (match (compute_balance_for_chain ascii_runtime per_chain chain "0xabc" [] [t]
                     fresh).1 with
            | Ok r => res_tokens r
            | Raise _ => []
            end))
    ["bsc"; "ethereum"; "polygon"] =
  [ [(Some (VStr "bsc"), Some (VFloat 250))];
    [(Some (VStr "ethereum"), Some (VFloat 7))];
    [(Some (VStr "polygon"), Some (VFloat f0))] ].
Proof. vm_compute. reflexivity. Qed.

(** An entry without a contract on a chain without an endpoint gets no line. *)
Lemma entry_without_contract_on_unconfigured_chain :
  RPC_URLS fresh !! "dogechain" = None /\
  exists r s',
    compute_balance_for_chain ascii_runtime all_down "ethereum" "0xabc" []
      [[("chain", VStr "dogechain"); ("symbol", VStr "doge")]] fresh = (Ok r, s') /\
    res_tokens r = [] /\
    res_errors r = [].
Proof. split; [vm_compute; reflexivity|]. eexists _, _. split_and!; vm_compute; reflexivity. Qed.

Lemma unconfigured_chain_gives_zero_balance_line_witness :
  exists line,
    explicit_token ascii_runtime all_down "ethereum" "0xabc"
      [("chain", VStr "dogechain"); ("contract", VStr usdc_address)]
      (mkResult "ethereum" "0xabc" VNone [] [] None) fresh
    = (Ok (mkResult "ethereum" "0xabc" VNone [line] [] None), fresh) /\
    field line "contract" = Some (VStr usdc_address) /\
    field line "chain" = Some (VStr "dogechain") /\
    field line "balance" = Some (VFloat f0) /\
    field line "usd_price" = Some VNone /\
    field line "usd_value" = Some (VFloat f0).
Proof.
  destruct (unconfigured_chain_gives_zero_balance_line ascii_runtime all_down
              "ethereum" "0xabc"
              [("chain", VStr "dogechain"); ("contract", VStr usdc_address)]
              "dogechain" usdc_address
              (mkResult "ethereum" "0xabc" VNone [] [] None) fresh)
    as (line & Hrun & Hcontract & Hchain & Hbalance & Hprice & Husd & _).
  - reflexivity.
  - reflexivity.
  - discriminate.
  - left. reflexivity.
  - unfold has_default_chains, default_chains. repeat constructor; vm_compute; eauto.
  - vm_compute. reflexivity.
  - exists line. split_and!; auto.
Defined.

(** * Further properties of the code *)

(** ** The chain registry *)

Lemma dict_set_keys d k v :
  NoDup (map fst d) -> NoDup (map fst (dict_set d k v)) /\
  (forall k2, k2 ∈ map fst (dict_set d k v) -> k2 = k \/ k2 ∈ map fst d).
Proof.
  induction d as [|[k' x] d IH]; simpl; intros Hnd.
  - split; [apply NoDup_singleton|]. intros k2 Hin.
    apply list_elem_of_singleton in Hin. auto.
  - apply NoDup_cons in Hnd as [Hk' Hnd]. destruct (IH Hnd) as [IHnd IHin].
    destruct (String.eqb_spec k' k) as [->|Hne]; simpl.
    + split; [now apply NoDup_cons|]. intros k2 Hin. now right.
    + split.
      * apply NoDup_cons. split; [|exact IHnd].
        intros Hin. destruct (IHin _ Hin) as [->|]; done.
      * intros k2 Hin. apply elem_of_cons in Hin as [->|Hin].
        -- right. apply elem_of_cons. now left.
        -- destruct (IHin _ Hin) as [->|]; [now left|].
           right. apply elem_of_cons. now right.
Qed.

Lemma dict_set_values (P : pyval -> Prop) d k v :
  Forall (fun kv => P kv.2) d -> P v -> Forall (fun kv => P kv.2) (dict_set d k v).
Proof.
  induction d as [|[k' x] d IH]; simpl; intros Hd Hv.
  - repeat constructor. exact Hv.
  - apply Forall_cons in Hd as [Hx Hd].
    destruct (String.eqb k' k); constructor; auto.
Qed.

Lemma file_entries_strings items : forall out,
  Forall (fun kv => exists u, kv.2 = VStr u) out ->
  Forall (fun kv => exists u, kv.2 = VStr u) (Registry.file_entries items out).
Proof.
  induction items as [|[k v] items IH]; intros out Hout; simpl; [exact Hout|].
  destruct v as [| | | |u| |d]; auto.
  - apply IH. apply (dict_set_values (fun v => exists u, v = VStr u)); eauto.
  - destruct (dict_get d "rpc") as [[| | | |u| |]|]; auto.
    apply IH. apply (dict_set_values (fun v => exists u, v = VStr u)); eauto.
Qed.

Lemma file_entries_keys items : forall out,
  NoDup (map fst out) -> NoDup (map fst (Registry.file_entries items out)).
Proof.
  induction items as [|[k v] items IH]; intros out Hout; simpl; [exact Hout|].
  destruct v as [| | | |u| |d]; auto.
  - apply IH. now apply dict_set_keys.
  - destruct (dict_get d "rpc") as [[| | | |u| |]|]; auto.
    apply IH. now apply dict_set_keys.
Qed.

Lemma env_entries_keys items : forall out,
  NoDup (map fst out) -> NoDup (map fst (Registry.env_entries items out)).
Proof.
  induction items as [|[k v] items IH]; intros out Hout; simpl; [exact Hout|].
  destruct v as [| | | |u| |d]; auto.
  - apply IH. now apply dict_set_keys.
  - destruct (py_truthy (dict_get_none d "rpc")); auto.
    apply IH. now apply dict_set_keys.
Qed.

(** Registering entries with distinct keys: an entry's value for its key,
    the old endpoint for every other key. *)
Lemma register_lookup entries : forall urls k,
  NoDup (map fst entries) ->
  Registry.register urls entries !! k =
  match dict_get entries k with
  | Some v => Some v
  | None => urls !! k
  end.
Proof.
  induction entries as [|[k' v] entries IH]; intros urls k Hnd; [reflexivity|].
  simpl in Hnd. apply NoDup_cons in Hnd as [Hk' Hnd].
  unfold Registry.register in *. simpl. rewrite IH by exact Hnd.
  destruct (String.eqb_spec k' k) as [->|Hne].
  - assert (dict_get entries k = None) as ->; [|apply lookup_insert_eq].
    clear -Hk'. induction entries as [|[k2 x] entries IH]; [reflexivity|].
    simpl in *. rewrite not_elem_of_cons in Hk'. destruct Hk' as [Hne Hk'].
    destruct (String.eqb_spec k2 k) as [->|]; [done|]. now apply IH.
  - destruct (dict_get entries k); [reflexivity|]. now apply lookup_insert_ne.
Qed.

Lemma register_is_Some entries : forall urls k,
  is_Some (urls !! k) -> is_Some (Registry.register urls entries !! k).
Proof.
  induction entries as [|[k' v] entries IH]; intros urls k Hk; [exact Hk|].
  apply IH. rewrite lookup_insert_is_Some. destruct (decide (k' = k)); auto.
Qed.

Section RegistryFacts.
Context {W : Type} (src : Registry.Sources W).

Lemma load_chains_from_env_json_keys w :
  NoDup (map fst (Registry.load_chains_from_env_json src w).1).
Proof.
  unfold Registry.load_chains_from_env_json.
  destruct (Registry.environ_get src "CHAIN_CONFIG_JSON" w) as [[text|] w1];
    [|constructor].
  destruct (str_truthy text); [|constructor].
  destruct (Registry.json_loads src text) as [[| | | | | |items]|]; try constructor.
  apply env_entries_keys. constructor.
Qed.

Lemma load_chains_file_keys path w :
  NoDup (map fst (Registry.load_chains_file src path w).1).
Proof.
  unfold Registry.load_chains_file.
  destruct (str_truthy path); [|constructor]. simpl.
  destruct (Registry.path_exists src path w) as [[|] w1]; [|constructor]. simpl.
  destruct (Registry.read_file src path w1) as [[text|] w2]; [|constructor].
  destruct (Registry.parse_chains src text); try constructor.
  apply file_entries_keys. constructor.
Qed.

End RegistryFacts.

(** X1. [load_chains_file] registers only strings: whatever the path, the
    file system and the parsers give, every endpoint it returns is a [str],
    and no key is returned twice. *)
Theorem chains_file_gives_string_endpoints {W} (src : Registry.Sources W)
    (path : string) (w : W) :
  Forall (fun kv => exists u, kv.2 = VStr u) (Registry.load_chains_file src path w).1 /\
  NoDup (map fst (Registry.load_chains_file src path w).1).
Proof.
  split; [|apply load_chains_file_keys].
  unfold Registry.load_chains_file.
  destruct (str_truthy path); [|constructor]. simpl.
  destruct (Registry.path_exists src path w) as [[|] w1]; [|constructor]. simpl.
  destruct (Registry.read_file src path w1) as [[text|] w2]; [|constructor].
  destruct (Registry.parse_chains src text); try constructor.
  apply file_entries_strings. constructor.
Qed.

(** The two loops agree on a plain document. *)
Lemma entries_agree_on_plain_documents (items : list (string * pyval)) :
  Forall (fun kv => Registry.plain_endpoint kv.2) items ->
  forall out, Registry.env_entries items out = Registry.file_entries items out.
Proof.
  induction 1 as [|[k v] items Hv _ IH]; intros out; [reflexivity|].
  simpl in *. destruct v as [| | | |u| |d]; auto.
  unfold Registry.plain_endpoint in Hv. revert Hv. unfold dict_get_none.
  destruct (dict_get d "rpc") as [x|]; [|intros _; apply IH].
  destruct x as [|b|z|f|u|l|o]; cbn [py_truthy]; intros Hv; rewrite ?Hv; try apply IH.
  destruct (String.eqb_spec u ""); [contradiction|]. apply IH.
Qed.

(** X2. The same JSON document gives the same entries from the environment
    and from the chains file, when every object in it names its endpoint by
    an ["rpc"] that is absent, a string that is not empty, or a falsy value
    that is no string. (On an empty string and on a truthy value that is no
    string the two loaders differ.) *)
Theorem loaders_agree_on_plain_documents {W} (src : Registry.Sources W)
    (text path : string) (items : list (string * pyval)) (w w1 w' w1' w2' : W) :
  Registry.environ_get src "CHAIN_CONFIG_JSON" w = (Some text, w1) ->
  text <> "" ->
  path <> "" ->
  Registry.path_exists src path w' = (true, w1') ->
  Registry.read_file src path w1' = (Ok text, w2') ->
  Registry.YAML_AVAILABLE src = false ->
  Registry.json_loads src text = Ok (VDict items) ->
  Forall (fun kv => Registry.plain_endpoint kv.2) items ->
  (Registry.load_chains_from_env_json src w).1 = (Registry.load_chains_file src path w').1.
Proof.
  intros Henv Htext Hpath Hexists Hread Hyaml Hjson Hplain.
  assert (forall x, x <> "" -> str_truthy x = true) as Htruthy.
  { intros x Hx. unfold str_truthy. now destruct (String.eqb_spec x ""). }
  unfold Registry.load_chains_from_env_json, Registry.load_chains_file,
    Registry.parse_chains.
  rewrite Henv, (Htruthy text Htext), (Htruthy path Hpath), Hjson. cbn [negb].
  rewrite Hexists. cbn [negb]. rewrite Hread, Hyaml, Hjson. simpl.
  now apply entries_agree_on_plain_documents.
Qed.

(** X3. Reloading the configuration unregisters nothing: a chain that has
    an endpoint has one afterwards, whatever the environment and the chains
    file hold by then. A chain that is taken out of the configuration stays
    registered. *)
Theorem reload_unregisters_no_chain {W} (src : Registry.Sources W)
    (c : Registry.Config W) (k : string) :
  is_Some (Registry.RPC_URLS c !! k) ->
  is_Some (Registry.RPC_URLS (Registry.reload_rpc_config_if_changed src c) !! k).
Proof.
  intros Hk. unfold Registry.reload_rpc_config_if_changed.
  destruct (Registry.load_chains_from_env_json src (Registry.world c)) as [envcfg w1].
  destruct (Registry._CHAIN_CONFIG_PATH src) as [path|]; simpl;
    [|now apply register_is_Some].
  destruct (str_truthy path); simpl; [|now apply register_is_Some].
  destruct (Registry.getmtime src path w1) as [[mtime|e] w2]; simpl;
    [|now apply register_is_Some].
  destruct (Registry.mtime_changed mtime (Registry._CHAIN_CONFIG_MTIME c)); simpl;
    [|now apply register_is_Some].
  destruct (Registry.load_chains_file src path w2) as [new_map w3]. simpl.
  now do 2 apply register_is_Some.
Qed.

(** X4. The environment is applied on every reload, the chains file only
    when its modification time changes. So for a chain that both name, the
    file's endpoint wins on the reload that reads the file, and the
    environment's endpoint is back on the next reload, which finds the
    modification time unchanged and does not read the file. *)
Theorem environment_entry_returns_after_file_entry {W} (src : Registry.Sources W)
    (c : Registry.Config W) (path k : string) (a b : pyval)
    (E F : list (string * pyval)) (w1 w2 w3 : W) (mtime : float) :
  Registry._CHAIN_CONFIG_PATH src = Some path ->
  path <> "" ->
  Registry.load_chains_from_env_json src (Registry.world c) = (E, w1) ->
  Registry.getmtime src path w1 = (Ok mtime, w2) ->
  Registry.mtime_changed mtime (Registry._CHAIN_CONFIG_MTIME c) = true ->
  Registry.load_chains_file src path w2 = (F, w3) ->
  dict_get E k = Some a ->
  dict_get F k = Some b ->
  let c1 := Registry.reload_rpc_config_if_changed src c in
  Registry.RPC_URLS c1 !! k = Some b /\
  Registry._CHAIN_CONFIG_MTIME c1 = Some mtime /\
  Registry.world c1 = w3 /\
  (forall E' w1' mtime' w2',
     Registry.load_chains_from_env_json src w3 = (E', w1') ->
     dict_get E' k = Some a ->
     Registry.getmtime src path w1' = (Ok mtime', w2') ->
     PrimFloat.eqb mtime' mtime = true ->
     let c2 := Registry.reload_rpc_config_if_changed src c1 in
     Registry.RPC_URLS c2 !! k = Some a /\ Registry.world c2 = w2').
Proof.
  intros Hpath Hne Henv Hmtime Hchanged Hfile Ha Hb.
  assert (str_truthy path = true) as Htruthy.
  { unfold str_truthy. destruct (String.eqb_spec path ""); [contradiction | reflexivity]. }
  assert (Registry.reload_rpc_config_if_changed src c =
          Registry.mkConfig (Registry.register (Registry.register (Registry.RPC_URLS c) E) F)
            (Some mtime) w3) as Hfirst.
  { unfold Registry.reload_rpc_config_if_changed.
    rewrite Henv, Hpath, Htruthy. cbn [negb]. rewrite Hmtime, Hchanged, Hfile. reflexivity. }
  cbv zeta. rewrite Hfirst. cbn [Registry.RPC_URLS Registry._CHAIN_CONFIG_MTIME Registry.world].
  split_and!; try reflexivity.
  - pose proof (load_chains_file_keys src path w2) as Hnd. rewrite Hfile in Hnd.
    rewrite register_lookup by exact Hnd. now rewrite Hb.
  - intros E' w1' mtime' w2' Henv' Ha' Hmtime' Hsame.
    unfold Registry.reload_rpc_config_if_changed.
    cbn [Registry.RPC_URLS Registry._CHAIN_CONFIG_MTIME Registry.world].
    rewrite Henv', Hpath, Htruthy. cbn [negb]. rewrite Hmtime'.
    unfold Registry.mtime_changed. rewrite Hsame. cbn [negb Registry.RPC_URLS Registry.world].
    split; [|reflexivity].
    pose proof (load_chains_from_env_json_keys src w3) as Hnd. rewrite Henv' in Hnd.
    rewrite register_lookup by exact Hnd. now rewrite Ha'.
Qed.

(** ** Providers *)

Section Providers.
Context {W : Type} (ext : Collaborators W).

Lemma reload_providers (s : State W) :
  _WEB3_PROVIDERS (reload_rpc_config_if_changed ext s).2 = _WEB3_PROVIDERS s.
Proof.
  unfold reload_rpc_config_if_changed. rewrite run_bind. unfold call.
  destruct (load_chain_config ext (world s)) as [entries w]. reflexivity.
Qed.

Lemma reload_keeps_chain (s : State W) k :
  is_Some (RPC_URLS s !! k) ->
  is_Some (RPC_URLS (reload_rpc_config_if_changed ext s).2 !! k).
Proof. rewrite reload_rpc_urls. apply foldl_insert_is_Some. Qed.

(** A provider that is cached is the one returned, nothing is built. *)
Lemma get_web3_cached k w3 (s : State W) :
  _WEB3_PROVIDERS s !! k = Some w3 ->
  is_Some (RPC_URLS s !! k) ->
  get_web3 ext (VStr k) s = (Ok (Some w3), (reload_rpc_config_if_changed ext s).2).
Proof.
  intros Hprov Hurl. rewrite get_web3_run. cbv zeta.
  destruct (reload_keeps_chain s k Hurl) as [url ->].
  now rewrite reload_providers, Hprov.
Qed.

End Providers.

(** X5. A provider is never rebuilt: when one is cached for a chain that has
    an endpoint, [get_web3] returns it and does nothing but reload the
    configuration, also when that reload has just given the chain another
    endpoint. The cached provider keeps talking to the endpoint it was
    built for. *)
Theorem get_web3_returns_cached_provider {W} (ext : Collaborators W) (k : string)
    (w3 : web3) (s : State W) :
  _WEB3_PROVIDERS s !! k = Some w3 ->
  is_Some (RPC_URLS s !! k) ->
  get_web3 ext (VStr k) s = (Ok (Some w3), (reload_rpc_config_if_changed ext s).2) /\
  _WEB3_PROVIDERS (reload_rpc_config_if_changed ext s).2 = _WEB3_PROVIDERS s.
Proof.
  intros Hprov Hurl. split; [now apply get_web3_cached | apply reload_providers].
Qed.

(** X6. [get_web3] caches what it builds and nothing else. A provider it
    returns is in [_WEB3_PROVIDERS] afterwards, and every later call for the
    chain returns that provider without building one. When it returns
    [None] (no endpoint, or the provider could not be built),
    [_WEB3_PROVIDERS] is as it was, so the next call tries again. *)
Theorem get_web3_builds_a_provider_once {W} (ext : Collaborators W) (k : string)
    (s s1 : State W) (r : option web3) :
  get_web3 ext (VStr k) s = (Ok r, s1) ->
  match r with
  | Some w3 =>
      _WEB3_PROVIDERS s1 !! k = Some w3 /\
      forall w,
        get_web3 ext (VStr k) (with_world s1 w) =
        (Ok (Some w3), (reload_rpc_config_if_changed ext (with_world s1 w)).2)
  | None => _WEB3_PROVIDERS s1 = _WEB3_PROVIDERS s
  end.
Proof.
  rewrite get_web3_run. cbv zeta.
  set (s0 := (reload_rpc_config_if_changed ext s).2).
  assert (_WEB3_PROVIDERS s0 = _WEB3_PROVIDERS s) as Hsame by apply reload_providers.
  destruct (RPC_URLS s0 !! k) as [url|] eqn:Hurl.
  - destruct (_WEB3_PROVIDERS s0 !! k) as [w3|] eqn:Hprov.
    + intros [= <- <-]. split; [exact Hprov|]. intros w.
      apply get_web3_cached; [exact Hprov | simpl; eauto].
    + destruct (new_web3 ext url (world s0)) as [[|] w0].
      * intros [= <- <-]. split; [apply lookup_insert_eq|]. intros w.
        apply get_web3_cached; simpl; [apply lookup_insert_eq | eauto].
      * intros [= <- <-]. exact Hsame.
  - intros [= <- <-]. exact Hsame.
Qed.

(** ** What a body does to the state *)

(** The rules hold for every relation that is reflexive, adds up along a
    run and is kept by each step of the engine; the budget counts the
    requests to the market-data provider. *)
Section Effects.
Context {W : Type} (rt : Runtime) (ext : Collaborators W).
Context (R : nat -> State W -> State W -> Prop).

Hypothesis R_refl : forall s, R 0 s s.
Hypothesis R_trans : forall a b s1 s2 s3, R a s1 s2 -> R b s2 s3 -> R (a + b) s1 s3.
Hypothesis R_mono : forall a b s s', a <= b -> R a s s' -> R b s s'.

Lemma keeps_weaken {A} a b (m : M W A) : a <= b -> keeps R a m -> keeps R b m.
Proof. intros Hle Hm s. eapply R_mono; [exact Hle | apply Hm]. Qed.

Lemma keeps_ret {A} n (a : A) : keeps R n (mret a : M W A).
Proof. intros s. eapply R_mono; [|apply R_refl]. lia. Qed.

Lemma keeps_eval {A} n (o : outcome A) : keeps R n (eval o : M W A).
Proof. intros s. eapply R_mono; [|apply R_refl]. lia. Qed.

Lemma keeps_get_state n : keeps R n (get_state : M W (State W)).
Proof. intros s. eapply R_mono; [|apply R_refl]. lia. Qed.

Lemma keeps_bind {A B} a b (m : M W A) (k : A -> M W B) :
  keeps R a m -> (forall x, keeps R b (k x)) -> keeps R (a + b) (m ≫= k).
Proof.
  intros Hm Hk s. rewrite run_bind. specialize (Hm s).
  destruct (m s) as [[x|e] s1]; simpl in *.
  - eapply R_trans; [exact Hm | apply Hk].
  - eapply R_mono; [|exact Hm]. lia.
Qed.

Lemma keeps_bind_l {A B} n (m : M W A) (k : A -> M W B) :
  keeps R n m -> (forall x, keeps R 0 (k x)) -> keeps R n (m ≫= k).
Proof.
  intros Hm Hk. apply (keeps_weaken (n + 0)); [lia | now apply keeps_bind].
Qed.

Lemma keeps_bind_r {A B} n (m : M W A) (k : A -> M W B) :
  keeps R 0 m -> (forall x, keeps R n (k x)) -> keeps R n (m ≫= k).
Proof. intros Hm Hk. now apply (keeps_bind 0 n). Qed.

Lemma keeps_try {A} n (m : M W A) (h : exn -> M W A) :
  keeps R n m -> (forall e, keeps R 0 (h e)) -> keeps R n (try_except m h).
Proof.
  intros Hm Hh s. unfold try_except. specialize (Hm s).
  destruct (m s) as [[x|e] s1]; simpl in *; [exact Hm|].
  eapply R_mono; [|eapply R_trans; [exact Hm | apply Hh]]. lia.
Qed.

Lemma keeps_call {A} n (f : W -> A * W) :
  (forall s, R n s (with_world s (f (world s)).2)) -> keeps R n (call f).
Proof.
  intros Hf s. specialize (Hf s). unfold call.
  destruct (f (world s)) as [a w]. exact Hf.
Qed.

Hypothesis R_time : forall s, R 0 s (with_world s (time_time ext (world s)).2).
Hypothesis R_load : forall s, R 0 s (with_world s (load_chain_config ext (world s)).2).
Hypothesis R_new_web3 : forall s url, R 0 s (with_world s (new_web3 ext url (world s)).2).
Hypothesis R_eth : forall s h a, R 0 s (with_world s (eth_get_balance ext h a (world s)).2).
Hypothesis R_erc20 :
  forall s h c a, R 0 s (with_world s (erc20_balance_of ext h c a (world s)).2).
Hypothesis R_solana :
  forall s u a, R 0 s (with_world s (solana_get_balance ext u a (world s)).2).
Hypothesis R_request : forall s r, R 1 s (with_world s (requests_get ext r (world s)).2).
Hypothesis R_set_rpc :
  forall s entries,
    R 0 s (mkState (foldl (fun m kv => <[kv.1 := kv.2]> m) (RPC_URLS s) entries)
             (_WEB3_PROVIDERS s) (_MARKETS_CACHE s) (_COIN_DETAIL_CACHE s) (world s)).
Hypothesis R_set_provider :
  forall s k url,
    _WEB3_PROVIDERS s !! k = None ->
    R 0 s (mkState (RPC_URLS s) (<[k := url]> (_WEB3_PROVIDERS s)) (_MARKETS_CACHE s)
             (_COIN_DETAIL_CACHE s) (world s)).
Hypothesis R_fetch_markets : forall key n now, keeps R 1 (fetch_markets ext key n now).
Hypothesis R_fetch_detail :
  forall coin_id now, keeps R 1 (fetch_coin_detail ext coin_id now).

Lemma keeps_reload : keeps R 0 (reload_rpc_config_if_changed ext).
Proof.
  intros s. pose proof (R_load s) as Hload.
  unfold reload_rpc_config_if_changed. rewrite run_bind. unfold call.
  destruct (load_chain_config ext (world s)) as [entries w]. simpl in *.
  apply (R_trans 0 0 _ _ _ Hload). apply (R_set_rpc (with_world s w)).
Qed.

Lemma get_web3_not_str chain_key (s : State W) :
  (forall k, chain_key <> VStr k) ->
  (get_web3 ext chain_key s).2 = (reload_rpc_config_if_changed ext s).2.
Proof.
  intros Hkey. pose proof (reload_run ext s) as Hreload.
  set (s1 := (reload_rpc_config_if_changed ext s).2) in *.
  unfold get_web3. rewrite run_bind. unfold try_except. rewrite Hreload.
  rewrite run_bind. unfold get_state. rewrite run_bind. unfold eval.
  destruct chain_key; try reflexivity. now destruct (Hkey s0).
Qed.

Lemma keeps_get_web3 chain_key : keeps R 0 (get_web3 ext chain_key).
Proof.
  intros s. pose proof (keeps_reload s) as Hreload.
  destruct chain_key as [| | | |k| |];
    try (rewrite get_web3_not_str by discriminate; exact Hreload).
  rewrite get_web3_run. cbv zeta.
  set (s1 := (reload_rpc_config_if_changed ext s).2) in *.
  destruct (RPC_URLS s1 !! k) as [url|]; [|exact Hreload].
  destruct (_WEB3_PROVIDERS s1 !! k) as [w3|] eqn:Hprov; [exact Hreload|].
  pose proof (R_new_web3 s1 url) as Hbuilt.
  destruct (new_web3 ext url (world s1)) as [[|] w]; simpl in *.
  - apply (R_trans 0 0 _ _ _ Hreload). apply (R_trans 0 0 _ _ _ Hbuilt).
    apply (R_set_provider (with_world s1 w)). exact Hprov.
  - apply (R_trans 0 0 _ _ _ Hreload). exact Hbuilt.
Qed.

Lemma keeps_get_native_evm_balance chain address :
  keeps R 0 (get_native_evm_balance ext chain address).
Proof.
  unfold get_native_evm_balance.
  apply keeps_bind_r; [apply keeps_get_web3 | intros [h|]]; [|apply keeps_ret].
  apply keeps_call. intros s. apply R_eth.
Qed.

Lemma keeps_get_erc20_balance chain_key contract_address address :
  keeps R 0 (get_erc20_balance ext chain_key contract_address address).
Proof.
  unfold get_erc20_balance.
  apply keeps_bind_r; [apply keeps_get_web3 | intros [h|]]; [|apply keeps_ret].
  apply keeps_call. intros s. apply R_erc20.
Qed.

Lemma keeps_get_solana_balance address : keeps R 0 (get_solana_balance ext address).
Proof.
  unfold get_solana_balance. destruct (SOLANA_AVAILABLE ext); simpl; [|apply keeps_ret].
  apply keeps_bind_r; [apply keeps_get_state | intros s].
  apply keeps_bind_r; [apply keeps_call; intros s0; apply R_solana | intros r].
  destruct (r ≫= solana_lamports); apply keeps_ret.
Qed.

Lemma keeps_cached_markets ids : keeps R 1 (cached_markets ext ids).
Proof.
  unfold cached_markets. destruct ids as [|id ids]; [apply keeps_ret|].
  apply keeps_bind_r; [apply keeps_call; intros s; apply R_time | intros now].
  apply keeps_bind_r; [apply keeps_get_state | intros s].
  destruct (_MARKETS_CACHE s !! _) as [[ts data]|]; [|apply R_fetch_markets].
  destruct (PrimFloat.ltb _ _); [apply keeps_ret | apply R_fetch_markets].
Qed.

Lemma keeps_cached_coin_detail coin_id : keeps R 1 (cached_coin_detail ext coin_id).
Proof.
  unfold cached_coin_detail.
  apply keeps_bind_r; [apply keeps_call; intros s; apply R_time | intros now].
  apply keeps_bind_r; [apply keeps_get_state | intros s].
  destruct (_COIN_DETAIL_CACHE s !! _) as [[ts data]|]; [|apply R_fetch_detail].
  destruct (PrimFloat.ltb _ _); [apply keeps_ret | apply R_fetch_detail].
Qed.

Lemma keeps_find_contract coin_id : keeps R 1 (find_contract_for_coin_id ext coin_id).
Proof.
  unfold find_contract_for_coin_id.
  apply keeps_bind_l; [apply keeps_cached_coin_detail | intros detail].
  destruct (negb (py_truthy detail)); [apply keeps_ret | apply keeps_eval].
Qed.

Lemma keeps_native_evm chain address : keeps R 1 (native_evm rt ext chain address).
Proof.
  unfold native_evm.
  apply keeps_bind_r; [apply keeps_get_native_evm_balance | intros native_bal].
  apply keeps_bind_l.
  - destruct (table_key_of NATIVE_COIN_TO_CHAIN (VStr chain)) as [cid|]; [|apply keeps_ret].
    destruct (str_truthy cid); [|apply keeps_ret].
    apply keeps_bind_l; [apply keeps_cached_markets | intros markets].
    destruct (py_truthy markets); [apply keeps_eval | apply keeps_ret].
  - intros [price change].
    apply keeps_bind_r; [apply keeps_eval | intros usd]. apply keeps_ret.
Qed.

Lemma keeps_native_solana address : keeps R 1 (native_solana rt ext address).
Proof.
  unfold native_solana.
  apply keeps_bind_r; [apply keeps_get_solana_balance | intros sol_bal].
  apply keeps_bind_l; [apply keeps_cached_markets | intros m].
  apply keeps_bind_r; [destruct (py_truthy m); [apply keeps_eval | apply keeps_ret]|].
  intros price. apply keeps_bind_r; [apply keeps_eval | intros usd].
  apply keeps_bind_r; [destruct (py_truthy m); [apply keeps_eval | apply keeps_ret]|].
  intros change. apply keeps_ret.
Qed.

Lemma keeps_native_stage chain address result :
  keeps R 1 (native_stage rt ext chain address result).
Proof.
  unfold native_stage. apply keeps_try; [|intros e; apply keeps_ret].
  apply keeps_bind_r; [apply keeps_get_state | intros s].
  apply keeps_bind_l; [|intros line; apply keeps_ret].
  destruct (_ && _); [apply keeps_native_evm|].
  destruct (String.eqb chain "solana"); [apply keeps_native_solana | apply keeps_ret].
Qed.

Lemma keeps_coin_line_found address coin_id found markets :
  keeps R 0 (coin_line_found rt ext address coin_id found markets).
Proof.
  unfold coin_line_found.
  apply keeps_bind_r; [apply keeps_get_state | intros s].
  apply keeps_bind_r; [|intros balance; apply keeps_eval].
  destruct (table_get PLATFORM_TO_CHAIN_KEY (platform found)) as [k|]; [|apply keeps_ret].
  destruct (_ && _); [apply keeps_get_erc20_balance | apply keeps_ret].
Qed.

Lemma keeps_coin_tokens chain address markets ids : forall result,
  keeps R (length (filter (fun id => native_of chain id = false) ids))
    (coin_tokens rt ext chain address markets ids result).
Proof.
  induction ids as [|id ids IH]; intros result; simpl; [apply keeps_ret|].
  destruct (native_of chain id) eqn:Hnative.
  - rewrite filter_cons_False by (rewrite Hnative; discriminate). apply IH.
  - rewrite filter_cons_True by exact Hnative. simpl.
    apply (keeps_bind 1 _); [apply keeps_find_contract | intros found].
    apply keeps_bind_r; [|intros line; apply IH].
    destruct found as [f|]; [destruct (py_truthy (contract f))|];
      [apply keeps_coin_line_found | apply keeps_eval | apply keeps_eval].
Qed.

Lemma keeps_coin_stage chain address coin_ids result :
  keeps R (1 + length (listed_coin_ids rt chain coin_ids))
    (coin_stage rt ext chain address coin_ids result).
Proof.
  unfold coin_stage, listed_coin_ids. apply keeps_bind; [|intros markets; apply keeps_coin_tokens].
  destruct (clean_coin_ids rt coin_ids); [apply keeps_ret|].
  apply keeps_bind_l; [apply keeps_cached_markets | intros data; apply keeps_eval].
Qed.

Lemma keeps_enrich tchain tcontract : keeps R 1 (enrich ext tchain tcontract).
Proof.
  unfold enrich.
  destruct (table_key_of PLATFORM_TO_CHAIN_KEY tchain) as [pf|]; [|apply keeps_ret].
  destruct (str_truthy pf); [|apply keeps_ret].
  apply keeps_bind_l; [apply keeps_call; intros s; apply R_request | intros [resp|e]];
    [|apply keeps_ret].
  destruct (resp_ok resp); [|apply keeps_ret].
  destruct (resp_json resp); apply keeps_ret.
Qed.

Lemma keeps_explicit_token chain address t result :
  keeps R 1 (explicit_token rt ext chain address t result).
Proof.
  unfold explicit_token. apply keeps_try; [|intros e; apply keeps_ret].
  cbv zeta. destruct (negb _); [apply keeps_ret|].
  apply keeps_bind_r; [apply keeps_get_erc20_balance | intros balance].
  apply keeps_bind_l; [apply keeps_enrich | intros e].
  apply keeps_bind_r; [apply keeps_eval | intros line; apply keeps_ret].
Qed.

Lemma keeps_explicit_tokens chain address tokens : forall result,
  keeps R (length tokens) (explicit_tokens rt ext chain address tokens result).
Proof.
  induction tokens as [|t tokens IH]; intros result; simpl; [apply keeps_ret|].
  apply (keeps_bind 1 _); [apply keeps_explicit_token | intros mid; apply IH].
Qed.

Lemma keeps_totals result : keeps R 0 (totals rt result).
Proof.
  unfold totals. apply keeps_bind_r; [apply keeps_eval | intros tot; apply keeps_ret].
Qed.

Lemma keeps_compute chain address coin_ids tokens :
  keeps R (2 + length (listed_coin_ids rt chain coin_ids) + length tokens)
    (compute_balance_for_chain rt ext chain address coin_ids tokens).
Proof.
  unfold compute_balance_for_chain.
  apply (keeps_weaken
           (1 + ((1 + length (listed_coin_ids rt chain coin_ids)) + length tokens)));
    [lia|].
  apply keeps_bind; [apply keeps_native_stage | intros r1].
  apply keeps_bind; [apply keeps_coin_stage | intros r2].
  apply keeps_bind_l; [apply keeps_explicit_tokens | intros r3; apply keeps_totals].
Qed.

End Effects.

(** *** Nothing is taken away *)

Lemma grows_refl {W} (s : State W) : grows s s.
Proof. unfold grows. auto. Qed.

Lemma grows_trans {W} (s1 s2 s3 : State W) : grows s1 s2 -> grows s2 s3 -> grows s1 s3.
Proof.
  intros (Hu & Hp & Hm & Hd) (Hu' & Hp' & Hm' & Hd'). unfold grows.
  split_and!; auto. now transitivity (_WEB3_PROVIDERS s2).
Qed.

Lemma grows_world {W} (s : State W) w : grows s (with_world s w).
Proof. unfold grows. simpl. auto. Qed.

Lemma fetch_markets_grows {W} (ext : Collaborators W) key n now :
  keeps (fun _ => grows) 1 (fetch_markets ext key n now).
Proof.
  intros s. unfold fetch_markets. rewrite run_bind. unfold call.
  destruct (requests_get ext (MarketsRequest key n) (world s)) as [[resp|e] w];
    [|apply grows_world].
  destruct (resp_ok resp); [|apply grows_world].
  destruct (resp_json resp) as [data|]; [|apply grows_world].
  unfold grows. simpl. split_and!; auto.
  intros k Hk. rewrite lookup_insert_is_Some. destruct (decide (key = k)); auto.
Qed.

Lemma fetch_coin_detail_grows {W} (ext : Collaborators W) coin_id now :
  keeps (fun _ => grows) 1 (fetch_coin_detail ext coin_id now).
Proof.
  intros s. unfold fetch_coin_detail. rewrite run_bind. unfold call.
  destruct (requests_get ext (CoinRequest coin_id) (world s)) as [[resp|e] w];
    [|apply grows_world].
  destruct (resp_ok resp); [|apply grows_world].
  destruct (resp_json resp) as [data|]; [|apply grows_world].
  unfold grows. simpl. split_and!; auto.
  intros k Hk. rewrite lookup_insert_is_Some. destruct (decide (coin_id = k)); auto.
Qed.

(** X7. Whether it returns or raises, [compute_balance_for_chain] takes
    nothing away from the module state: every chain that had an endpoint
    has one, every provider is the one it was, and no cache entry is
    evicted. *)
Theorem compute_balance_takes_nothing_away {W} (rt : Runtime) (ext : Collaborators W)
    (chain address : string) (coin_ids : list string)
    (tokens : list (list (string * pyval))) (s : State W) :
  grows s (compute_balance_for_chain rt ext chain address coin_ids tokens s).2.
Proof.
  apply (keeps_compute rt ext (fun _ => grows)); clear s.
  - apply grows_refl.
  - intros _ _. apply grows_trans.
  - auto.
  - intros s. apply grows_world.
  - intros s. apply grows_world.
  - intros s url. apply grows_world.
  - intros s h a. apply grows_world.
  - intros s h c a. apply grows_world.
  - intros s u a. apply grows_world.
  - intros s r. apply grows_world.
  - intros s entries. unfold grows. simpl. split_and!; auto.
    intros k. apply foldl_insert_is_Some.
  - intros s k url Hnone. unfold grows. simpl. split_and!; auto.
    now apply insert_subseteq.
  - apply fetch_markets_grows.
  - apply fetch_coin_detail_grows.
Qed.

(** *** The requests of a call *)

Section Requests.
Context {W : Type} (ext : Collaborators W) (sent : W -> nat).

Hypothesis Hsent : counts_requests ext sent.

Lemma fetch_markets_sent key n now : keeps (sent_within sent) 1 (fetch_markets ext key n now).
Proof.
  destruct Hsent as (Hreq & _).
  intros s. unfold sent_within, fetch_markets. rewrite run_bind. unfold call.
  specialize (Hreq (MarketsRequest key n) (world s)).
  destruct (requests_get ext (MarketsRequest key n) (world s)) as [[resp|e] w];
    [|exact Hreq].
  destruct (resp_ok resp); [|exact Hreq].
  destruct (resp_json resp) as [data|]; exact Hreq.
Qed.

Lemma fetch_coin_detail_sent coin_id now :
  keeps (sent_within sent) 1 (fetch_coin_detail ext coin_id now).
Proof.
  destruct Hsent as (Hreq & _).
  intros s. unfold sent_within, fetch_coin_detail. rewrite run_bind. unfold call.
  specialize (Hreq (CoinRequest coin_id) (world s)).
  destruct (requests_get ext (CoinRequest coin_id) (world s)) as [[resp|e] w];
    [|exact Hreq].
  destruct (resp_ok resp); [|exact Hreq].
  destruct (resp_json resp) as [data|]; exact Hreq.
Qed.

Lemma compute_sent rt chain address coin_ids tokens :
  keeps (sent_within sent) (2 + length (listed_coin_ids rt chain coin_ids) + length tokens)
    (compute_balance_for_chain rt ext chain address coin_ids tokens).
Proof.
  pose proof Hsent as (Hreq & Htime & Hload & Hnew & Heth & Herc & Hsol).
  apply keeps_compute; unfold sent_within; simpl; intros.
  - lia.
  - lia.
  - lia.
  - rewrite Htime. lia.
  - rewrite Hload. lia.
  - rewrite Hnew. lia.
  - rewrite Heth. lia.
  - rewrite Herc. lia.
  - rewrite Hsol. lia.
  - apply Hreq.
  - lia.
  - lia.
  - apply fetch_markets_sent.
  - apply fetch_coin_detail_sent.
Qed.

End Requests.

(** X8. One call of [compute_balance_for_chain] sends at most
    [2 + n + m] requests to the market-data provider, for [n] coin ids that
    get a line and [m] explicit tokens, whether it returns or raises: one
    for the native quote, one for the quotes of the coin ids, one detail per
    coin id and one contract lookup per explicit token. *)
Theorem compute_balance_sends_bounded_requests {W} (rt : Runtime) (ext : Collaborators W)
    (sent : W -> nat) (chain address : string) (coin_ids : list string)
    (tokens : list (list (string * pyval))) (s : State W) :
  counts_requests ext sent ->
  sent (world (compute_balance_for_chain rt ext chain address coin_ids tokens s).2) <=
  sent (world s) + (2 + length (listed_coin_ids rt chain coin_ids) + length tokens).
Proof.
  intros Hsent. apply (compute_sent ext sent Hsent).
Qed.

(** ** An unreachable provider *)

Section Unreachable.
Context {W : Type} (rt : Runtime) (ext : Collaborators W).

(** A call that finds no fresh entry and whose fetch brings no data. *)
Lemma cached_markets_fails ids (s : State W) now w :
  ids <> [] ->
  time_time ext (world s) = (now, w) ->
  match _MARKETS_CACHE s !! markets_key ids with
  | Some (ts, _) => PrimFloat.ltb (PrimFloat.sub now ts) _CACHE_TTL = false
  | None => True
  end ->
  request_fails (requests_get ext (MarketsRequest (markets_key ids) (length ids)) w).1 ->
  cached_markets ext ids s =
  (Ok (VList []),
   with_world s (requests_get ext (MarketsRequest (markets_key ids) (length ids)) w).2).
Proof.
  intros Hne Hclock Hstale Hfails.
  destruct ids as [|id ids]; [done|].
  set (key := markets_key (id :: ids)) in *.
  unfold cached_markets. fold key.
  rewrite (run_bind_ok _ _ _ _ _ (run_call _ _ _ _ Hclock)).
  rewrite run_bind. unfold get_state. simpl.
  assert (fetch_markets ext key (length (id :: ids)) now (with_world s w) =
          (Ok (VList []),
           with_world s (requests_get ext (MarketsRequest key (length (id :: ids))) w).2))
    as Hfetch by (now rewrite fetch_markets_fails).
  destruct (_MARKETS_CACHE s !! key) as [[ts old]|]; [rewrite Hstale|]; exact Hfetch.
Qed.

Hypothesis Hdown : provider_unreachable ext.

Lemma fetch_markets_same_caches key n now :
  keeps (fun _ => same_caches) 1 (fetch_markets ext key n now).
Proof.
  intros s. rewrite fetch_markets_fails by apply Hdown. split; reflexivity.
Qed.

Lemma fetch_coin_detail_same_caches coin_id now :
  keeps (fun _ => same_caches) 1 (fetch_coin_detail ext coin_id now).
Proof.
  intros s. rewrite fetch_coin_detail_fails by apply Hdown. split; reflexivity.
Qed.

Lemma native_stage_same_caches chain address result (s : State W) :
  same_caches s (native_stage rt ext chain address result s).2.
Proof.
  apply (keeps_native_stage rt ext (fun _ => same_caches)); clear s;
    try (intros; split; reflexivity).
  - intros _ _ s1 s2 s3 [Hm Hd] [Hm' Hd']. split; congruence.
  - auto.
  - apply fetch_markets_same_caches.
Qed.

Lemma cached_markets_unreachable ids (s : State W) :
  ids <> [] ->
  _MARKETS_CACHE s = ∅ ->
  exists w, cached_markets ext ids s = (Ok (VList []), with_world s w).
Proof.
  intros Hne Hempty. destruct (time_time ext (world s)) as [now w] eqn:Hclock.
  eexists. apply (cached_markets_fails ids s now w Hne Hclock); [|apply Hdown].
  now rewrite Hempty, lookup_empty.
Qed.

Lemma find_contract_unreachable coin_id (s : State W) :
  _COIN_DETAIL_CACHE s = ∅ ->
  exists w, find_contract_for_coin_id ext coin_id s = (Ok None, with_world s w).
Proof.
  intros Hempty. unfold find_contract_for_coin_id, cached_coin_detail.
  destruct (time_time ext (world s)) as [now w] eqn:Hclock.
  rewrite run_bind. rewrite (run_bind_ok _ _ _ _ _ (run_call _ _ _ _ Hclock)).
  rewrite run_bind. unfold get_state. simpl.
  rewrite Hempty, lookup_empty.
  rewrite fetch_coin_detail_fails by apply Hdown. simpl. eauto.
Qed.

(** Without a quote and without a contract, the line of a coin asks [None]
    for its name. *)
Lemma coin_line_missing_unquoted coin_id (markets : gmap string pyval) :
  markets !! coin_id = None ->
  coin_line_missing rt coin_id markets = Raise AttributeError.
Proof. intros Hnone. unfold coin_line_missing, markets_get. now rewrite Hnone. Qed.

Lemma coin_tokens_unreachable chain address ids : forall result (s : State W),
  _COIN_DETAIL_CACHE s = ∅ ->
  filter (fun id => native_of chain id = false) ids <> [] ->
  (coin_tokens rt ext chain address ∅ ids result s).1 = Raise AttributeError.
Proof.
  induction ids as [|id ids IH]; intros result s Hempty Hlisted; [done|].
  simpl. destruct (native_of chain id) eqn:Hnative.
  - apply IH; [exact Hempty|].
    now rewrite filter_cons_False in Hlisted by (rewrite Hnative; discriminate).
  - destruct (find_contract_unreachable id s Hempty) as [w Hfound].
    rewrite (run_bind_ok _ _ _ _ _ Hfound). rewrite run_bind. unfold eval.
    now rewrite coin_line_missing_unquoted by apply lookup_empty.
Qed.

Lemma coin_stage_unreachable chain address coin_ids result (s : State W) :
  _MARKETS_CACHE s = ∅ ->
  _COIN_DETAIL_CACHE s = ∅ ->
  listed_coin_ids rt chain coin_ids <> [] ->
  (coin_stage rt ext chain address coin_ids result s).1 = Raise AttributeError.
Proof.
  intros Hm Hd. unfold coin_stage, listed_coin_ids.
  destruct (clean_coin_ids rt coin_ids) as [|c ids] eqn:Hclean; [done|]. intros Hlisted.
  destruct (cached_markets_unreachable (c :: ids) s) as [w Hquotes]; [done | exact Hm|].
  rewrite run_bind. rewrite (run_bind_ok _ _ _ _ _ Hquotes).
  unfold eval at 1. cbn [py_iter mbind outcome_bind index_markets].
  now apply coin_tokens_unreachable.
Qed.

End Unreachable.

(** X9. While the market-data provider brings no data (it raises, answers
    with an error status or cannot be decoded) and nothing is cached, every
    request that names a coin id other than the chain's native coin makes
    [compute_balance_for_chain] raise [AttributeError]: the line of a coin
    without contract reads the name off a quote that is [None] (line 445). *)
Theorem unreachable_provider_raises_for_coin_ids {W} (rt : Runtime)
    (ext : Collaborators W) (chain address : string) (coin_ids : list string)
    (tokens : list (list (string * pyval))) (s : State W) :
  provider_unreachable ext ->
  _MARKETS_CACHE s = ∅ ->
  _COIN_DETAIL_CACHE s = ∅ ->
  listed_coin_ids rt chain coin_ids <> [] ->
  (compute_balance_for_chain rt ext chain address coin_ids tokens s).1 =
  Raise AttributeError.
Proof.
  intros Hdown Hm Hd Hlisted.
  destruct (native_stage_returns rt ext chain address
              (mkResult chain address VNone [] [] None) s) as (r1 & s1 & Hnative & _).
  pose proof (native_stage_same_caches rt ext Hdown chain address
                (mkResult chain address VNone [] [] None) s) as Hsame.
  rewrite Hnative in Hsame. destruct Hsame as [Hm1 Hd1]. simpl in Hm1, Hd1.
  unfold compute_balance_for_chain. rewrite (run_bind_ok _ _ _ _ _ Hnative).
  rewrite run_bind.
  assert ((coin_stage rt ext chain address coin_ids r1 s1).1 = Raise AttributeError)
    as Hcoin by (apply coin_stage_unreachable; [exact Hdown | congruence.. | exact Hlisted]).
  destruct (coin_stage rt ext chain address coin_ids r1 s1) as [[r2|e] s2];
    [discriminate | exact Hcoin].
Qed.

(** ** The caches *)

(** X10. When a fetch brings no data, [cached_markets] returns the empty
    list, not the stale data it may still hold, and leaves both caches as
    they were: the stale entry is neither served nor replaced, and the
    failure is not remembered. *)
Theorem failed_fetch_serves_nothing_and_stores_nothing {W} (ext : Collaborators W)
    (ids : list string) (s : State W) (now : float) (w : W) :
  ids <> [] ->
  time_time ext (world s) = (now, w) ->
  match _MARKETS_CACHE s !! markets_key ids with
  | Some (ts, _) => PrimFloat.ltb (PrimFloat.sub now ts) _CACHE_TTL = false
  | None => True
  end ->
  request_fails (requests_get ext (MarketsRequest (markets_key ids) (length ids)) w).1 ->
  exists s1,
    cached_markets ext ids s = (Ok (VList []), s1) /\
    _MARKETS_CACHE s1 = _MARKETS_CACHE s /\
    _COIN_DETAIL_CACHE s1 = _COIN_DETAIL_CACHE s /\
    world s1 = (requests_get ext (MarketsRequest (markets_key ids) (length ids)) w).2.
Proof.
  intros Hne Hclock Hstale Hfails. eexists. split.
  - now apply (cached_markets_fails ext ids s now w).
  - split_and!; reflexivity.
Qed.

(** X11. The detail of a coin is served from the cache for 60 seconds. A
    call that finds no fresh entry and gets an answer returns it and stores
    it stamped with its own clock reading; a later call whose clock reading
    is less than 60 seconds after that stamp returns the same detail and
    does nothing but read the clock. *)
Theorem coin_detail_is_cached_for_a_minute {W} (ext : Collaborators W)
    (coin_id : string) (s : State W) (now1 : float) (w1 w2 : W) (resp : response)
    (d : pyval) :
  time_time ext (world s) = (now1, w1) ->
  match _COIN_DETAIL_CACHE s !! coin_id with
  | Some (ts, _) => PrimFloat.ltb (PrimFloat.sub now1 ts) 60%float = false
  | None => True
  end ->
  requests_get ext (CoinRequest coin_id) w1 = (Ok resp, w2) ->
  resp_ok resp = true ->
  resp_json resp = Ok d ->
  exists s1,
    cached_coin_detail ext coin_id s = (Ok d, s1) /\
    _COIN_DETAIL_CACHE s1 !! coin_id = Some (now1, d) /\
    forall s2 now2 w',
      _COIN_DETAIL_CACHE s2 = _COIN_DETAIL_CACHE s1 ->
      time_time ext (world s2) = (now2, w') ->
      PrimFloat.ltb (PrimFloat.sub now2 now1) 60%float = true ->
      cached_coin_detail ext coin_id s2 = (Ok d, with_world s2 w').
Proof.
  intros Hclock Hstale Hget Hok Hjson.
  assert (fetch_coin_detail ext coin_id now1 (with_world s w1) =
          (Ok d, mkState (RPC_URLS s) (_WEB3_PROVIDERS s) (_MARKETS_CACHE s)
                   (<[coin_id := (now1, d)]> (_COIN_DETAIL_CACHE s)) w2)) as Hfetch.
  { unfold fetch_coin_detail.
    rewrite (run_bind_ok _ _ (with_world s w1) (Ok resp) (with_world s w2)).
    - rewrite Hok, Hjson. reflexivity.
    - change (with_world s w2) with (with_world (with_world s w1) w2).
      apply run_call. exact Hget. }
  eexists. split_and!.
  - unfold cached_coin_detail.
    rewrite (run_bind_ok _ _ _ _ _ (run_call _ _ _ _ Hclock)).
    rewrite run_bind. unfold get_state. simpl.
    destruct (_COIN_DETAIL_CACHE s !! coin_id) as [[ts old]|]; [rewrite Hstale|];
      exact Hfetch.
  - simpl. apply lookup_insert_eq.
  - intros s2 now2 w' Hsame Hclock2 Hfresh. unfold cached_coin_detail.
    rewrite (run_bind_ok _ _ _ _ _ (run_call _ _ _ _ Hclock2)).
    rewrite run_bind. unfold get_state. simpl.
    rewrite Hsame. simpl. rewrite lookup_insert_eq, Hfresh. reflexivity.
Qed.

(** ** The cache key *)

Lemma split_comma_free s : comma_free s -> split_comma s = [s].
Proof.
  induction s as [|c s IH]; [reflexivity|]. intros [Hc Hs]. simpl.
  destruct (Ascii.eqb_spec c ","%char); [contradiction|]. now rewrite IH.
Qed.

Lemma split_comma_app x rest :
  comma_free x -> split_comma (x +:+ "," +:+ rest) = x :: split_comma rest.
Proof.
  induction x as [|c x IH]; [reflexivity|]. intros [Hc Hx].
  change (String c x +:+ "," +:+ rest) with (String c (x +:+ "," +:+ rest)).
  cbn [split_comma]. destruct (Ascii.eqb_spec c ","%char); [contradiction|].
  now rewrite IH.
Qed.

Lemma split_comma_concat l :
  l <> [] -> Forall comma_free l -> split_comma (String.concat "," l) = l.
Proof.
  induction l as [|x l IH]; [done|]. intros _ Hfree.
  apply Forall_cons in Hfree as [Hx Hl]. destruct l as [|y l].
  - simpl. now apply split_comma_free.
  - change (String.concat "," (x :: y :: l)) with (x +:+ "," +:+ String.concat "," (y :: l)).
    rewrite split_comma_app by exact Hx. now rewrite IH.
Qed.

Lemma sorted_perm ids : sorted ids ≡ₚ ids.
Proof. apply merge_sort_Permutation. Qed.

(** X12. Two id lists share a cache key only when they hold the same ids:
    for lists that are not empty and whose ids hold no comma, equal keys
    make the lists orderings of one another. The market data of one set of
    ids is never served for another. *)
Theorem markets_key_identifies_the_ids (ids1 ids2 : list string) :
  ids1 <> [] ->
  ids2 <> [] ->
  Forall comma_free ids1 ->
  Forall comma_free ids2 ->
  markets_key ids1 = markets_key ids2 ->
  ids1 ≡ₚ ids2.
Proof.
  intros Hne1 Hne2 Hfree1 Hfree2 Hkey. unfold markets_key in Hkey.
  assert (forall ids, ids <> [] -> Forall comma_free ids ->
                      split_comma (String.concat "," (sorted ids)) = sorted ids) as Hsplit.
  { intros ids Hne Hfree. apply split_comma_concat.
    - intros Hnil. apply Hne. apply Permutation_nil_r. rewrite <- Hnil.
      symmetry. apply sorted_perm.
    - now rewrite sorted_perm. }
  rewrite <- (sorted_perm ids1), <- (sorted_perm ids2).
  rewrite <- (Hsplit ids1), <- (Hsplit ids2) by assumption. now rewrite Hkey.
Qed.

(** ** Contracts *)

Lemma first_preferred_truthy platforms ps f :
  first_preferred platforms ps = Ok (Some f) -> py_truthy (contract f) = true.
Proof.
  induction ps as [|p ps IH]; simpl; [discriminate|].
  destruct (py_get platforms p) as [val|]; simpl; [|discriminate].
  destruct (py_truthy val) eqn:Hval; [|exact IH]. intros [= <-]. exact Hval.
Qed.

Lemma first_present_truthy items f :
  first_present items = Some f -> py_truthy (contract f) = true /\ (platform f, contract f) ∈ items.
Proof.
  induction items as [|[p val] items IH]; simpl; [discriminate|].
  destruct (py_truthy val) eqn:Hval.
  - intros [= <-]. split; [exact Hval | apply elem_of_cons; now left].
  - intros Hf. destruct (IH Hf). split; [done | apply elem_of_cons; now right].
Qed.

(** X13. A contract that [find_contract_for_coin_id] returns is never empty:
    the address is truthy. So the test of [found.get("contract")] at line
    416 adds nothing to the test of [found], and a coin gets the line
    without a contract exactly when no contract was found. *)
Theorem found_contract_is_never_empty {W} (ext : Collaborators W) (coin_id : string)
    (s s' : State W) (f : Found) :
  find_contract_for_coin_id ext coin_id s = (Ok (Some f), s') ->
  py_truthy (contract f) = true.
Proof.
  unfold find_contract_for_coin_id. intros Hrun.
  apply run_bind_inv in Hrun as (detail & s1 & _ & Hrun).
  destruct (negb (py_truthy detail)); [discriminate|].
  apply run_eval_inv in Hrun as [Hrun _].
  apply outcome_bind_inv in Hrun as (listed & _ & Hrun).
  apply outcome_bind_inv in Hrun as (preferred & Hpref & Hrun).
  destruct preferred as [found|].
  - injection Hrun as ->. eapply first_preferred_truthy, Hpref.
  - apply outcome_bind_inv in Hrun as (items & _ & [= Hpresent]).
    now apply first_present_truthy in Hpresent.
Qed.

(** ** Coin ids *)

Lemma elem_of_first_seen x l : x ∈ first_seen l <-> x ∈ l.
Proof.
  induction l as [|y l IH]; simpl; [done|].
  rewrite !elem_of_cons, list_elem_of_filter, IH.
  split.
  - intros [->|[_ Hin]]; auto.
  - intros [->|Hin]; [now left|]. destruct (decide (x = y)) as [->|]; auto.
Qed.

(** X14. The coin ids that are looked up are the stripped forms of the ids
    that are not empty, each once. Emptiness is tested before stripping:
    an id made of blanks only is not dropped, it is looked up as the empty
    id. *)
Theorem coin_ids_are_stripped_after_the_emptiness_test (rt : Runtime)
    (coin_ids : list string) :
  NoDup (clean_coin_ids rt coin_ids) /\
  (forall x, x ∈ clean_coin_ids rt coin_ids <->
             exists cid, cid ∈ coin_ids /\ cid <> "" /\ x = str_strip rt cid) /\
  (forall cid, cid ∈ coin_ids -> cid <> "" -> str_strip rt cid = "" ->
               "" ∈ clean_coin_ids rt coin_ids).
Proof.
  assert (forall x, x ∈ clean_coin_ids rt coin_ids <->
                    exists cid, cid ∈ coin_ids /\ cid <> "" /\ x = str_strip rt cid) as Hin.
  { intros x. unfold clean_coin_ids. rewrite dict_fromkeys_first_seen, elem_of_first_seen.
    rewrite list_elem_of_fmap. split.
    - intros (cid & -> & Hcid). apply list_elem_of_filter in Hcid as [Htruthy Hcid].
      exists cid. split_and!; auto. intros ->. discriminate.
    - intros (cid & Hcid & Hne & ->). exists cid. split; [done|].
      apply list_elem_of_filter. split; [|done].
      unfold str_truthy. now destruct (String.eqb_spec cid ""). }
  split_and!.
  - unfold clean_coin_ids. rewrite dict_fromkeys_first_seen. apply first_seen_NoDup.
  - exact Hin.
  - intros cid Hcid Hne Hblank. apply Hin. exists cid. auto.
Qed.

(** ** The native line of a chain without a native coin *)

(** X15. A chain that has an endpoint but no native coin id in
    [NATIVE_COIN_TO_CHAIN] ([cronos], and every chain added through the
    configuration) gets a native line without a price: the symbol is the
    chain key in upper case, [usd_price] and [price_change_24h] are null,
    and [usd_value] is the integer [0] or the balance times [0.0]. The
    market-data provider is not asked: the state is the one the balance
    call left. *)
Theorem chain_without_native_coin_has_no_price {W} (rt : Runtime) (ext : Collaborators W)
    (chain address : string) (result : Result) (s s1 : State W) (bal : option float) :
  is_Some (RPC_URLS s !! chain) ->
  chain <> "solana" ->
  table_key_of NATIVE_COIN_TO_CHAIN (VStr chain) = None ->
  get_native_evm_balance ext chain address s = (Ok bal, s1) ->
  exists usd,
    native_stage rt ext chain address result s =
    (Ok (set_native result
           (VDict [ ("symbol", VStr (str_upper rt chain));
                    ("balance", VFloat (balance_or_zero bal));
                    ("usd_price", VNone);
                    ("usd_value", usd);
                    ("price_change_24h", VNone) ])), s1) /\
    (usd = VInt 0 \/ exists b, bal = Some b /\ usd = VFloat (PrimFloat.mul b f0)).
Proof.
  intros Hurl Hsol Hkey Hbal.
  assert (String.eqb chain "solana" = false) as Hneq
    by (destruct (String.eqb_spec chain "solana"); [contradiction | reflexivity]).
  assert (exists usd,
            num_mul (or_int0 bal) (or_int0 None) = Ok usd /\
            (num_val usd = VInt 0 \/
             exists b, bal = Some b /\ num_val usd = VFloat (PrimFloat.mul b f0)))
    as (usd & Husd & Hval).
  { unfold or_int0. destruct bal as [b|]; [destruct (float_truthy b)|];
      cbn [num_mul]; rewrite ?float_of_Z_0; eexists; (split; [reflexivity|]);
      simpl; eauto. }
  exists (num_val usd). split; [|exact Hval].
  unfold native_stage, try_except. rewrite run_bind. unfold get_state.
  rewrite bool_decide_eq_true_2 by exact Hurl. rewrite Hneq. cbn [andb negb].
  rewrite run_bind. unfold native_evm.
  rewrite (run_bind_ok _ _ _ _ _ Hbal). rewrite Hkey.
  rewrite run_bind. cbn [mret M_ret]. rewrite run_bind. unfold eval. rewrite Husd.
  reflexivity.
Qed.

(** ** Explicit tokens and the provider *)

Section Lookup.
Context {W : Type} (rt : Runtime) (ext : Collaborators W).

Lemma enrich_fails tchain tcontract (s : State W) :
  provider_unreachable ext ->
  exists s', enrich ext tchain tcontract s = (Ok no_enrichment, s').
Proof.
  intros Hdown. unfold enrich.
  destruct (table_key_of PLATFORM_TO_CHAIN_KEY tchain) as [pf|]; [|eexists; reflexivity].
  destruct (str_truthy pf); [|eexists; reflexivity].
  rewrite run_bind. unfold call.
  pose proof (Hdown (ContractRequest pf tcontract) (world s)) as Hfails.
  destruct (requests_get ext (ContractRequest pf tcontract) (world s)) as [[resp|e] w];
    simpl in *; [|eexists; reflexivity].
  destruct Hfails as [-> | [e ->]]; [eexists; reflexivity|].
  destruct (resp_ok resp); eexists; reflexivity.
Qed.

Lemma token_line_without_lookup t k c bal :
  py_truthy (dict_get_none t "symbol") = false \/
  (exists sym, dict_get_none t "symbol" = VStr sym) ->
  exists symbol name,
    token_line rt t (VStr k) (VStr c) bal no_enrichment =
    Ok (VDict [ ("coin_id", VNone); ("symbol", symbol); ("name", name);
                ("contract", VStr c); ("platform", VNone); ("chain", VStr k);
                ("balance", VFloat (balance_or_zero bal)); ("usd_price", VNone);
                ("price_change_24h", VNone);
                ("usd_value", VFloat (PrimFloat.mul (or_float0 bal) f0));
                ("logo", VNone) ]).
Proof.
  intros Hsym. unfold token_line.
  cbn [no_enrichment coin_symbol usd_price coin_name price_chg logo].
  assert (exists hint, py_or VNone (py_or (dict_get_none t "symbol") (VStr "")) = VStr hint)
    as [hint ->].
  { unfold py_or at 1. cbn [py_truthy]. unfold py_or.
    destruct Hsym as [-> | [sym ->]]; [eauto|]. destruct (py_truthy (VStr sym)); eauto. }
  cbn [py_upper mbind outcome_bind].
  destruct (py_truthy (VStr (str_upper rt hint))); cbn; eauto.
Qed.

End Lookup.

(** X16. An explicit token does not depend on the market-data provider:
    while the provider brings no data, an entry with a contract, a string
    that is not empty, with a string chain and with a symbol hint that is
    absent, empty or a string, still gets its line, with the balance the
    chain gave, a null [usd_price] and [usd_value] the balance times [0.0],
    and nothing is appended to [errors]. *)
Theorem explicit_token_survives_failed_lookup {W} (rt : Runtime) (ext : Collaborators W)
    (chain address : string) (t : list (string * pyval)) (k c : string)
    (result : Result) (s s1 : State W) (bal : option float) :
  provider_unreachable ext ->
  py_or (dict_get_none t "chain") (VStr chain) = VStr k ->
  dict_get_none t "contract" = VStr c ->
  c <> "" ->
  py_truthy (dict_get_none t "symbol") = false \/
  (exists sym, dict_get_none t "symbol" = VStr sym) ->
  get_erc20_balance ext (VStr k) (VStr c) address s = (Ok bal, s1) ->
  exists line s2,
    explicit_token rt ext chain address t result s = (Ok (add_token result line), s2) /\
    field line "contract" = Some (VStr c) /\
    field line "chain" = Some (VStr k) /\
    field line "balance" = Some (VFloat (balance_or_zero bal)) /\
    field line "usd_price" = Some VNone /\
    field line "usd_value" = Some (VFloat (PrimFloat.mul (or_float0 bal) f0)) /\
    res_errors (add_token result line) = res_errors result.
Proof.
  intros Hdown Hchain Hcontract Hc Hsym Hbal.
  destruct (token_line_without_lookup rt t k c bal Hsym) as (symbol & name & Hline).
  destruct (enrich_fails ext (VStr k) (VStr c) s1 Hdown) as [s2 Henrich].
  eexists _, s2. split.
  - unfold explicit_token, try_except. cbv zeta. rewrite Hchain, Hcontract.
    assert (py_truthy (VStr c) = true) as ->.
    { simpl. destruct (String.eqb_spec c ""); [contradiction | reflexivity]. }
    cbn [negb]. rewrite (run_bind_ok _ _ _ _ _ Hbal).
    rewrite (run_bind_ok _ _ _ _ _ Henrich). rewrite run_bind. unfold eval.
    rewrite Hline. reflexivity.
  - split_and!; reflexivity.
Qed.

(** ** The value of a token line *)

Section Priced.
Context {W : Type} (rt : Runtime) (ext : Collaborators W).

Lemma or_float0_balance bal : or_float0 (Some (balance_or_zero bal)) = or_float0 bal.
Proof. destruct bal as [b|]; reflexivity. Qed.

Lemma coin_line_found_priced address coin_id found markets :
  partial (coin_line_found rt ext address coin_id found markets) priced_line.
Proof.
  unfold coin_line_found.
  apply partial_bind_any. intros s.
  apply partial_bind_any. intros balance.
  apply partial_eval. intros line H.
  apply outcome_bind_inv in H as (price & _ & H).
  repeat (apply outcome_bind_inv in H as (? & _ & H)).
  injection H as <-. eexists _, _. split_and!; [reflexivity..|].
  right. right. exists price. split; [reflexivity|]. right.
  now rewrite or_float0_balance.
Qed.

Lemma coin_line_missing_priced coin_id markets line :
  coin_line_missing rt coin_id markets = Ok line -> priced_line line.
Proof.
  unfold coin_line_missing. intros H.
  repeat (apply outcome_bind_inv in H as (? & _ & H)).
  injection H as <-. eexists _, _. split_and!; [reflexivity..|]. left. auto.
Qed.

Lemma token_line_priced t tchain tcontract balance e line :
  token_line rt t tchain tcontract balance e = Ok line -> priced_line line.
Proof.
  unfold token_line. intros H.
  apply outcome_bind_inv in H as (upper & _ & H).
  apply outcome_bind_inv in H as (symbol & _ & H).
  apply outcome_bind_inv in H as (shown & Hshown & H).
  apply outcome_bind_inv in H as (price & Hprice & H).
  injection H as <-. eexists _, _. split_and!; [reflexivity..|].
  right. rewrite or_float0_balance.
  destruct (py_truthy (usd_price e)).
  - apply outcome_bind_inv in Hshown as (p & Hp & [= <-]).
    right. exists p. split; [reflexivity|]. left. congruence.
  - injection Hshown as <-. injection Hprice as <-. left. auto.
Qed.

Lemma coin_tokens_priced chain address markets ids : forall result,
  Forall priced_line (res_tokens result) ->
  partial (coin_tokens rt ext chain address markets ids result)
    (fun after => Forall priced_line (res_tokens after)).
Proof.
  induction ids as [|id ids IH]; intros result Hresult; simpl.
  - now apply partial_ret.
  - destruct (native_of chain id); [now apply IH|].
    apply partial_bind_any. intros found.
    eapply partial_bind with (P := priced_line).
    + destruct found as [f|]; [destruct (py_truthy (contract f))|].
      * apply coin_line_found_priced.
      * apply partial_eval, coin_line_missing_priced.
      * apply partial_eval, coin_line_missing_priced.
    + intros line Hline. apply IH. simpl. apply Forall_app. split; [done|].
      now constructor.
Qed.

Lemma explicit_token_priced chain address t result :
  Forall priced_line (res_tokens result) ->
  partial (explicit_token rt ext chain address t result)
    (fun after => Forall priced_line (res_tokens after)).
Proof.
  intros Hresult s after s'. unfold explicit_token, try_except. cbv zeta.
  destruct (negb (py_truthy (dict_get_none t "contract"))).
  - intros [= <- _]. exact Hresult.
  - rewrite run_bind.
    destruct (get_erc20_balance _ _ _ _ s) as [[balance|e0] s1]; [|now intros [= <- _]].
    rewrite run_bind. destruct (enrich _ _ _ s1) as [[e|e0] s2]; [|now intros [= <- _]].
    rewrite run_bind. unfold eval.
    destruct (token_line rt t _ _ balance e) as [line|e0] eqn:Hline; [|now intros [= <- _]].
    intros [= <- _]. simpl. apply Forall_app. split; [done|].
    constructor; [|constructor]. eapply token_line_priced, Hline.
Qed.

Lemma explicit_tokens_priced chain address tokens : forall result,
  Forall priced_line (res_tokens result) ->
  partial (explicit_tokens rt ext chain address tokens result)
    (fun after => Forall priced_line (res_tokens after)).
Proof.
  induction tokens as [|t tokens IH]; intros result Hresult; simpl.
  - now apply partial_ret.
  - eapply partial_bind; [now apply explicit_token_priced | exact IH].
Qed.

End Priced.

(** X17. In every result of [compute_balance_for_chain], the value of each
    token line is its balance times the price it shows, a null or zero
    balance and a null price counting as [0.0]; the line of a coin without
    contract has balance [0.0] and value [0.0] whatever its price. *)
Theorem token_lines_are_priced {W} (rt : Runtime) (ext : Collaborators W)
    (chain address : string) (coin_ids : list string)
    (tokens : list (list (string * pyval))) (s s' : State W) (r : Result) :
  compute_balance_for_chain rt ext chain address coin_ids tokens s = (Ok r, s') ->
  Forall priced_line (res_tokens r).
Proof.
  intros Hrun.
  apply compute_stages in Hrun
    as (r1 & s1 & r2 & s2 & r3 & tot & H1 & H2 & H3 & _ & ->).
  simpl.
  assert (res_tokens r1 = []) as Hnone.
  { destruct (native_stage_returns rt ext chain address
                (mkResult chain address VNone [] [] None) s) as (r1' & s1' & Hrun & Hout).
    rewrite Hrun in H1. injection H1 as <- <-.
    destruct Hout as [(b & line & _ & _ & ->) | (msg & ->)]; reflexivity. }
  unfold coin_stage in H2. apply run_bind_inv in H2 as (markets & s1' & _ & H2).
  apply coin_tokens_priced in H2; [|rewrite Hnone; constructor].
  now apply explicit_tokens_priced in H3.
Qed.

(** ** The Solana adapter *)

(** X18. [get_solana_balance] converts lamports to SOL: when the client
    answers with an object whose [result] holds an integer [value], the
    balance is that integer, as a float, divided by [1e9]; zero lamports
    give [0.0] and not [None]. The client is asked at the endpoint of the
    registry, or at the public endpoint when that is missing or empty. *)
Theorem solana_balance_is_lamports_in_sol {W} (ext : Collaborators W) (address : string)
    (s : State W) (w : W) (resp res : list (string * pyval)) (n : Z) (f : float) :
  SOLANA_AVAILABLE ext = true ->
  solana_get_balance ext (solana_endpoint s) address (world s) = (Ok (VDict resp), w) ->
  dict_get resp "result" = Some (VDict res) ->
  dict_get res "value" = Some (VInt n) ->
  float_of_Z n = Some f ->
  get_solana_balance ext address s =
  (Ok (Some (PrimFloat.div f 1e9%float)), with_world s w).
Proof.
  intros Havail Hget Hresult Hvalue Hfloat.
  unfold get_solana_balance. rewrite Havail. cbn [negb].
  rewrite run_bind. unfold get_state. fold (solana_endpoint s).
  rewrite (run_bind_ok _ _ _ _ _ (run_call _ _ _ _ Hget)).
  cbn [mbind outcome_bind]. unfold solana_lamports, py_get, py_get_default.
  rewrite Hresult. cbn [mbind outcome_bind].
  assert (py_truthy (VDict res) = true) as ->.
  { destruct res; [discriminate | reflexivity]. }
  rewrite Hvalue. cbn [mbind outcome_bind py_div_1e9]. rewrite Hfloat. reflexivity.
Qed.

(** ** The endpoints *)

Section Views.
Context {W : Type} (rt : Runtime) (ext : Collaborators W).

Lemma api_coins_markets_blank text (s : State W) :
  text <> "" ->
  Forall (fun i => str_strip rt i = "") (split_comma text) ->
  api_coins_markets rt ext (Some text) s = (Ok (mkReply 200 (VList [])), s).
Proof.
  intros Hne Hblank. unfold api_coins_markets.
  assert (str_truthy text = true) as ->
    by (unfold str_truthy; now destruct (String.eqb_spec text "")).
  cbn [negb].
  assert (ids_list rt text = []) as ->; [|reflexivity].
  unfold ids_list. induction Hblank as [|i pieces Hi _ IH]; [reflexivity|].
  rewrite filter_cons_False; [exact IH|]. rewrite Hi. discriminate.
Qed.

End Views.

(** X19. [GET /api/coins/markets] never raises and never answers with a
    server error: the status is 400 exactly when [ids] is absent or empty,
    and then nothing is read and nothing is sent; otherwise it is 200 with
    whatever [cached_markets] returns for the ids, which is the empty list
    when the provider fails. *)
Theorem api_coins_markets_answers_400_or_200 {W} (rt : Runtime) (ext : Collaborators W)
    (ids : option string) (s : State W) :
  exists reply s',
    api_coins_markets rt ext ids s = (Ok reply, s') /\
    ((status reply = 400 /\ s' = s /\ (ids = None \/ ids = Some "")) \/
     (status reply = 200 /\
      exists text,
        ids = Some text /\ text <> "" /\
        cached_markets ext (ids_list rt text) s = (Ok (body reply), s'))).
Proof.
  unfold api_coins_markets. destruct ids as [text|].
  - unfold str_truthy. destruct (String.eqb_spec text "") as [->|Hne]; cbn [negb].
    + eexists _, _. split; [reflexivity|]. left. auto.
    + destruct (cached_markets_returns ext (ids_list rt text) s) as (data & s' & Hrun & _).
      eexists _, _. split; [rewrite run_bind, Hrun; reflexivity|].
      right. split; [reflexivity|]. exists text. auto.
  - eexists _, _. split; [reflexivity|]. left. auto.
Qed.

(** X20. An [ids] parameter that is not empty but holds only separators and
    blanks is not an error: every piece strips to nothing, so the list of
    ids is empty and the answer is 200 with the empty list, without reading
    the clock or asking the provider. *)
Theorem api_coins_markets_blank_ids_give_empty_list {W} (rt : Runtime)
    (ext : Collaborators W) (text : string) (s : State W) :
  text <> "" ->
  Forall (fun i => str_strip rt i = "") (split_comma text) ->
  api_coins_markets rt ext (Some text) s = (Ok (mkReply 200 (VList [])), s).
Proof. apply api_coins_markets_blank. Qed.

(** X21. [GET /api/coins/search] never raises. It answers 400 without
    asking the provider exactly when neither [q] nor [query] holds a term
    ([q] absent or empty falls back to [query]); otherwise it asks the
    provider once and answers 200 with what was found, or 500 with the text
    of the exception as [detail]. *)
Theorem api_coins_search_answers {W} (rt : Runtime)
    (coingecko_search : string -> W -> outcome pyval * W) (q query : option string)
    (s : State W) :
  exists reply s',
    api_coins_search rt coingecko_search q query s = (Ok reply, s') /\
    ((status reply = 400 /\ s' = s /\
      (search_term q query = None \/ search_term q query = Some "")) \/
     (exists term,
        search_term q query = Some term /\ term <> "" /\
        s' = with_world s (coingecko_search term (world s)).2 /\
        match (coingecko_search term (world s)).1 with
        | Ok found => reply = mkReply 200 found
        | Raise e =>
            status reply = 500 /\
            field (body reply) "error" = Some (VStr "search failed") /\
            field (body reply) "detail" = Some (VStr (exn_str rt e))
        end)).
Proof.
  unfold api_coins_search. destruct (search_term q query) as [term|].
  - unfold str_truthy. destruct (String.eqb_spec term "") as [->|Hne]; cbn [negb].
    + eexists _, _. split; [reflexivity|]. left. auto.
    + rewrite run_bind. unfold call, with_world.
      destruct (coingecko_search term (world s)) as [[found|e] w] eqn:Hsearch;
        eexists _, _; (split; [reflexivity|]); right; exists term;
        rewrite Hsearch; simpl; split_and!; auto.
  - eexists _, _. split; [reflexivity|]. left. auto.
Qed.

(** ** The properties on concrete inputs *)

(** The environment and the chains file hold the same plain document. *)
Lemma loaders_agree_on_plain_documents_witness :
  (Registry.load_chains_from_env_json same_sources 0).1 =
  (Registry.load_chains_file same_sources "chains.json" 0).1 /\
  (Registry.load_chains_file same_sources "chains.json" 0).1 =
  [("ethereum", VStr "https://a.example"); ("base", VStr "https://b.example")].
Proof.
  split; [|reflexivity].
  apply (loaders_agree_on_plain_documents same_sources "plain-text" "chains.json"
           plain_document 0 0 0 0 1);
    [reflexivity | discriminate | discriminate | reflexivity | reflexivity | reflexivity
    | reflexivity |].
  repeat constructor; simpl; discriminate.
Defined.

(** On an endpoint that is the empty string the two loaders differ: the
    file registers it, the environment does not. *)
Example loaders_differ_on_an_empty_endpoint :
  Registry.file_entries [("x", VDict [("rpc", VStr "")])] [] = [("x", VStr "")] /\
  Registry.env_entries [("x", VDict [("rpc", VStr "")])] [] = [].
Proof. split; reflexivity. Qed.

(** On an endpoint that is a number the two loaders differ the other way. *)
Example loaders_differ_on_a_number :
  Registry.file_entries [("x", VDict [("rpc", VInt 8545)])] [] = [] /\
  Registry.env_entries [("x", VDict [("rpc", VInt 8545)])] [] = [("x", VInt 8545)].
Proof. split; reflexivity. Qed.

Lemma reload_unregisters_no_chain_witness :
  is_Some (Registry.RPC_URLS
             (Registry.reload_rpc_config_if_changed two_sources default_config)
           !! "cronos").
Proof.
  apply (reload_unregisters_no_chain two_sources default_config "cronos").
  eexists. vm_compute. reflexivity.
Defined.

(** The first reload reads the file and [ethereum] gets the file's
    endpoint; the second finds the file unchanged, does not read it, and
    [ethereum] is back at the environment's endpoint. *)
Lemma environment_entry_returns_after_file_entry_witness :
  let c1 := Registry.reload_rpc_config_if_changed two_sources default_config in
  let c2 := Registry.reload_rpc_config_if_changed two_sources c1 in
  Registry.RPC_URLS c1 !! "ethereum" = Some (VStr "https://file.example") /\
  Registry.world c1 = 1 /\
  Registry.RPC_URLS c2 !! "ethereum" = Some (VStr "https://env.example") /\
  Registry.world c2 = 1.
Proof.
  cbv zeta.
  destruct (environment_entry_returns_after_file_entry two_sources default_config
              "chains.json" "ethereum" (VStr "https://env.example")
              (VStr "https://file.example")
              [("ethereum", VStr "https://env.example")]
              [("ethereum", VStr "https://file.example");
               ("base", VStr "https://base.example")]
              0 0 1 1000%float)
    as (Hfile & _ & Hworld & Hnext);
    [reflexivity | discriminate | reflexivity | reflexivity | reflexivity | reflexivity
    | reflexivity | reflexivity |].
  destruct (Hnext [("ethereum", VStr "https://env.example")] 1 1000%float 1)
    as (Henv & Hworld2); [reflexivity | reflexivity | reflexivity | reflexivity |].
  split_and!; assumption.
Defined.

(** The reload moves [ethereum] to another endpoint; the provider that was
    built for the old endpoint is the one returned. *)
Lemma get_web3_returns_cached_provider_witness :
  get_web3 reconfigured (VStr "ethereum") connected =
  (Ok (Some "https://cloudflare-eth.com"),
   (reload_rpc_config_if_changed reconfigured connected).2) /\
  RPC_URLS (reload_rpc_config_if_changed reconfigured connected).2 !! "ethereum" =
  Some "https://eth.example".
Proof.
  split; [|vm_compute; reflexivity].
  apply (get_web3_returns_cached_provider reconfigured "ethereum"
           "https://cloudflare-eth.com" connected).
  - vm_compute. reflexivity.
  - eexists. vm_compute. reflexivity.
Defined.

Lemma get_web3_builds_a_provider_once_witness :
  exists s1,
    get_web3 all_down (VStr "polygon") fresh = (Ok (Some "https://rpc.ankr.com/polygon"), s1) /\
    _WEB3_PROVIDERS s1 !! "polygon" = Some "https://rpc.ankr.com/polygon" /\
    (get_web3 all_down (VStr "polygon") (with_world s1 [])).1 =
    Ok (Some "https://rpc.ankr.com/polygon").
Proof.
  pose (s1 := (get_web3 all_down (VStr "polygon") fresh).2).
  assert (get_web3 all_down (VStr "polygon") fresh =
          (Ok (Some "https://rpc.ankr.com/polygon"), s1)) as Hfirst
    by (vm_compute; reflexivity).
  destruct (get_web3_builds_a_provider_once all_down "polygon" fresh s1 _ Hfirst)
    as (Hcached & Hagain).
  exists s1. split_and!; [exact Hfirst | exact Hcached |].
  rewrite (Hagain []). reflexivity.
Defined.

Lemma stub_counts_requests now http native erc20 :
  counts_requests (stub now http native erc20) length.
Proof.
  unfold counts_requests. simpl. split_and!; intros; rewrite ?length_app; simpl; lia.
Defined.

(** Two coin ids, one of them the native coin, and one explicit token: at
    most four requests; this run sends four. *)
Lemma compute_balance_sends_bounded_requests_witness :
  length (world (compute_balance_for_chain ascii_runtime funded "ethereum" "0xabc"
                   ["ethereum"; "usd-coin"] [[("contract", VStr usdc_address)]] fresh).2)
  <= 0 + (2 + 1 + 1) /\
  length (world (compute_balance_for_chain ascii_runtime funded "ethereum" "0xabc"
                   ["ethereum"; "usd-coin"] [[("contract", VStr usdc_address)]] fresh).2)
  = 4.
Proof.
  split; [|vm_compute; reflexivity].
  apply (compute_balance_sends_bounded_requests ascii_runtime funded length "ethereum"
           "0xabc" ["ethereum"; "usd-coin"] [[("contract", VStr usdc_address)]] fresh).
  apply stub_counts_requests.
Defined.

Lemma all_down_unreachable : provider_unreachable all_down.
Proof. intros r w. exact I. Defined.

Lemma unreachable_provider_raises_for_coin_ids_witness :
  (compute_balance_for_chain ascii_runtime all_down "ethereum" "0xabc"
     ["ethereum"; " usd-coin "] [] fresh).1 = Raise AttributeError.
Proof.
  apply (unreachable_provider_raises_for_coin_ids ascii_runtime all_down "ethereum"
           "0xabc" ["ethereum"; " usd-coin "] [] fresh);
    [apply all_down_unreachable | reflexivity | reflexivity | vm_compute; discriminate].
Defined.

(** A stale entry and a provider that is down: the answer is the empty
    list, and the stale quote stays in the cache. *)
Lemma failed_fetch_serves_nothing_and_stores_nothing_witness :
  let stale := VList [quote "bitcoin" "btc" "Bitcoin" 60000] in
  let s := mkState default_rpc_urls ∅ {[ "bitcoin" := (50%float, stale) ]} ∅ [] in
  exists s1,
    cached_markets all_down ["bitcoin"] s = (Ok (VList []), s1) /\
    _MARKETS_CACHE s1 !! "bitcoin" = Some (50%float, stale) /\
    world s1 = [MarketsRequest "bitcoin" 1].
Proof.
  cbv zeta.
  destruct (failed_fetch_serves_nothing_and_stores_nothing all_down ["bitcoin"]
              (mkState default_rpc_urls ∅
                 {[ "bitcoin" := (50%float, VList [quote "bitcoin" "btc" "Bitcoin" 60000]) ]}
                 ∅ [])
              100%float [])
    as (s1 & Hrun & Hmarkets & _ & Hworld);
    [discriminate | reflexivity | vm_compute; reflexivity | exact I |].
  exists s1. split_and!; [exact Hrun | rewrite Hmarkets; reflexivity | exact Hworld].
Defined.

(** The detail of [usd-coin] is fetched at time 100 and served from the cache
    at time 130: one request in all. *)
Lemma coin_detail_is_cached_for_a_minute_witness :
  exists d s1 s2,
    cached_coin_detail (ticking [100%float; 130%float] provider) "usd-coin" fresh_at_start
      = (Ok d, s1) /\
    cached_coin_detail (ticking [100%float; 130%float] provider) "usd-coin" s1
      = (Ok d, s2) /\
    world s2 = (2, [CoinRequest "usd-coin"]).
Proof.
  pose (ext := ticking [100%float; 130%float] provider).
  pose (d := VDict [ ("id", VStr "usd-coin");
                     ("platforms",
                        VDict [ ("polygon-pos", VStr usdc_polygon_address);
                                ("ethereum", VStr usdc_address) ]) ]).
  destruct (coin_detail_is_cached_for_a_minute ext "usd-coin" fresh_at_start 100%float
              (1, []) (1, [CoinRequest "usd-coin"])
              {| resp_ok := true; resp_json := Ok d |} d)
    as (s1 & Hfirst & Hentry & Hsecond);
    [reflexivity | exact I | reflexivity | reflexivity | reflexivity |].
  assert (world s1 = (1, [CoinRequest "usd-coin"])) as Hworld.
  { assert (s1 = (cached_coin_detail ext "usd-coin" fresh_at_start).2) as ->
      by (now rewrite Hfirst). vm_compute. reflexivity. }
  exists d, s1, (with_world s1 (2, [CoinRequest "usd-coin"])).
  split_and!; [exact Hfirst | | reflexivity].
  apply (Hsecond s1 130%float (2, [CoinRequest "usd-coin"])); [reflexivity | |].
  - unfold ext. simpl. rewrite Hworld. reflexivity.
  - vm_compute. reflexivity.
Defined.

Lemma markets_key_identifies_the_ids_witness :
  ["solana"; "bitcoin"; "ethereum"] ≡ₚ ["ethereum"; "solana"; "bitcoin"].
Proof.
  apply (markets_key_identifies_the_ids ["solana"; "bitcoin"; "ethereum"]
           ["ethereum"; "solana"; "bitcoin"]);
    [discriminate | discriminate | | | vm_compute; reflexivity];
    repeat constructor; discriminate.
Defined.

(** A comma inside an id makes two different lists share a key. *)
Example comma_in_an_id_shares_the_key :
  markets_key ["bitcoin,ethereum"] = markets_key ["bitcoin"; "ethereum"].
Proof. vm_compute. reflexivity. Qed.

Lemma found_contract_is_never_empty_witness :
  exists f s',
    find_contract_for_coin_id funded "usd-coin" fresh = (Ok (Some f), s') /\
    py_truthy (contract f) = true /\
    contract f = VStr usdc_address.
Proof.
  eexists _, _. split; [vm_compute; reflexivity|]. split; [|reflexivity].
  apply (found_contract_is_never_empty funded "usd-coin" fresh
           (find_contract_for_coin_id funded "usd-coin" fresh).2).
  vm_compute. reflexivity.
Defined.

(** A coin id made of blanks is looked up as the empty id. *)
Example blank_coin_id_is_looked_up :
  clean_coin_ids ascii_runtime ["bitcoin"; ""; "   "; " bitcoin"] = ["bitcoin"; ""].
Proof. vm_compute. reflexivity. Qed.

(** [cronos] has an endpoint and no native coin id: the balance is there,
    the price is not, and the provider is not asked. *)
Lemma chain_without_native_coin_has_no_price_witness :
  (exists usd,
     native_stage ascii_runtime funded "cronos" "0xabc"
       (mkResult "cronos" "0xabc" VNone [] [] None) fresh =
     (Ok (set_native (mkResult "cronos" "0xabc" VNone [] [] None)
            (VDict [ ("symbol", VStr (str_upper ascii_runtime "cronos"));
                     ("balance", VFloat (balance_or_zero (Some 1.5%float)));
                     ("usd_price", VNone);
                     ("usd_value", usd);
                     ("price_change_24h", VNone) ])),
      (get_native_evm_balance funded "cronos" "0xabc" fresh).2) /\
     (usd = VInt 0 \/
      exists b, Some 1.5%float = Some b /\ usd = VFloat (PrimFloat.mul b f0))) /\
  (native_stage ascii_runtime funded "cronos" "0xabc"
     (mkResult "cronos" "0xabc" VNone [] [] None) fresh).1 =
  Ok (mkResult "cronos" "0xabc"
        (VDict [ ("symbol", VStr "CRONOS"); ("balance", VFloat 1.5);
                 ("usd_price", VNone); ("usd_value", VFloat 0);
                 ("price_change_24h", VNone) ]) [] [] None) /\
  world (native_stage ascii_runtime funded "cronos" "0xabc"
           (mkResult "cronos" "0xabc" VNone [] [] None) fresh).2 = [].
Proof.
  split; [|split; vm_compute; reflexivity].
  apply (chain_without_native_coin_has_no_price ascii_runtime funded "cronos" "0xabc"
           (mkResult "cronos" "0xabc" VNone [] [] None) fresh
           (get_native_evm_balance funded "cronos" "0xabc" fresh).2
           (Some 1.5%float));
    [eexists; vm_compute; reflexivity | discriminate | reflexivity
    | vm_compute; reflexivity].
Defined.

(** The provider is down and the chain answers: the token gets its line,
    with its balance and without a price. *)
Lemma explicit_token_survives_failed_lookup_witness :
  exists line s2,
    explicit_token ascii_runtime provider_lost "ethereum" "0xabc"
      [("contract", VStr usdc_address); ("symbol", VStr "usdc")]
      (mkResult "ethereum" "0xabc" VNone [] [] None) fresh =
    (Ok (add_token (mkResult "ethereum" "0xabc" VNone [] [] None) line), s2) /\
    field line "contract" = Some (VStr usdc_address) /\
    field line "chain" = Some (VStr "ethereum") /\
    field line "balance" = Some (VFloat (balance_or_zero (Some 100%float))) /\
    field line "usd_price" = Some VNone /\
    field line "usd_value" = Some (VFloat (PrimFloat.mul (or_float0 (Some 100%float)) f0)) /\
    res_errors (add_token (mkResult "ethereum" "0xabc" VNone [] [] None) line) = [].
Proof.
  apply (explicit_token_survives_failed_lookup ascii_runtime provider_lost "ethereum"
           "0xabc" [("contract", VStr usdc_address); ("symbol", VStr "usdc")]
           "ethereum" usdc_address (mkResult "ethereum" "0xabc" VNone [] [] None) fresh
           (get_erc20_balance provider_lost (VStr "ethereum") (VStr usdc_address)
              "0xabc" fresh).2
           (Some 100%float));
    [intros r w; exact I | reflexivity | reflexivity | discriminate
    | right; eexists; reflexivity | vm_compute; reflexivity].
Defined.

(** 100 USDC at $1 are worth $100. *)
Lemma token_lines_are_priced_witness :
  exists r s',
    compute_balance_for_chain ascii_runtime funded "ethereum" "0xabc"
      ["ethereum"; "usd-coin"] [] fresh = (Ok r, s') /\
    Forall priced_line (res_tokens r) /\
    map (fun line => (field line "balance", field line "usd_price", field line "usd_value"))
      (res_tokens r) =
    [(Some (VFloat 100), Some (VFloat 1), Some (VFloat 100))].
Proof.
  eexists _, _. split; [vm_compute; reflexivity|]. split; [|vm_compute; reflexivity].
  apply (token_lines_are_priced ascii_runtime funded "ethereum" "0xabc"
           ["ethereum"; "usd-coin"] [] fresh
           (compute_balance_for_chain ascii_runtime funded "ethereum" "0xabc"
              ["ethereum"; "usd-coin"] [] fresh).2).
  vm_compute. reflexivity.
Defined.

(** 2.5 SOL, and an empty wallet. *)
Lemma solana_balance_is_lamports_in_sol_witness :
  get_solana_balance (solana_up 2500000000) "wallet" fresh =
  (Ok (Some (PrimFloat.div 2500000000 1e9)), with_world fresh []) /\
  (get_solana_balance (solana_up 2500000000) "wallet" fresh).1 = Ok (Some 2.5%float) /\
  (get_solana_balance (solana_up 0) "wallet" fresh).1 = Ok (Some 0%float).
Proof.
  split; [|split; vm_compute; reflexivity].
  apply (solana_balance_is_lamports_in_sol (solana_up 2500000000) "wallet" fresh []
           [ ("jsonrpc", VStr "2.0");
             ("result", VDict [ ("context", VDict [("slot", VInt 1)]);
                                ("value", VInt 2500000000) ]);
             ("id", VInt 1) ]
           [ ("context", VDict [("slot", VInt 1)]); ("value", VInt 2500000000) ]
           2500000000 2500000000%float);
    [reflexivity | reflexivity | reflexivity | reflexivity | vm_compute; reflexivity].
Defined.

(** Only separators and blanks: 200 and the empty list, nothing sent. *)
Lemma api_coins_markets_blank_ids_give_empty_list_witness :
  api_coins_markets ascii_runtime all_down (Some " , ,") fresh =
  (Ok (mkReply 200 (VList [])), fresh).
Proof.
  apply (api_coins_markets_blank_ids_give_empty_list ascii_runtime all_down " , ," fresh);
    [discriminate | repeat constructor].
Defined.

(** The ids are split, stripped and sent sorted; the provider is down, and
    the answer is still 200. *)
Example api_coins_markets_hides_a_failure :
  exists s',
    api_coins_markets ascii_runtime all_down (Some " ethereum, bitcoin ,,") fresh =
    (Ok (mkReply 200 (VList [])), s') /\
    world s' = [MarketsRequest "bitcoin,ethereum" 2].
Proof. eexists. split; vm_compute; reflexivity. Qed.

(** An empty [q] falls back to [query]; the provider's refusal is a 500 with
    its text. *)
Example api_coins_search_reports_the_failure :
  api_coins_search ascii_runtime search_limited (Some "") (Some "bitcoin") fresh =
  (Ok (mkReply 500 (VDict [ ("error", VStr "search failed");
                            ("detail", VStr "429 Too Many Requests") ])), fresh) /\
  api_coins_search ascii_runtime search_limited (Some "") None fresh =
  (Ok (mkReply 400 (VDict [("error", VStr "q parameter required")])), fresh).
Proof. split; vm_compute; reflexivity. Qed.

(** ** A failed balance call and an empty wallet *)

Section Indistinguishable.
Context {W : Type} (rt : Runtime) (ext : Collaborators W).

Local Notation "'down'" := (with_balances ext None None).
Local Notation "'empty'" := (with_balances ext (Some f0) (Some f0)).

Lemma get_web3_with_balances chain_key a b :
  get_web3 (with_balances ext a b) chain_key = get_web3 ext chain_key.
Proof. reflexivity. Qed.

Lemma cached_markets_with_balances ids a b :
  cached_markets (with_balances ext a b) ids = cached_markets ext ids.
Proof. reflexivity. Qed.

Lemma find_contract_with_balances coin_id a b :
  find_contract_for_coin_id (with_balances ext a b) coin_id =
  find_contract_for_coin_id ext coin_id.
Proof. reflexivity. Qed.

Lemma enrich_with_balances tchain tcontract a b :
  enrich (with_balances ext a b) tchain tcontract = enrich ext tchain tcontract.
Proof.
  unfold enrich.
  destruct (table_key_of PLATFORM_TO_CHAIN_KEY tchain) as [pf|]; [|reflexivity].
  destruct (str_truthy pf); reflexivity.
Qed.

(** The two runs of an adapter are equal, or they differ by [None] against
    [0.0] only. *)
Lemma native_balance_alike chain address (s : State W) :
  get_native_evm_balance down chain address s =
  get_native_evm_balance empty chain address s \/
  exists s1,
    get_native_evm_balance down chain address s = (Ok None, s1) /\
    get_native_evm_balance empty chain address s = (Ok (Some f0), s1).
Proof.
  unfold get_native_evm_balance. rewrite !run_bind.
  rewrite !get_web3_with_balances.
  destruct (get_web3 ext (VStr chain) s) as [[[h|]|e] s1]; [right | left | left];
    try reflexivity.
  eexists. split; reflexivity.
Qed.

Lemma erc20_balance_alike chain_key contract_address address (s : State W) :
  get_erc20_balance down chain_key contract_address address s =
  get_erc20_balance empty chain_key contract_address address s \/
  exists s1,
    get_erc20_balance down chain_key contract_address address s = (Ok None, s1) /\
    get_erc20_balance empty chain_key contract_address address s = (Ok (Some f0), s1).
Proof.
  unfold get_erc20_balance. rewrite !run_bind.
  rewrite !get_web3_with_balances.
  destruct (get_web3 ext chain_key s) as [[[h|]|e] s1]; [right | left | left];
    try reflexivity.
  eexists. split; reflexivity.
Qed.

Lemma native_evm_alike chain address (s : State W) :
  native_evm rt down chain address s = native_evm rt empty chain address s.
Proof.
  unfold native_evm. rewrite !run_bind.
  destruct (native_balance_alike chain address s) as [-> | (s1 & -> & ->)].
  - destruct (get_native_evm_balance empty chain address s) as [[bal|e] s1]; reflexivity.
  - reflexivity.
Qed.

Lemma native_stage_alike chain address result (s : State W) :
  native_stage rt down chain address result s = native_stage rt empty chain address result s.
Proof.
  unfold native_stage, try_except. rewrite !run_bind. unfold get_state.
  destruct (_ && _); [|reflexivity].
  rewrite !run_bind, native_evm_alike. reflexivity.
Qed.

Lemma coin_line_found_alike address coin_id found markets (s : State W) :
  coin_line_found rt down address coin_id found markets s =
  coin_line_found rt empty address coin_id found markets s.
Proof.
  unfold coin_line_found. rewrite !run_bind. unfold get_state.
  destruct (table_get PLATFORM_TO_CHAIN_KEY (platform found)) as [k|]; [|reflexivity].
  destruct (_ && _); [|reflexivity]. rewrite !run_bind.
  destruct (erc20_balance_alike (VStr k) (contract found) address s)
    as [-> | (s1 & -> & ->)]; reflexivity.
Qed.

Lemma coin_tokens_alike chain address markets ids : forall result (s : State W),
  coin_tokens rt down chain address markets ids result s =
  coin_tokens rt empty chain address markets ids result s.
Proof.
  induction ids as [|id ids IH]; intros result s; [reflexivity|]. simpl.
  destruct (native_of chain id); [apply IH|]. rewrite !run_bind.
  rewrite !find_contract_with_balances.
  destruct (find_contract_for_coin_id ext id s) as [[found|e] s1]; [|reflexivity].
  rewrite !run_bind.
  destruct found as [f|]; [destruct (py_truthy (contract f))|].
  - rewrite coin_line_found_alike.
    destruct (coin_line_found rt empty address id f markets s1) as [[line|e] s2];
      [apply IH | reflexivity].
  - destruct (eval _ s1) as [[line|e] s2]; [apply IH | reflexivity].
  - destruct (eval _ s1) as [[line|e] s2]; [apply IH | reflexivity].
Qed.

Lemma coin_stage_alike chain address coin_ids result (s : State W) :
  coin_stage rt down chain address coin_ids result s =
  coin_stage rt empty chain address coin_ids result s.
Proof.
  unfold coin_stage. rewrite !run_bind.
  destruct (clean_coin_ids rt coin_ids) as [|c ids].
  - reflexivity.
  - rewrite !cached_markets_with_balances.
    match goal with
    | |- context [match ?m s with _ => _ end] => destruct (m s) as [[markets|e] s1]
    end; [apply coin_tokens_alike | reflexivity].
Qed.

Lemma balance_or_zero_alike : balance_or_zero (Some f0) = balance_or_zero None.
Proof. reflexivity. Qed.

Lemma or_float0_alike : or_float0 (Some f0) = or_float0 None.
Proof. reflexivity. Qed.

Lemma token_line_alike t tchain tcontract e :
  token_line rt t tchain tcontract None e = token_line rt t tchain tcontract (Some f0) e.
Proof.
  unfold token_line. now rewrite balance_or_zero_alike, or_float0_alike.
Qed.

Lemma explicit_token_alike chain address t result (s : State W) :
  explicit_token rt down chain address t result s =
  explicit_token rt empty chain address t result s.
Proof.
  unfold explicit_token, try_except. cbv zeta.
  destruct (negb _); [reflexivity|]. rewrite !run_bind.
  set (tchain := py_or (dict_get_none t "chain") (VStr chain)).
  set (tcontract := dict_get_none t "contract").
  rewrite !enrich_with_balances.
  destruct (erc20_balance_alike tchain tcontract address s) as [-> | (s1 & -> & ->)].
  - destruct (get_erc20_balance empty tchain tcontract address s) as [[balance|e0] s1];
      reflexivity.
  - rewrite !run_bind.
    destruct (enrich ext tchain tcontract s1) as [[e|e0] s2]; [|reflexivity].
    rewrite !run_bind. unfold eval. now rewrite token_line_alike.
Qed.

Lemma explicit_tokens_alike chain address tokens : forall result (s : State W),
  explicit_tokens rt down chain address tokens result s =
  explicit_tokens rt empty chain address tokens result s.
Proof.
  induction tokens as [|t tokens IH]; intros result s; [reflexivity|]. simpl.
  rewrite !run_bind, explicit_token_alike.
  destruct (explicit_token rt empty chain address t result s) as [[mid|e] s1];
    [apply IH | reflexivity].
Qed.

End Indistinguishable.

(** X22. The result does not tell a failed balance call from an empty
    wallet. With every EVM balance call failing, [compute_balance_for_chain]
    returns, or raises, exactly what it does with every balance call
    answering [0.0], and leaves the same state: the lines, the errors and
    the total are equal. *)
Theorem failed_balance_call_looks_like_empty_wallet {W} (rt : Runtime)
    (ext : Collaborators W) (chain address : string) (coin_ids : list string)
    (tokens : list (list (string * pyval))) (s : State W) :
  compute_balance_for_chain rt (with_balances ext None None) chain address coin_ids tokens s =
  compute_balance_for_chain rt (with_balances ext (Some f0) (Some f0)) chain address
    coin_ids tokens s.
Proof.
  unfold compute_balance_for_chain. rewrite !run_bind, native_stage_alike.
  destruct (native_stage _ _ _ _ _ s) as [[r1|e1] s1]; [|reflexivity].
  rewrite !run_bind, coin_stage_alike.
  destruct (coin_stage _ _ _ _ _ r1 s1) as [[r2|e2] s2]; [|reflexivity].
  rewrite !run_bind, explicit_tokens_alike.
  destruct (explicit_tokens _ _ _ _ _ r2 s2) as [[r3|e3] s3]; reflexivity.
Qed.

(** X23. A reload writes over the chains that the environment or the chains
    file names and over no other: a chain that neither names keeps the
    endpoint it had. *)
Theorem reload_leaves_unnamed_chains_alone {W} (src : Registry.Sources W)
    (c : Registry.Config W) (k : string) (E : list (string * pyval)) (w1 : W) :
  Registry.load_chains_from_env_json src (Registry.world c) = (E, w1) ->
  dict_get E k = None ->
  (forall path w, dict_get (Registry.load_chains_file src path w).1 k = None) ->
  Registry.RPC_URLS (Registry.reload_rpc_config_if_changed src c) !! k =
  Registry.RPC_URLS c !! k.
Proof.
  intros Henv HE Hfile.
  assert (Registry.register (Registry.RPC_URLS c) E !! k = Registry.RPC_URLS c !! k) as Hfirst.
  { pose proof (load_chains_from_env_json_keys src (Registry.world c)) as Hnd.
    rewrite Henv in Hnd. rewrite register_lookup by exact Hnd. now rewrite HE. }
  unfold Registry.reload_rpc_config_if_changed. rewrite Henv.
  destruct (Registry._CHAIN_CONFIG_PATH src) as [path|]; simpl; [|exact Hfirst].
  destruct (str_truthy path); simpl; [|exact Hfirst].
  destruct (Registry.getmtime src path w1) as [[mtime|e] w2]; simpl; [|exact Hfirst].
  destruct (Registry.mtime_changed mtime (Registry._CHAIN_CONFIG_MTIME c)); simpl;
    [|exact Hfirst].
  pose proof (load_chains_file_keys src path w2) as Hnd. specialize (Hfile path w2).
  destruct (Registry.load_chains_file src path w2) as [new_map w3]. simpl in *.
  rewrite register_lookup by exact Hnd. now rewrite Hfile.
Qed.

Lemma reload_leaves_unnamed_chains_alone_witness :
  Registry.RPC_URLS (Registry.reload_rpc_config_if_changed two_sources default_config)
    !! "cronos" = Some (VStr "https://evm.cronos.org").
Proof.
  rewrite (reload_leaves_unnamed_chains_alone two_sources default_config "cronos"
             [("ethereum", VStr "https://env.example")] 0);
    [vm_compute; reflexivity | reflexivity | reflexivity |].
  intros path w. unfold Registry.load_chains_file.
  destruct (str_truthy path); reflexivity.
Defined.

(** ** A platform without a chain *)

(** X24. A coin whose contract is found on a platform that
    [PLATFORM_TO_CHAIN_KEY] does not know gets a line with a null [chain]
    and balance [0.0], its value [0.0] times the price. No chain is asked
    for the balance, and nothing is recorded in [errors]: the zero does not
    say that the wallet is empty. *)
Theorem unknown_platform_gets_zero_balance {W} (rt : Runtime) (ext : Collaborators W)
    (address coin_id : string) (found : Found) (markets : gmap string pyval)
    (s s' : State W) (line : pyval) :
  table_get PLATFORM_TO_CHAIN_KEY (platform found) = None ->
  coin_line_found rt ext address coin_id found markets s = (Ok line, s') ->
  s' = s /\
  field line "contract" = Some (contract found) /\
  field line "platform" = Some (VStr (platform found)) /\
  field line "chain" = Some VNone /\
  field line "balance" = Some (VFloat f0) /\
  exists p,
    field line "usd_price" = Some (VFloat p) /\
    field line "usd_value" = Some (VFloat (PrimFloat.mul f0 (or_float0 (Some p)))).
Proof.
  intros Hplatform. unfold coin_line_found. rewrite Hplatform.
  rewrite run_bind. unfold get_state. rewrite run_bind. cbn [mret M_ret].
  intros Hrun. apply run_eval_inv in Hrun as [Hline ->].
  apply outcome_bind_inv in Hline as (price & _ & Hline).
  repeat (apply outcome_bind_inv in Hline as (? & _ & Hline)).
  injection Hline as <-. split_and!; try reflexivity.
  exists price. split; reflexivity.
Qed.

(** Tether on Tron: the line says balance [0.0] at $1, and no chain was
    asked. *)
Lemma unknown_platform_gets_zero_balance_witness :
  let run :=
    coin_line_found ascii_runtime funded "0xabc" "tether"
      {| contract := VStr "TR7NHqjeKQxGTCi8q8ZY4pL8otSzgjLj6t"; platform := "tron" |}
      {[ "tether" := quote "tether" "usdt" "Tether" 1 ]} fresh in
  exists line,
    run.1 = Ok line /\
    run.2 = fresh /\
    field line "chain" = Some VNone /\
    field line "balance" = Some (VFloat f0) /\
    field line "usd_price" = Some (VFloat 1).
Proof.
  intros run.
  pose (line := VDict [ ("coin_id", VStr "tether"); ("symbol", VStr "USDT");
                        ("name", VStr "Tether");
                        ("contract", VStr "TR7NHqjeKQxGTCi8q8ZY4pL8otSzgjLj6t");
                        ("platform", VStr "tron"); ("chain", VNone);
                        ("balance", VFloat 0); ("usd_price", VFloat 1);
                        ("price_change_24h", VNone); ("usd_value", VFloat 0);
                        ("logo", VNone) ]).
  assert (run = (Ok line, run.2)) as Hrun by (vm_compute; reflexivity).
  destruct (unknown_platform_gets_zero_balance ascii_runtime funded "0xabc" "tether"
              {| contract := VStr "TR7NHqjeKQxGTCi8q8ZY4pL8otSzgjLj6t"; platform := "tron" |}
              {[ "tether" := quote "tether" "usdt" "Tether" 1 ]} fresh run.2 line
              eq_refl Hrun)
    as (Hstate & _ & _ & Hchain & Hbalance & _).
  exists line. split_and!; [reflexivity | exact Hstate | exact Hchain | exact Hbalance
                          | reflexivity].
Defined.

(** ** The quotes of the coin ids *)

Lemma index_markets_app l1 : forall l2 markets,
  index_markets (l1 ++ l2) markets = index_markets l1 markets ≫= index_markets l2.
Proof.
  induction l1 as [|m l1 IH]; intros l2 markets; [reflexivity|]. simpl.
  destruct (py_get m "id") as [id|e]; [|reflexivity]. simpl.
  destruct (py_truthy id); [|apply IH].
  destruct id; try apply IH; reflexivity.
Qed.

Lemma index_markets_other k l : forall markets indexed,
  index_markets l markets = Ok indexed ->
  Forall (fun m => py_get m "id" <> Ok (VStr k)) l ->
  indexed !! k = markets !! k.
Proof.
  induction l as [|m l IH]; intros markets indexed; simpl.
  - now intros [= <-].
  - intros Hrun Hother. apply Forall_cons in Hother as [Hm Hother].
    destruct (py_get m "id") as [id|e]; [|discriminate]. simpl in Hrun.
    destruct (py_truthy id); [|now apply IH].
    destruct id as [| | | |k'| |]; try discriminate; try (now apply IH).
    rewrite (IH _ _ Hrun Hother). apply lookup_insert_ne. congruence.
Qed.

(** X25. When the provider's answer holds several quotes with the same id,
    the last of them is the quote of that coin: it is the one the dictionary
    of quotes keeps, whatever came before it. *)
Theorem last_quote_of_an_id_wins (before after : list pyval) (m : pyval) (k : string)
    (markets indexed : gmap string pyval) :
  py_get m "id" = Ok (VStr k) ->
  k <> "" ->
  Forall (fun q => py_get q "id" <> Ok (VStr k)) after ->
  index_markets (before ++ m :: after) markets = Ok indexed ->
  markets_get indexed k = m.
Proof.
  intros Hid Hk Hafter. rewrite index_markets_app. intros Hrun.
  apply outcome_bind_inv in Hrun as (mid & _ & Hrun). simpl in Hrun.
  rewrite Hid in Hrun. simpl in Hrun.
  destruct (String.eqb_spec k ""); [contradiction|]. simpl in Hrun.
  unfold markets_get. rewrite (index_markets_other k after _ _ Hrun Hafter).
  now rewrite lookup_insert_eq.
Qed.

Lemma last_quote_of_an_id_wins_witness :
  markets_get
    (<["bitcoin" := quote "bitcoin" "btc" "Bitcoin" 61000]>
       (<["ethereum" := quote "ethereum" "eth" "Ethereum" 3000]> ∅))
    "bitcoin" = quote "bitcoin" "btc" "Bitcoin" 61000.
Proof.
  apply (last_quote_of_an_id_wins
           [quote "bitcoin" "btc" "Bitcoin" 60000]
           [quote "ethereum" "eth" "Ethereum" 3000]
           (quote "bitcoin" "btc" "Bitcoin" 61000) "bitcoin" ∅);
    [reflexivity | discriminate | repeat constructor; discriminate | ].
  vm_compute. reflexivity.
Defined.

(** ** A chain that is no string *)

(** X26. An explicit token whose [chain] is a list or an object that is not
    empty cannot be looked up in [RPC_URLS]: the test of the key raises
    [TypeError], the entry gets no line, and one [token_error] entry with
    the text of the exception is appended; the state is the one the reload
    left. *)
Theorem unhashable_chain_is_a_token_error {W} (rt : Runtime) (ext : Collaborators W)
    (chain address : string) (t : list (string * pyval)) (result : Result)
    (s : State W) :
  py_truthy (dict_get_none t "contract") = true ->
  py_truthy (dict_get_none t "chain") = true ->
  (exists l, dict_get_none t "chain" = VList l) \/
  (exists d, dict_get_none t "chain" = VDict d) ->
  explicit_token rt ext chain address t result s =
  (Ok (add_error result ("token_error:" +:+ exn_str rt TypeError)),
   (reload_rpc_config_if_changed ext s).2).
Proof.
  intros Hcontract Htruthy Hchain.
  pose proof (reload_run ext s) as Hreload.
  set (s1 := (reload_rpc_config_if_changed ext s).2) in *.
  unfold explicit_token, try_except. cbv zeta. rewrite Hcontract. cbn [negb].
  unfold py_or. rewrite Htruthy.
  unfold get_erc20_balance, get_web3. rewrite !run_bind. unfold try_except.
  rewrite Hreload. rewrite !run_bind. unfold get_state. rewrite run_bind.
  destruct Hchain as [[l ->] | [d ->]]; reflexivity.
Qed.

Lemma unhashable_chain_is_a_token_error_witness :
  explicit_token ascii_runtime funded "ethereum" "0xabc"
    [("contract", VStr usdc_address); ("chain", VList [VStr "ethereum"])]
    (mkResult "ethereum" "0xabc" VNone [] [] None) fresh =
  (Ok (mkResult "ethereum" "0xabc" VNone [] ["token_error:TypeError"] None), fresh).
Proof.
  rewrite (unhashable_chain_is_a_token_error ascii_runtime funded "ethereum" "0xabc"
             [("contract", VStr usdc_address); ("chain", VList [VStr "ethereum"])]
             (mkResult "ethereum" "0xabc" VNone [] [] None) fresh);
    [vm_compute; reflexivity | reflexivity | reflexivity | left; eexists; reflexivity].
Defined.

(** ** The symbol and the name of an explicit token *)

Lemma py_slice6_truthy v x : py_slice6 v = Ok x -> py_truthy v = true -> py_truthy x = true.
Proof.
  destruct v as [| | | |s|l|]; try discriminate; intros [= <-]; simpl.
  - destruct s; [discriminate | reflexivity].
  - destruct l; [discriminate | reflexivity].
Qed.

Lemma py_or_truthy a b : py_truthy b = true -> py_truthy (py_or a b) = true.
Proof. intros Hb. unfold py_or. destruct (py_truthy a) eqn:Ha; assumption. Qed.

Lemma token_line_named rt t tchain tcontract balance e line :
  py_truthy tcontract = true ->
  token_line rt t tchain tcontract balance e = Ok line ->
  exists symbol name,
    field line "symbol" = Some symbol /\ py_truthy symbol = true /\
    field line "name" = Some name /\ py_truthy name = true.
Proof.
  intros Hcontract. unfold token_line. intros H.
  apply outcome_bind_inv in H as (upper & _ & H).
  apply outcome_bind_inv in H as (symbol & Hsymbol & H).
  apply outcome_bind_inv in H as (shown & _ & H).
  apply outcome_bind_inv in H as (price & _ & H).
  injection H as <-. eexists _, _. split_and!; try reflexivity.
  - destruct (py_truthy upper) eqn:Hupper.
    + now injection Hsymbol as <-.
    + eapply py_slice6_truthy; eassumption.
  - now do 2 apply py_or_truthy.
Qed.

(** X27. Every line of an explicit token can be shown: its [symbol] and its
    [name] are never null or empty. The symbol falls back from the
    provider's symbol to the entry's hint and then to the first six
    characters of the contract, the name from the provider's name to the
    entry's hint and then to the contract. *)
Theorem explicit_token_line_has_symbol_and_name {W} (rt : Runtime) (ext : Collaborators W)
    (chain address : string) (t : list (string * pyval)) (result after : Result)
    (s s' : State W) :
  explicit_token rt ext chain address t result s = (Ok after, s') ->
  res_tokens after = res_tokens result \/
  exists line symbol name,
    res_tokens after = res_tokens result ++ [line] /\
    field line "symbol" = Some symbol /\ py_truthy symbol = true /\
    field line "name" = Some name /\ py_truthy name = true.
Proof.
  unfold explicit_token, try_except. cbv zeta.
  destruct (py_truthy (dict_get_none t "contract")) eqn:Hcontract; cbn [negb].
  - rewrite run_bind.
    destruct (get_erc20_balance _ _ _ _ s) as [[balance|e0] s1];
      [|intros [= <- _]; now left].
    rewrite run_bind. destruct (enrich _ _ _ s1) as [[e|e0] s2];
      [|intros [= <- _]; now left].
    rewrite run_bind. unfold eval.
    destruct (token_line rt t _ _ balance e) as [line|e0] eqn:Hline;
      [|intros [= <- _]; now left].
    intros [= <- _]. right.
    destruct (token_line_named _ _ _ _ _ _ _ Hcontract Hline)
      as (symbol & name & Hsym & Hsymt & Hname & Hnamet).
    exists line, symbol, name. auto.
  - intros [= <- _]. now left.
Qed.

(** No hint and no provider: the symbol is the start of the contract, the
    name the contract. *)
Lemma explicit_token_line_has_symbol_and_name_witness :
  exists after s',
    explicit_token ascii_runtime provider_lost "ethereum" "0xabc"
      [("contract", VStr usdc_address)]
      (mkResult "ethereum" "0xabc" VNone [] [] None) fresh = (Ok after, s') /\
    map (fun line => (field line "symbol", field line "name")) (res_tokens after) =
    [(Some (VStr "0xa0b8"), Some (VStr usdc_address))] /\
    (res_tokens after = [] \/
     exists line symbol name,
       res_tokens after = [] ++ [line] /\
       field line "symbol" = Some symbol /\ py_truthy symbol = true /\
       field line "name" = Some name /\ py_truthy name = true).
Proof.
  eexists _, _. split; [vm_compute; reflexivity|]. split; [vm_compute; reflexivity|].
  apply (explicit_token_line_has_symbol_and_name ascii_runtime provider_lost "ethereum"
           "0xabc" [("contract", VStr usdc_address)]
           (mkResult "ethereum" "0xabc" VNone [] [] None) _ fresh
           (explicit_token ascii_runtime provider_lost "ethereum" "0xabc"
              [("contract", VStr usdc_address)]
              (mkResult "ethereum" "0xabc" VNone [] [] None) fresh).2).
  vm_compute. reflexivity.
Defined.

(** ** The endpoint and the cache *)

(** X28. The markets endpoint shares its cache between the spellings of a
    set of ids: an entry stored for one [ids] parameter serves every other
    parameter that holds the same ids in another order or with other
    blanks and empty pieces. Within the TTL of the entry the answer is 200
    with the entry's data, and nothing happens but a clock reading. *)
Theorem api_coins_markets_serves_respelled_ids_from_cache {W} (rt : Runtime)
    (ext : Collaborators W) (text1 text2 : string) (s : State W) (ts now : float)
    (data : pyval) (w : W) :
  ids_list rt text1 ≡ₚ ids_list rt text2 ->
  ids_list rt text2 <> [] ->
  text2 <> "" ->
  _MARKETS_CACHE s !! markets_key (ids_list rt text1) = Some (ts, data) ->
  time_time ext (world s) = (now, w) ->
  PrimFloat.ltb (PrimFloat.sub now ts) _CACHE_TTL = true ->
  api_coins_markets rt ext (Some text2) s = (Ok (mkReply 200 data), with_world s w).
Proof.
  intros Hperm Hne Htext Hentry Hclock Hfresh. unfold api_coins_markets.
  assert (str_truthy text2 = true) as ->
    by (unfold str_truthy; now destruct (String.eqb_spec text2 "")).
  cbn [negb].
  rewrite (run_bind_ok _ _ _ _ _
             (cached_markets_hit ext (ids_list rt text2) s now w ts data Hne Hclock
                ltac:(rewrite <- (markets_key_Permutation _ _ Hperm); exact Hentry)
                Hfresh)).
  reflexivity.
Qed.

(** The quotes fetched for ["bitcoin,ethereum"] answer [" ethereum , bitcoin,"]:
    one request in all. *)
Lemma api_coins_markets_serves_respelled_ids_from_cache_witness :
  exists reply s1 s2,
    api_coins_markets ascii_runtime funded (Some "bitcoin,ethereum") fresh = (Ok reply, s1) /\
    api_coins_markets ascii_runtime funded (Some " ethereum , bitcoin,") s1 = (Ok reply, s2) /\
    world s2 = [MarketsRequest "bitcoin,ethereum" 2].
Proof.
  pose (data := VList [quote "bitcoin" "btc" "Bitcoin" 60000;
                       quote "ethereum" "eth" "Ethereum" 3000]).
  pose (s1 := (api_coins_markets ascii_runtime funded (Some "bitcoin,ethereum") fresh).2).
  exists (mkReply 200 data), s1, (with_world s1 (world s1)).
  split_and!; [vm_compute; reflexivity | | vm_compute; reflexivity].
  apply (api_coins_markets_serves_respelled_ids_from_cache ascii_runtime funded
           "bitcoin,ethereum" " ethereum , bitcoin," s1 100%float 100%float data (world s1));
    [vm_compute; apply perm_swap | vm_compute; discriminate | discriminate
    | vm_compute; reflexivity | reflexivity | vm_compute; reflexivity].
Defined.

(** ** Reloading twice *)

Lemma register_twice (urls : gmap string pyval) entries :
  NoDup (map fst entries) ->
  Registry.register (Registry.register urls entries) entries = Registry.register urls entries.
Proof.
  intros Hnd. apply map_eq. intros k. rewrite !register_lookup by exact Hnd.
  now destruct (dict_get entries k).
Qed.

(** X29. Without a chains file, reloading is idempotent on the registry
    while the environment stays as it is: a second reload that reads the
    same entries leaves [RPC_URLS] as the first reload left it. *)
Theorem reload_from_environment_is_idempotent {W} (src : Registry.Sources W)
    (c : Registry.Config W) (E : list (string * pyval)) (w1 w2 : W) :
  Registry._CHAIN_CONFIG_PATH src = None ->
  Registry.load_chains_from_env_json src (Registry.world c) = (E, w1) ->
  Registry.load_chains_from_env_json src w1 = (E, w2) ->
  Registry.RPC_URLS
    (Registry.reload_rpc_config_if_changed src
       (Registry.reload_rpc_config_if_changed src c)) =
  Registry.RPC_URLS (Registry.reload_rpc_config_if_changed src c).
Proof.
  intros Hpath Hfirst Hsecond.
  pose proof (load_chains_from_env_json_keys src (Registry.world c)) as Hnd.
  rewrite Hfirst in Hnd. simpl in Hnd.
  unfold Registry.reload_rpc_config_if_changed. rewrite Hfirst, Hpath. simpl.
  rewrite Hsecond. simpl. now apply register_twice.
Qed.

Lemma reload_from_environment_is_idempotent_witness :
  Registry.RPC_URLS
    (Registry.reload_rpc_config_if_changed env_only
       (Registry.reload_rpc_config_if_changed env_only default_config)) =
  Registry.RPC_URLS (Registry.reload_rpc_config_if_changed env_only default_config) /\
  Registry.RPC_URLS (Registry.reload_rpc_config_if_changed env_only default_config)
    !! "ethereum" = Some (VStr "https://env.example").
Proof.
  split; [|vm_compute; reflexivity].
  apply (reload_from_environment_is_idempotent env_only default_config
           [("ethereum", VStr "https://env.example")] 0 0); reflexivity.
Defined.
